(** * OntoCodeIndex: the TypeScript fact extractor (ts_extractor)

    A shallow embedding of [collect.ts] (symbol identities, unit, call,
    import and export extraction, the ["use client"] probe, the per-file
    fact record) and of the driver loop of [index.ts], followed by the
    properties of the extractor that the specification states.

    JavaScript strings are sequences of UTF-16 code units, bytes are
    [Byte.byte], optional properties are [option] fields.  What the
    program obtains from ts-morph, the TypeScript checker, [node:path],
    [node:crypto] and [JSON.parse] is data of the model: fields of the
    syntax-tree records, or parameters of the functions that use them. *)

From Stdlib Require Import String Ascii DecimalString.
From Stdlib.Strings Require Import Byte.
From Stdlib Require Import ZArith List Lia Bool.
From stdpp Require Import gmap.
Import ListNotations.
Open Scope Z_scope.

(* ================================================================== *)
(** * Part I: the model *)
(* ================================================================== *)

(** ** JavaScript strings *)

Module Js.

(** A string value: its UTF-16 code units, each in [0, 65536). *)
Definition jsstring := list Z.

Definition ch (a : ascii) : Z := Z.of_N (N_of_ascii a).

(** The two quote characters, U+0022 and U+0027. *)
Definition doubleQuote : Z := 34.
Definition apostrophe : Z := 39.

(** A string literal of the program text (ASCII only). *)
Definition lit (s : string) : jsstring := map ch (list_ascii_of_string s).

Definition isCodeUnit (u : Z) : bool := (0 <=? u) && (u <? 65536).
Definition isHighSurrogate (u : Z) : bool := (55296 <=? u) && (u <? 56320).
Definition isLowSurrogate (u : Z) : bool := (56320 <=? u) && (u <? 57344).

(** [String.prototype.isWellFormed]: no lone surrogate. *)
Fixpoint isWellFormed (s : jsstring) : bool :=
  match s with
  | [] => true
  | u :: rest =>
      if isHighSurrogate u then
        match rest with
        | l :: rest' => isLowSurrogate l && isWellFormed rest'
        | [] => false
        end
      else isCodeUnit u && negb (isLowSurrogate u) && isWellFormed rest
  end.

(** A code unit that is no surrogate. *)
Definition plainUnit (u : Z) : bool :=
  isCodeUnit u && negb (isHighSurrogate u) && negb (isLowSurrogate u).

(** Truthiness of a string: [if (s)] holds for the non-empty ones. *)
Definition truthy (s : jsstring) : bool :=
  match s with [] => false | _ :: _ => true end.

(** [s.startsWith(p)] *)
Fixpoint startsWith (s p : jsstring) : bool :=
  match p, s with
  | [], _ => true
  | _ :: _, [] => false
  | c :: p', d :: s' => (c =? d) && startsWith s' p'
  end.

(** [s.replace(/[cs]/g, r)]: every code unit of the class [cs] becomes
    the string [r]. *)
Definition replaceClass (cs : list Z) (r : jsstring) (s : jsstring) : jsstring :=
  flat_map (fun c => if existsb (Z.eqb c) cs then r else [c]) s.

(** [s.replace(/[cs]+/g, r)]: every maximal run of code units of the class
    becomes one [r].  [inRun] tells that the previous unit was in a run. *)
Fixpoint replaceRuns (cs : list Z) (r : jsstring) (inRun : bool) (s : jsstring)
  : jsstring :=
  match s with
  | [] => []
  | c :: rest =>
      if existsb (Z.eqb c) cs
      then (if inRun then [] else r) ++ replaceRuns cs r true rest
      else c :: replaceRuns cs r false rest
  end.

(** [String(i)] for an integer: its decimal digits, after a minus sign for
    a negative one ([indexOf] gives [-1] at worst). *)
Definition numberToString (i : Z) : jsstring :=
  lit (NilZero.string_of_int (Z.to_int i)).

(** [pieces.join(sep)] *)
Fixpoint join (sep : jsstring) (pieces : list jsstring) : jsstring :=
  match pieces with
  | [] => []
  | [p] => p
  | p :: rest => p ++ sep ++ join sep rest
  end.

End Js.
Export Js.

(** ** Buffers: UTF-8 and base64, as Node implements them *)

Module Buffer.

Definition Z_of_byte (b : byte) : Z := Z.of_N (Byte.to_N b).

Definition byte_of_Z (z : Z) : byte :=
  match Byte.of_N (Z.to_N (z mod 256)) with
  | Some b => b
  | None => x00
  end.

(** The UTF-8 bytes of one code point. *)
Definition utf8 (c : Z) : list byte :=
  if c <? 128 then [byte_of_Z c]
  else if c <? 2048 then
    [byte_of_Z (192 + c / 64); byte_of_Z (128 + c mod 64)]
  else if c <? 65536 then
    [byte_of_Z (224 + c / 4096); byte_of_Z (128 + (c / 64) mod 64);
     byte_of_Z (128 + c mod 64)]
  else
    [byte_of_Z (240 + c / 262144); byte_of_Z (128 + (c / 4096) mod 64);
     byte_of_Z (128 + (c / 64) mod 64); byte_of_Z (128 + c mod 64)].

(** U+FFFD, which stands for every lone surrogate. *)
Definition replacementBytes : list byte := utf8 65533.

(** [Buffer.from(value)]: the default encoding is UTF-8; a surrogate pair
    is one code point, a lone surrogate is written as U+FFFD. *)
Fixpoint from (value : jsstring) : list byte :=
  match value with
  | [] => []
  | u :: rest =>
      if isHighSurrogate u then
        match rest with
        | l :: rest' =>
            if isLowSurrogate l
            then utf8 (65536 + (u - 55296) * 1024 + (l - 56320)) ++ from rest'
            else replacementBytes ++ from rest
        | [] => replacementBytes
        end
      else if isLowSurrogate u then replacementBytes ++ from rest
      else utf8 u ++ from rest
  end.

Definition alphabet : jsstring :=
  lit "ABCDEFGHIJKLMNOPQRSTUVWXYZabcdefghijklmnopqrstuvwxyz0123456789+/".

Definition digit64 (i : Z) : Z := nth (Z.to_nat i) alphabet 0.

Definition padChar : Z := ch "=".

(** [buf.toString("base64")]: RFC 4648 base64 with padding. *)
Fixpoint toStringBase64 (buf : list byte) : jsstring :=
  match buf with
  | [] => []
  | [a] =>
      let a := Z_of_byte a in
      [digit64 (a / 4); digit64 ((a mod 4) * 16); padChar; padChar]
  | [a; b] =>
      let a := Z_of_byte a in
      let b := Z_of_byte b in
      [digit64 (a / 4); digit64 ((a mod 4) * 16 + b / 16);
       digit64 ((b mod 16) * 4); padChar]
  | a :: b :: c :: rest =>
      let a := Z_of_byte a in
      let b := Z_of_byte b in
      let c := Z_of_byte c in
      digit64 (a / 4) :: digit64 ((a mod 4) * 16 + b / 16)
        :: digit64 ((b mod 16) * 4 + c / 64) :: digit64 (c mod 64)
        :: toStringBase64 rest
  end.

End Buffer.

(** ** Symbol identities ([collect.ts], lines 67-79) *)

(** The object literal [BASE64_MAP], in the order of its keys. *)
Definition BASE64_MAP : list (Z * jsstring) :=
  [(ch "+", lit "-"); (ch "/", lit "_"); (ch "=", lit "")].

(** A property read [obj\[key\]]; [None] is [undefined]. *)
Fixpoint getProperty (obj : list (Z * jsstring)) (key : Z) : option jsstring :=
  match obj with
  | [] => None
  | (k, v) :: rest => if k =? key then Some v else getProperty rest key
  end.

(** The replacement callback [(m) => BASE64_MAP\[m\]]; [replace] writes an
    undefined result as the text "undefined". *)
Definition base64Replacer (m : Z) : jsstring :=
  match getProperty BASE64_MAP m with
  | Some r => r
  | None => lit "undefined"
  end.

(** [.replace(/[+/=]/g, (m) => BASE64_MAP\[m\])] *)
Definition replaceBase64 (s : jsstring) : jsstring :=
  flat_map
    (fun c => if existsb (Z.eqb c) [ch "+"; ch "/"; ch "="]
              then base64Replacer c else [c]) s.

Definition base64Url (value : jsstring) : jsstring :=
  replaceBase64 (Buffer.toStringBase64 (Buffer.from value)).

(** The template literal [`ts:${kind}:${qualifiedName}`]. *)
Definition identityText (kind qualifiedName : jsstring) : jsstring :=
  lit "ts:" ++ kind ++ lit ":" ++ qualifiedName.

Definition symbolId (kind qualifiedName : jsstring) : jsstring :=
  base64Url (identityText kind qualifiedName).

(** ** The syntax tree, as ts-morph presents it *)

Module Ast.

(** The syntax kinds the extractor distinguishes, and the ones around them
    in a tree; [OtherKind] carries the kind name of any other node. *)
Inductive SyntaxKind : Type :=
  | SourceFileKind
  | EndOfFileToken
  | FunctionDeclaration
  | MethodDeclaration
  | FunctionExpression
  | ArrowFunction
  | Constructor
  | GetAccessor
  | SetAccessor
  | ClassDeclaration
  | InterfaceDeclaration
  | EnumDeclaration
  | VariableDeclaration
  | VariableDeclarationList
  | VariableStatement
  | ParameterKind
  | CallExpression
  | ExpressionStatement
  | StringLiteral
  | Identifier
  | Block
  | ExportAssignment
  | DefaultKeyword
  | ExportKeyword
  | AsyncKeyword
  | OtherKind (kindName : jsstring).

(** [node.getKindName()] *)
Definition getKindNameOf (k : SyntaxKind) : jsstring :=
  match k with
  | SourceFileKind => lit "SourceFile"
  | EndOfFileToken => lit "EndOfFileToken"
  | FunctionDeclaration => lit "FunctionDeclaration"
  | MethodDeclaration => lit "MethodDeclaration"
  | FunctionExpression => lit "FunctionExpression"
  | ArrowFunction => lit "ArrowFunction"
  | Constructor => lit "Constructor"
  | GetAccessor => lit "GetAccessor"
  | SetAccessor => lit "SetAccessor"
  | ClassDeclaration => lit "ClassDeclaration"
  | InterfaceDeclaration => lit "InterfaceDeclaration"
  | EnumDeclaration => lit "EnumDeclaration"
  | VariableDeclaration => lit "VariableDeclaration"
  | VariableDeclarationList => lit "VariableDeclarationList"
  | VariableStatement => lit "VariableStatement"
  | ParameterKind => lit "Parameter"
  | CallExpression => lit "CallExpression"
  | ExpressionStatement => lit "ExpressionStatement"
  | StringLiteral => lit "StringLiteral"
  | Identifier => lit "Identifier"
  | Block => lit "Block"
  | ExportAssignment => lit "ExportAssignment"
  | DefaultKeyword => lit "DefaultKeyword"
  | ExportKeyword => lit "ExportKeyword"
  | AsyncKeyword => lit "AsyncKeyword"
  | OtherKind kindName => kindName
  end.

(** A node with what the extractor reads from it, and the symbol the
    binder attached to it.  A symbol lists its declarations, which are
    nodes again; the extractor follows such a chain for two steps at most
    (a callee, its symbol, the first declaration, the name of that
    declaration's symbol), so a finite unfolding holds all it sees. *)
#[warnings="-register-all"]
Inductive Node : Type := mkNode {
  (** the identity of the wrapped compiler node: what [includes] compares *)
  nodeId : nat;
  getKind : SyntaxKind;
  (** [getSourceFile().getFilePath()] *)
  sourceFilePath : jsstring;
  (** [getSymbol()] *)
  getSymbol : option TsSymbol;
  (** [getName()], of a function, class, interface or enum declaration *)
  getName : option jsstring;
  (** [getNameNode().getText()], of a variable, method or accessor *)
  getNameNodeText : option jsstring;
  (** the kinds of [getModifiers()] *)
  getModifiers : list SyntaxKind;
  (** [isAsync()], where the node has that method *)
  isAsync : option bool;
  (** [getText()] *)
  getText : jsstring;
  (** [getLiteralText()], of a string literal *)
  getLiteralText : jsstring;
  (** [getLineAndColumnAtPos(getNonWhitespaceStart())] and [(getEnd())] *)
  startLineAndColumn : Z * Z;
  endLineAndColumn : Z * Z;
  (** [getParent().getChildrenOfKind(getKind()).indexOf(node)] *)
  indexAmongKind : Z;
  (** the children [forEachChild] visits, in order *)
  forEachChild : list Node
}
with TsSymbol : Type := mkSymbol {
  (** [getName()] of the symbol *)
  symbolName : jsstring;
  getDeclarations : list Node
}.

Definition sameNode (a b : Node) : bool := Nat.eqb (nodeId a) (nodeId b).

(** [declarations.includes(node)] *)
Definition includes (nodes : list Node) (node : Node) : bool :=
  existsb (sameNode node) nodes.

Definition isFunctionDeclaration (n : Node) : bool :=
  match getKind n with FunctionDeclaration => true | _ => false end.
Definition isFunctionExpression (n : Node) : bool :=
  match getKind n with FunctionExpression => true | _ => false end.
Definition isArrowFunction (n : Node) : bool :=
  match getKind n with ArrowFunction => true | _ => false end.
Definition isMethodDeclaration (n : Node) : bool :=
  match getKind n with MethodDeclaration => true | _ => false end.
Definition isGetAccessorDeclaration (n : Node) : bool :=
  match getKind n with GetAccessor => true | _ => false end.
Definition isSetAccessorDeclaration (n : Node) : bool :=
  match getKind n with SetAccessor => true | _ => false end.
Definition isClassDeclaration (n : Node) : bool :=
  match getKind n with ClassDeclaration => true | _ => false end.
Definition isInterfaceDeclaration (n : Node) : bool :=
  match getKind n with InterfaceDeclaration => true | _ => false end.
Definition isEnumDeclaration (n : Node) : bool :=
  match getKind n with EnumDeclaration => true | _ => false end.
Definition isVariableDeclaration (n : Node) : bool :=
  match getKind n with VariableDeclaration => true | _ => false end.
Definition isCallExpression (n : Node) : bool :=
  match getKind n with CallExpression => true | _ => false end.
Definition isExpressionStatement (n : Node) : bool :=
  match getKind n with ExpressionStatement => true | _ => false end.
Definition isStringLiteral (n : Node) : bool :=
  match getKind n with StringLiteral => true | _ => false end.
Definition isDefaultKeyword (k : SyntaxKind) : bool :=
  match k with DefaultKeyword => true | _ => false end.

(** [node.hasModifier?.(ts.SyntaxKind.DefaultKeyword) ?? false]: a node
    that takes no modifiers has none. *)
Definition hasDefaultModifier (n : Node) : bool :=
  existsb isDefaultKeyword (getModifiers n).

(** [node.getExpression()], of a call (the callee) and of an expression
    statement: the first child [forEachChild] visits. *)
Definition getExpression (n : Node) : option Node := head (forEachChild n).

(** A visited descendant with its chain of parents, nearest first, up to
    and including the root. *)
Record Visit : Type := mkVisit { parents : list Node; visited : Node }.

Fixpoint visitsFrom (chain : list Node) (n : Node) : list Visit :=
  flat_map (fun c => mkVisit (n :: chain) c :: visitsFrom (n :: chain) c)
           (forEachChild n).

(** [n.forEachDescendant(cb)]: the nodes [cb] is called on, in pre-order;
    [n] itself is not among them. *)
Fixpoint forEachDescendant (n : Node) : list Node :=
  flat_map (fun c => c :: forEachDescendant c) (forEachChild n).

(** An import declaration: [getModuleSpecifierValue()] and the file path
    of [getModuleSpecifierSourceFile()], [None] when that is undefined. *)
Record ImportDeclaration : Type := {
  getModuleSpecifierValue : jsstring;
  getModuleSpecifierSourceFile : option jsstring
}.

Record SourceFile : Type := {
  (** the file's own node, of kind [SourceFileKind] *)
  rootNode : Node;
  getFilePath : jsstring;
  getImportDeclarations : list ImportDeclaration;
  getExportSymbols : list TsSymbol;
  getDefaultExportSymbol : option TsSymbol;
  (** [readFileSync(getFilePath())] *)
  fileBytes : list byte
}.

(** [sourceFile.getStatements()]: the children of the file's node before
    the end-of-file token. *)
Definition getStatements (sf : SourceFile) : list Node :=
  List.filter (fun n => match getKind n with EndOfFileToken => false | _ => true end)
              (forEachChild (rootNode sf)).

(** The type checker: the symbol at an expression, and the fully qualified
    name of a symbol. *)
Record TypeChecker : Type := {
  getSymbolAtLocation : Node -> option TsSymbol;
  getFullyQualifiedName : TsSymbol -> jsstring
}.

End Ast.
Export Ast.

(** ** The fact records ([collect.ts], lines 18-65) *)

Record Span : Type := {
  startLine : Z;
  startCol : Z;
  endLine : Z;
  endCol : Z
}.

(** [UnitRecord\["kind"\]], a closed vocabulary. *)
Inductive UnitKind : Type :=
  | callable | classifier | variable | parameter | type.

Definition unitKindName (k : UnitKind) : jsstring :=
  match k with
  | callable => lit "callable"
  | classifier => lit "classifier"
  | variable => lit "variable"
  | parameter => lit "parameter"
  | type => lit "type"
  end.

Module UnitRecord.
Record t : Type := {
  kind : UnitKind;
  name : jsstring;
  qualifiedName : jsstring;
  symbolId : jsstring;
  span : Span;
  astPath : jsstring;
  isExportedDefault : bool;
  isAsync : bool
}.
End UnitRecord.

Inductive ResolvedKind : Type := package | file | unknown.

Module ImportRecord.
Record t : Type := {
  from : jsstring;
  resolvedKind : ResolvedKind;
  resolved : option jsstring
}.
End ImportRecord.

Module ExportRecord.
Record t : Type := {
  name : jsstring;
  unitSymbolId : option jsstring
}.
End ExportRecord.

Inductive Relation : Type := calls | references | reads | writes.

Module OccurrenceRecord.
Record t : Type := {
  relation : Relation;
  subjectSymbolId : jsstring;
  objectSymbolId : option jsstring;
  objectQName : jsstring;
  span : Span
}.
End OccurrenceRecord.

Module FileFacts.
Record t : Type := {
  filePath : jsstring;
  sha256 : jsstring;
  units : list UnitRecord.t;
  imports : list ImportRecord.t;
  exports : list ExportRecord.t;
  occurrences : list OccurrenceRecord.t;
  extends : list (jsstring * jsstring);
  implements : list (jsstring * jsstring);
  hasUseClientDirective : bool
}.

(** The assignment [facts.filePath = p]. *)
Definition setFilePath (p : jsstring) (facts : t) : t :=
  {| filePath := p;
     sha256 := sha256 facts;
     units := units facts;
     imports := imports facts;
     exports := exports facts;
     occurrences := occurrences facts;
     extends := extends facts;
     implements := implements facts;
     hasUseClientDirective := hasUseClientDirective facts |}.
End FileFacts.

(** ** What the process and the libraries provide *)

(** A value [JSON.parse] returns; a number is kept as its source text. *)
#[warnings="-register-all"]
Inductive Json : Type :=
  | JNull
  | JBool (b : bool)
  | JNumber (text : jsstring)
  | JString (s : jsstring)
  | JArray (items : list Json)
  | JObject (members : list (jsstring * Json)).

Record Host : Type := {
  (** [path.relative(from, to)] and [path.resolve(base, p)] *)
  relative : jsstring -> jsstring -> jsstring;
  resolve : jsstring -> jsstring -> jsstring;
  (** [createHash("sha256").update(bytes).digest("hex")] *)
  sha256Hex : list byte -> jsstring;
  (** [JSON.parse(text)]; [None] when it throws a SyntaxError *)
  JSON_parse : jsstring -> option Json;
  (** [process.env.ONTOCODE_EXTRACTOR_REPO], [process.env.ONTOCODE_FILE_LIST] *)
  ONTOCODE_EXTRACTOR_REPO : option jsstring;
  ONTOCODE_FILE_LIST : option jsstring;
  (** [process.cwd()] *)
  cwd : jsstring;
  (** what [fast-glob] finds for the include and exclude patterns *)
  discovered : list jsstring
}.

Record Project : Type := {
  (** [getCompilerOptions().rootDir] *)
  rootDir : option jsstring;
  getTypeChecker : TypeChecker;
  (** [getSourceFile(p) ?? addSourceFileAtPathIfExists(p)] *)
  sourceFileAt : jsstring -> option SourceFile
}.

(** ** The extractor ([collect.ts], lines 81-357) *)

Definition backslash : Z := 92.
Definition slash : Z := ch "/".
Definition dot : Z := ch ".".

(** [a === b] on strings *)
Fixpoint strictEq (a b : jsstring) : bool :=
  match a, b with
  | [], [] => true
  | c :: a', d :: b' => (c =? d) && strictEq a' b'
  | _, _ => false
  end.

(** [p.replace(/\.[^.]+$/, "")]: the match is the last dot when at least
    one code unit follows it. *)
Fixpoint stripExtension (p : jsstring) : jsstring :=
  match p with
  | [] => []
  | c :: rest =>
      if (c =? dot) && truthy rest && forallb (fun d => negb (d =? dot)) rest
      then []
      else c :: stripExtension rest
  end.

Definition moduleQualifiedName (relativePath : jsstring) : jsstring :=
  let withoutExt := stripExtension relativePath in
  replaceRuns [backslash; slash] (lit ".") false withoutExt.

Definition spanFromNode (node : Node) : Span :=
  let start := startLineAndColumn node in
  let end_ := endLineAndColumn node in
  {| startLine := fst start; startCol := snd start;
     endLine := fst end_; endCol := snd end_ |}.

(** One piece of an AST path: [`${kindName}\[${index}\]`]. *)
Definition astPathPiece (current : Node) : jsstring :=
  getKindNameOf (getKind current) ++ lit "[" ++
  numberToString (indexAmongKind current) ++ lit "]".

(** [astPath(node)]: the loop climbs from the node and pushes a piece for
    every node that has a parent, so for all of the chain but the root. *)
Definition astPath (v : Visit) : jsstring :=
  let pieces := map astPathPiece (removelast (visited v :: parents v)) in
  join (lit "/") (rev pieces).

Definition inferUnitKind (node : Node) : UnitKind :=
  match getKind node with
  | FunctionDeclaration
  | MethodDeclaration
  | FunctionExpression
  | ArrowFunction
  | Constructor
  | GetAccessor
  | SetAccessor => callable
  | ClassDeclaration
  | InterfaceDeclaration
  | EnumDeclaration => classifier
  | VariableDeclaration => variable
  | ParameterKind => parameter
  | _ => type
  end.

(** A string that is defined and not empty: [if (name)]. *)
Definition whenTruthy (name : option jsstring) : option jsstring :=
  match name with
  | Some s => if truthy s then Some s else None
  | None => None
  end.

Definition inferNodeName (node : Node) : option jsstring :=
  let fromFunction :=
    if isFunctionDeclaration node then
      match whenTruthy (getName node) with
      | Some name => Some name
      | None => if hasDefaultModifier node then Some (lit "default") else None
      end
    else None in
  match fromFunction with
  | Some r => Some r
  | None =>
  if isVariableDeclaration node then getNameNodeText node else
  let fromClassifier :=
    if isClassDeclaration node || isInterfaceDeclaration node
       || isEnumDeclaration node
    then whenTruthy (getName node) else None in
  match fromClassifier with
  | Some r => Some r
  | None =>
  let fromMember :=
    if isMethodDeclaration node || isGetAccessorDeclaration node
       || isSetAccessorDeclaration node
    then getNameNodeText node else None in
  match fromMember with
  | Some r => Some r
  | None =>
  if isArrowFunction node then Some (lit "arrow") else
  if isFunctionExpression node then Some (lit "anonymous") else
  None
  end end end.

Section Extractor.

Variable host : Host.
Variable project : Project.

(** [projectRoot(sourceFile)]: every source file is of the one project. *)
Definition projectRoot : jsstring :=
  match ONTOCODE_EXTRACTOR_REPO host with
  | Some repo => repo
  | None =>
      match rootDir project with
      | Some dir => dir
      | None => cwd host
      end
  end.

(** [buildQualifiedName(sourceFile, node, checker)]; of [sourceFile] the
    function reads the file path (and the project's root). *)
Definition buildQualifiedName (sourceFilePath : jsstring) (node : Node)
    (checker : TypeChecker) : option jsstring :=
  let baseRoot := projectRoot in
  let relPath :=
    replaceClass [backslash] (lit "/") (relative host baseRoot sourceFilePath) in
  let moduleName := moduleQualifiedName relPath in
  let baseName :=
    match getSymbol node with
    | Some symbol => Some (symbolName symbol)
    | None => inferNodeName node
    end in
  match whenTruthy baseName with
  | None => None
  | Some baseName => Some (moduleName ++ lit "." ++ baseName)
  end.

Definition exportDefaultSymbolId (sourceFile : SourceFile)
    (checker : TypeChecker) : option jsstring :=
  match getDefaultExportSymbol sourceFile with
  | None => None
  | Some defaultExport =>
      match getDeclarations defaultExport with
      | [] => None
      | decl :: _ =>
          match whenTruthy
                  (buildQualifiedName (getFilePath sourceFile) decl checker) with
          | None => None
          | Some qn =>
              let kind := inferUnitKind decl in
              Some (symbolId (unitKindName kind) qn)
          end
      end
  end.

Definition collectImportRecords (sourceFile : SourceFile)
  : list ImportRecord.t :=
  let baseRoot := projectRoot in
  map (fun decl =>
         let spec := getModuleSpecifierValue decl in
         match getModuleSpecifierSourceFile decl with
         | Some targetPath =>
             let rel :=
               replaceClass [backslash] (lit "/")
                            (relative host baseRoot targetPath) in
             {| ImportRecord.from := spec;
                ImportRecord.resolvedKind := file;
                ImportRecord.resolved := Some rel |}
         | None =>
             {| ImportRecord.from := spec;
                ImportRecord.resolvedKind :=
                  if startsWith spec (lit ".") then unknown else package;
                ImportRecord.resolved := None |}
         end)
      (getImportDeclarations sourceFile).

Definition collectExportRecords (sourceFile : SourceFile)
    (checker : TypeChecker) (moduleName : jsstring) : list ExportRecord.t :=
  let fromSymbols :=
    flat_map
      (fun sym =>
         match getDeclarations sym with
         | [] => []
         | decl :: _ =>
             let kind := inferUnitKind decl in
             let qn := buildQualifiedName (getFilePath sourceFile) decl checker in
             let id :=
               match whenTruthy qn with
               | Some qn => Some (symbolId (unitKindName kind) qn)
               | None => None
               end in
             [ {| ExportRecord.name := symbolName sym;
                  ExportRecord.unitSymbolId := id |} ]
         end)
      (getExportSymbols sourceFile) in
  match whenTruthy (exportDefaultSymbolId sourceFile checker) with
  | Some defaultId =>
      fromSymbols ++
      [ {| ExportRecord.name := lit "default";
           ExportRecord.unitSymbolId := Some defaultId |} ]
  | None => fromSymbols
  end.

(** The callback of [collectCallOccurrences] on one descendant: the
    records it pushes.  A call expression always has a callee; the case
    without one is there for totality. *)
Definition callOccurrence (subjectId : jsstring) (checker : TypeChecker)
    (node : Node) : list OccurrenceRecord.t :=
  if negb (isCallExpression node) then [] else
  match getExpression node with
  | None => []
  | Some expression =>
      let symbol :=
        match getSymbol expression with
        | Some s => Some s
        | None => getSymbolAtLocation checker expression
        end in
      let qn :=
        match symbol with
        | Some s => getFullyQualifiedName checker s
        | None => getText expression
        end in
      let objectQName :=
        replaceClass [slash] (lit ".")
          (replaceClass [doubleQuote; apostrophe] (lit "") qn) in
      let span := spanFromNode node in
      let objectDecl :=
        match symbol with
        | Some s => head (getDeclarations s)
        | None => None
        end in
      let objectSymbolId :=
        match objectDecl with
        | Some objectDecl =>
            let unitKind := inferUnitKind objectDecl in
            match whenTruthy
                    (buildQualifiedName (sourceFilePath objectDecl)
                                        objectDecl checker) with
            | Some objectQn => Some (symbolId (unitKindName unitKind) objectQn)
            | None => None
            end
        | None => None
        end in
      [ {| OccurrenceRecord.relation := calls;
           OccurrenceRecord.subjectSymbolId := subjectId;
           OccurrenceRecord.objectSymbolId := objectSymbolId;
           OccurrenceRecord.objectQName := objectQName;
           OccurrenceRecord.span := span |} ]
  end.

Definition collectCallOccurrences (container : Node) (subjectId : jsstring)
    (checker : TypeChecker) : list OccurrenceRecord.t :=
  flat_map (callOccurrence subjectId checker) (forEachDescendant container).

(** The declaration kinds [collectUnits] lets through. *)
Definition isUnitNode (node : Node) : bool :=
  isFunctionDeclaration node || isFunctionExpression node
  || isArrowFunction node || isMethodDeclaration node
  || isClassDeclaration node || isInterfaceDeclaration node
  || isEnumDeclaration node.

(** The callback of [collectUnits] on one descendant: the units and the
    occurrences it pushes. *)
Definition visitUnit (sourceFile : SourceFile) (checker : TypeChecker)
    (v : Visit) : list UnitRecord.t * list OccurrenceRecord.t :=
  let node := visited v in
  if negb (isUnitNode node) then ([], []) else
  match whenTruthy (buildQualifiedName (getFilePath sourceFile) node checker) with
  | None => ([], [])
  | Some qn =>
      let kind := inferUnitKind node in
      let id := symbolId (unitKindName kind) qn in
      let span := spanFromNode node in
      let isDefault :=
        match getDefaultExportSymbol sourceFile with
        | Some defaultExport => includes (getDeclarations defaultExport) node
        | None => false
        end in
      let unit :=
        {| UnitRecord.kind := kind;
           UnitRecord.name :=
             match inferNodeName node with
             | Some n => n
             | None => getKindNameOf (getKind node)
             end;
           UnitRecord.qualifiedName := qn;
           UnitRecord.symbolId := id;
           UnitRecord.span := span;
           UnitRecord.astPath := astPath v;
           UnitRecord.isExportedDefault :=
             if isDefault then true else hasDefaultModifier node;
           UnitRecord.isAsync :=
             match isAsync node with Some b => b | None => false end |} in
      ([unit],
       if isFunctionDeclaration node || isMethodDeclaration node
          || isArrowFunction node || isFunctionExpression node
       then collectCallOccurrences node id checker
       else [])
  end.

Definition collectUnits (sourceFile : SourceFile) (checker : TypeChecker)
  : list UnitRecord.t * list OccurrenceRecord.t :=
  let pushed :=
    map (visitUnit sourceFile checker) (visitsFrom [] (rootNode sourceFile)) in
  (flat_map fst pushed, flat_map snd pushed).

(** The loop of [hasUseClientDirective] over the statements. *)
Fixpoint scanDirectives (statements : list Node) : bool :=
  match statements with
  | [] => false
  | stmt :: rest =>
      if negb (isExpressionStatement stmt) then false else
      match getExpression stmt with
      | None => false
      | Some expression =>
          if negb (isStringLiteral expression) then false else
          if strictEq (getLiteralText expression) (lit "use client") then true
          else scanDirectives rest
      end
  end.

Definition hasUseClientDirective (sourceFile : SourceFile) : bool :=
  scanDirectives (getStatements sourceFile).

Definition collectFacts (sourceFile : SourceFile) : FileFacts.t :=
  let relPath := getFilePath sourceFile in
  let checker := getTypeChecker project in
  let moduleName := moduleQualifiedName relPath in
  let '(units, occurrences) := collectUnits sourceFile checker in
  {| FileFacts.filePath := relPath;
     FileFacts.sha256 := sha256Hex host (fileBytes sourceFile);
     FileFacts.units := units;
     FileFacts.imports := collectImportRecords sourceFile;
     FileFacts.exports := collectExportRecords sourceFile checker moduleName;
     FileFacts.occurrences := occurrences;
     FileFacts.extends := [];
     FileFacts.implements := [];
     FileFacts.hasUseClientDirective := hasUseClientDirective sourceFile |}.

End Extractor.

(** ** The driver ([index.ts], lines 59-112) *)

Record CliOptions : Type := {
  repo : jsstring;
  include : list jsstring;
  exclude : list jsstring
}.

(** What a run leaves behind: the exit code and the records written to
    standard output, one line each, in order.  [collectFacts] is taken not
    to throw (the file can be read). *)
Record Run : Type := {
  exitCode : Z;
  stdout : list FileFacts.t
}.

Section Driver.

Variable host : Host.
Variable project : Project.

(** [parsed.map((rel) => path.resolve(repo, rel))]: [path.resolve] throws a
    TypeError on an argument that is not a string; [None] is a throw. *)
Fixpoint resolveAll (repoDir : jsstring) (items : list Json)
  : option (list jsstring) :=
  match items with
  | [] => Some []
  | JString rel :: rest =>
      match resolveAll repoDir rest with
      | Some paths => Some (resolve host repoDir rel :: paths)
      | None => None
      end
  | _ :: _ => None
  end.

(** The body of the [try] block; [None] when it throws (a SyntaxError of
    [JSON.parse], or a TypeError when the value has no [map] method or an
    element is not a string), which the [catch] turns into [exit(1)]. *)
Definition filesFromOverride (repoDir envList : jsstring)
  : option (list jsstring) :=
  match JSON_parse host envList with
  | Some (JArray items) => resolveAll repoDir items
  | Some _ => None
  | None => None
  end.

(** The loop over [files] with the set [seen]. *)
Fixpoint emitLoop (repoDir : jsstring) (seen : gset (list Z))
    (files : list jsstring) : list FileFacts.t :=
  match files with
  | [] => []
  | path :: rest =>
      if decide (path ∈ seen) then emitLoop repoDir seen rest else
      let seen' := {[ path ]} ∪ seen in
      match sourceFileAt project path with
      | None => emitLoop repoDir seen' rest
      | Some source =>
          let facts := collectFacts host project source in
          let facts :=
            FileFacts.setFilePath
              (replaceClass [backslash] (lit "/") (relative host repoDir path))
              facts in
          facts :: emitLoop repoDir seen' rest
      end
  end.

Definition main (opts : CliOptions) : Run :=
  let repoDir := resolve host (cwd host) (repo opts) in
  let files :=
    match whenTruthy (ONTOCODE_FILE_LIST host) with
    | Some envList => filesFromOverride repoDir envList
    | None => Some (discovered host)
    end in
  match files with
  | None => {| exitCode := 1; stdout := [] |}
  | Some files => {| exitCode := 0; stdout := emitLoop repoDir ∅ files |}
  end.

End Driver.

(** ** Decoding an identity token *)

Module Token.

(** The token as the specification words it: the base64 text of the bytes
    with [+] replaced by [-], [/] replaced by [_], and the [=] padding
    stripped. *)
Definition urlSafe (c : Z) : Z :=
  if c =? ch "+" then ch "-" else if c =? ch "/" then ch "_" else c.

Definition stripPadding (s : jsstring) : jsstring :=
  List.filter (fun c => negb (c =? Buffer.padChar)) s.

Definition encode (bytes : list byte) : jsstring :=
  map urlSafe (stripPadding (Buffer.toStringBase64 bytes)).

(** Decoding: reverse the character map, restore the padding, decode the
    base64 text. *)
Definition reverseCharMap (c : Z) : Z :=
  if c =? ch "-" then ch "+" else if c =? ch "_" then ch "/" else c.

Definition restorePadding (s : jsstring) : jsstring :=
  s ++ repeat Buffer.padChar ((4 - length s mod 4) mod 4)%nat.

Fixpoint indexFrom (i : Z) (l : list Z) (c : Z) : option Z :=
  match l with
  | [] => None
  | d :: rest => if c =? d then Some i else indexFrom (i + 1) rest c
  end.

(** The value of a base64 digit. *)
Definition value64 (c : Z) : option Z := indexFrom 0 Buffer.alphabet c.

Fixpoint base64Decode (s : jsstring) : option (list byte) :=
  match s with
  | [] => Some []
  | c1 :: c2 :: c3 :: c4 :: rest =>
      match value64 c1, value64 c2 with
      | Some i1, Some i2 =>
          let b1 := Buffer.byte_of_Z (i1 * 4 + i2 / 16) in
          if c3 =? Buffer.padChar then
            if (c4 =? Buffer.padChar) && negb (truthy rest)
            then Some [b1] else None
          else
            match value64 c3 with
            | Some i3 =>
                let b2 := Buffer.byte_of_Z ((i2 mod 16) * 16 + i3 / 4) in
                if c4 =? Buffer.padChar then
                  if negb (truthy rest) then Some [b1; b2] else None
                else
                  match value64 c4, base64Decode rest with
                  | Some i4, Some tail =>
                      Some (b1 :: b2
                              :: Buffer.byte_of_Z ((i3 mod 4) * 64 + i4) :: tail)
                  | _, _ => None
                  end
            | None => None
            end
      | _, _ => None
      end
  | _ => None
  end.

Definition decode (token : jsstring) : option (list byte) :=
  base64Decode (restorePadding (map reverseCharMap token)).

(** An inverse of [Buffer.from] on well-formed strings: the code units of
    a UTF-8 byte sequence. *)
Fixpoint utf16 (bytes : list byte) : jsstring :=
  match bytes with
  | [] => []
  | b0 :: r0 =>
      let z0 := Buffer.Z_of_byte b0 in
      if z0 <? 128 then z0 :: utf16 r0
      else if z0 <? 224 then
        match r0 with
        | b1 :: r1 =>
            ((z0 - 192) * 64 + (Buffer.Z_of_byte b1 - 128)) :: utf16 r1
        | _ => []
        end
      else if z0 <? 240 then
        match r0 with
        | b1 :: b2 :: r2 =>
            ((z0 - 224) * 4096 + (Buffer.Z_of_byte b1 - 128) * 64
             + (Buffer.Z_of_byte b2 - 128)) :: utf16 r2
        | _ => []
        end
      else
        match r0 with
        | b1 :: b2 :: b3 :: r3 =>
            let c := (z0 - 240) * 262144 + (Buffer.Z_of_byte b1 - 128) * 4096
                     + (Buffer.Z_of_byte b2 - 128) * 64
                     + (Buffer.Z_of_byte b3 - 128) - 65536 in
            (55296 + c / 1024) :: (56320 + c mod 1024) :: utf16 r3
        | _ => []
        end
  end.

(** The sixty-four digit values, and what the proofs need of one digit,
    as a test that runs. *)
Definition sextets : list Z := map Z.of_nat (seq 0 64).

Definition digitChecks (i : Z) : bool :=
  let d := Buffer.digit64 i in
  match value64 d with
  | Some j => j =? i
  | None => false
  end
  && negb (d =? Buffer.padChar)
  && strictEq (replaceBase64 [d]) [urlSafe d]
  && (reverseCharMap (urlSafe d) =? d)
  && negb (reverseCharMap (urlSafe d) =? Buffer.padChar).

End Token.


(** ** Notions the statements use *)

(** A statement of the directive prologue: an expression statement whose
    expression is a string literal. *)
Definition isStringDirective (stmt : Node) : bool :=
  isExpressionStatement stmt
  && match getExpression stmt with
     | Some expression => isStringLiteral expression
     | None => false
     end.

(** The directive ["use client"]. *)
Definition isUseClient (stmt : Node) : bool :=
  isExpressionStatement stmt
  && match getExpression stmt with
     | Some expression =>
         isStringLiteral expression
         && strictEq (getLiteralText expression) (lit "use client")
     | None => false
     end.

(** The best-effort name of a callee: its text without quote characters
    and with [.] for every [/]. *)
Definition textualName (text : jsstring) : jsstring :=
  replaceClass [slash] (lit ".")
    (replaceClass [doubleQuote; apostrophe] (lit "") text).

(** The symbol of a callee, from the node or else from the checker, and
    the name the extractor starts from: the fully qualified name of that
    symbol, or the text of the callee when there is none. *)
Definition calleeSymbol (checker : TypeChecker) (callee : Node)
  : option TsSymbol :=
  match getSymbol callee with
  | Some s => Some s
  | None => getSymbolAtLocation checker callee
  end.

Definition bestEffortName (checker : TypeChecker) (callee : Node)
  : jsstring :=
  match calleeSymbol checker callee with
  | Some s => getFullyQualifiedName checker s
  | None => getText callee
  end.

Definition isQuote (c : Z) : bool := (c =? doubleQuote) || (c =? apostrophe).

(** The [filePath] the driver writes for the file at [path]:
    [path.relative(repo, file).replace(/\\/g, "/")]. *)
Definition writtenFilePath (host : Host) (repoDir path : jsstring)
  : jsstring :=
  replaceClass [backslash] (lit "/") (relative host repoDir path).

(** The record the driver writes for the file at [path]. *)
Definition recordFor (host : Host) (project : Project) (repoDir : jsstring)
    (path : jsstring) (source : SourceFile) : FileFacts.t :=
  FileFacts.setFilePath (writtenFilePath host repoDir path)
                        (collectFacts host project source).

(** The paths for which the loop of the driver writes a record, in the
    order of writing. *)
Fixpoint writtenPaths (project : Project) (seen : gset (list Z))
    (files : list jsstring) : list jsstring :=
  match files with
  | [] => []
  | path :: rest =>
      if decide (path ∈ seen) then writtenPaths project seen rest else
      match sourceFileAt project path with
      | None => writtenPaths project ({[ path ]} ∪ seen) rest
      | Some _ => path :: writtenPaths project ({[ path ]} ∪ seen) rest
      end
  end.

(** The list of files a run works on, when it gets that far. *)
Definition fileList (host : Host) (opts : CliOptions)
  : option (list jsstring) :=
  let repoDir := resolve host (cwd host) (repo opts) in
  match whenTruthy (ONTOCODE_FILE_LIST host) with
  | Some envList => filesFromOverride host repoDir envList
  | None => Some (discovered host)
  end.

(** ** Sample programs

    Small source files as ts-morph presents them, with the process and the
    project they are read in.  The repository root is [/repo]. *)

Module Samples.

(** A node with no symbol, name or modifier. *)
Definition plain (id : nat) (kind : SyntaxKind) (path text : jsstring)
    (children : list Node) : Node :=
  {| nodeId := id; getKind := kind; sourceFilePath := path;
     getSymbol := None; getName := None; getNameNodeText := None;
     getModifiers := []; isAsync := None; getText := text;
     getLiteralText := []; startLineAndColumn := (1, 1);
     endLineAndColumn := (1, 1); indexAmongKind := 0;
     forEachChild := children |}.

(** A declaration: its symbol's name, its name, its modifiers. *)
Definition declaration (id : nat) (kind : SyntaxKind) (path text : jsstring)
    (symbol : option jsstring) (name nameNodeText : option jsstring)
    (modifiers : list SyntaxKind) (children : list Node) : Node :=
  {| nodeId := id; getKind := kind; sourceFilePath := path;
     getSymbol :=
       match symbol with
       | Some n => Some {| symbolName := n; getDeclarations := [] |}
       | None => None
       end;
     getName := name; getNameNodeText := nameNodeText;
     getModifiers := modifiers; isAsync := Some false; getText := text;
     getLiteralText := []; startLineAndColumn := (1, 1);
     endLineAndColumn := (1, 1); indexAmongKind := 0;
     forEachChild := children |}.

(** A string literal with its text and its value. *)
Definition stringLiteral (id : nat) (path text value : jsstring) : Node :=
  {| nodeId := id; getKind := StringLiteral; sourceFilePath := path;
     getSymbol := None; getName := None; getNameNodeText := None;
     getModifiers := []; isAsync := None; getText := text;
     getLiteralText := value; startLineAndColumn := (1, 1);
     endLineAndColumn := (1, 1); indexAmongKind := 0;
     forEachChild := [] |}.

Definition endOfFile (id : nat) (path : jsstring) : Node :=
  plain id EndOfFileToken path [] [].

(** A source file with no import and no export. *)
Definition sourceFile (path : jsstring) (statements : list Node)
  : SourceFile :=
  {| rootNode := plain 0 SourceFileKind path [] (statements ++ [endOfFile 1 path]);
     getFilePath := path;
     getImportDeclarations := [];
     getExportSymbols := [];
     getDefaultExportSymbol := None;
     fileBytes := [] |}.

Fixpoint stripPrefix (p s : jsstring) : option jsstring :=
  match p, s with
  | [], _ => Some s
  | c :: p', d :: s' => if c =? d then stripPrefix p' s' else None
  | _ :: _, [] => None
  end.

(** [path.relative(from, to)] for a path [to] below the directory [from],
    which is all the samples ask. *)
Definition relativeBelow (from to : jsstring) : jsstring :=
  match stripPrefix (from ++ lit "/") to with
  | Some rel => rel
  | None => to
  end.

(** [path.resolve(base, p)] for a relative [p] without dots. *)
Definition resolveBelow (base p : jsstring) : jsstring :=
  if startsWith p (lit "/") then p else base ++ lit "/" ++ p.

(** A checker that knows no symbol but those bound to the nodes. *)
Definition checker : TypeChecker :=
  {| getSymbolAtLocation := fun _ => None;
     getFullyQualifiedName := symbolName |}.

(** A process started in [/repo] with no override in its environment.
    [JSON.parse] is asked about two texts only, the empty one and
    [not json], and throws on both. *)
Definition host : Host :=
  {| relative := relativeBelow;
     resolve := resolveBelow;
     sha256Hex := fun _ => [];
     JSON_parse := fun _ => None;
     ONTOCODE_EXTRACTOR_REPO := None;
     ONTOCODE_FILE_LIST := None;
     cwd := lit "/repo";
     discovered := [] |}.

Definition projectOf (files : list SourceFile) : Project :=
  {| rootDir := None;
     getTypeChecker := checker;
     sourceFileAt :=
       fun p => List.find (fun sf => strictEq (getFilePath sf) p) files |}.

Definition options : CliOptions :=
  {| repo := lit "/repo"; include := []; exclude := [] |}.

(** [/repo/a.ts]: [function foo() { bar(); }], where [bar] is declared
    nowhere. *)
Definition aPath : jsstring := lit "/repo/a.ts".

Definition barCall : Node :=
  plain 6 CallExpression aPath (lit "bar()")
    [plain 7 Identifier aPath (lit "bar") []].

Definition fooDeclaration : Node :=
  declaration 2 FunctionDeclaration aPath (lit "function foo() { bar(); }")
    (Some (lit "foo")) (Some (lit "foo")) None []
    [plain 3 Identifier aPath (lit "foo") [];
     plain 4 Block aPath (lit "{ bar(); }")
       [plain 5 ExpressionStatement aPath (lit "bar();") [barCall]]].

Definition aFile : SourceFile := sourceFile aPath [fooDeclaration].

(** [/repo/c.ts]: [const x = 1;] *)
Definition cPath : jsstring := lit "/repo/c.ts".

Definition xDeclaration : Node :=
  declaration 4 VariableDeclaration cPath (lit "x = 1")
    (Some (lit "x")) None (Some (lit "x")) []
    [plain 5 Identifier cPath (lit "x") [];
     plain 6 (OtherKind (lit "NumericLiteral")) cPath (lit "1") []].

Definition cFile : SourceFile :=
  sourceFile cPath
    [plain 2 VariableStatement cPath (lit "const x = 1;")
       [plain 3 VariableDeclarationList cPath (lit "const x = 1")
          [xDeclaration]]].

(** [/repo/n.ts]: [function outer() { function inner() { ext(); } }],
    where [ext] is declared nowhere. *)
Definition nPath : jsstring := lit "/repo/n.ts".

Definition extCall : Node :=
  {| nodeId := 10; getKind := CallExpression; sourceFilePath := nPath;
     getSymbol := None; getName := None; getNameNodeText := None;
     getModifiers := []; isAsync := None; getText := lit "ext()";
     getLiteralText := []; startLineAndColumn := (1, 40);
     endLineAndColumn := (1, 45); indexAmongKind := 0;
     forEachChild := [plain 11 Identifier nPath (lit "ext") []] |}.

Definition innerDeclaration : Node :=
  declaration 6 FunctionDeclaration nPath (lit "function inner() { ext(); }")
    (Some (lit "inner")) (Some (lit "inner")) None []
    [plain 7 Identifier nPath (lit "inner") [];
     plain 8 Block nPath (lit "{ ext(); }")
       [plain 9 ExpressionStatement nPath (lit "ext();") [extCall]]].

Definition outerDeclaration : Node :=
  declaration 2 FunctionDeclaration nPath
    (lit "function outer() { function inner() { ext(); } }")
    (Some (lit "outer")) (Some (lit "outer")) None []
    [plain 3 Identifier nPath (lit "outer") [];
     plain 4 Block nPath (lit "{ function inner() { ext(); } }")
       [innerDeclaration]].

Definition nFile : SourceFile := sourceFile nPath [outerDeclaration].

(** [/repo/q.js]: [function f() { ''(); }], a call whose callee is the
    empty string literal. *)
Definition qPath : jsstring := lit "/repo/q.js".

Definition quoteCall : Node :=
  plain 6 CallExpression qPath (lit "''()")
    [stringLiteral 7 qPath (lit "''") []].

Definition fDeclaration : Node :=
  declaration 2 FunctionDeclaration qPath (lit "function f() { ''(); }")
    (Some (lit "f")) (Some (lit "f")) None []
    [plain 3 Identifier qPath (lit "f") [];
     plain 4 Block qPath (lit "{ ''(); }")
       [plain 5 ExpressionStatement qPath (lit "''();") [quoteCall]]].

Definition qFile : SourceFile := sourceFile qPath [fDeclaration].

(** A directive statement: an expression statement of a string literal. *)
Definition directive (id : nat) (path value : jsstring) : Node :=
  plain id ExpressionStatement path
    (doubleQuote :: value ++ doubleQuote :: lit ";")
    [stringLiteral (S id) path (doubleQuote :: value ++ [doubleQuote]) value].

(** [/repo/s.tsx]: ["use strict"; "use client";] *)
Definition sPath : jsstring := lit "/repo/s.tsx".

Definition sFile : SourceFile :=
  sourceFile sPath
    [directive 2 sPath (lit "use strict"); directive 4 sPath (lit "use client")].

(** [/repo/u.tsx]: ["use client"; const x = 1;] *)
Definition uPath : jsstring := lit "/repo/u.tsx".

Definition uFile : SourceFile :=
  sourceFile uPath
    [directive 2 uPath (lit "use client");
     plain 4 VariableStatement uPath (lit "const x = 1;") []].

(** [/repo/w.tsx]: [const x = 1; "use client";] *)
Definition wPath : jsstring := lit "/repo/w.tsx".

Definition wFile : SourceFile :=
  sourceFile wPath
    [plain 2 VariableStatement wPath (lit "const x = 1;") [];
     directive 4 wPath (lit "use client")].

(** [/repo/page.ts]: [export default () => {};].  The binder declares the
    export symbol [default] of the module on the export assignment; the
    arrow function has the anonymous function symbol [__function]. *)
Definition pagePath : jsstring := lit "/repo/page.ts".

Definition pageArrow : Node :=
  declaration 3 ArrowFunction pagePath (lit "() => {}")
    (Some (lit "__function")) None None []
    [plain 4 (OtherKind (lit "EqualsGreaterThanToken")) pagePath (lit "=>") [];
     plain 5 Block pagePath (lit "{}") []].

Definition pageExportAssignment : Node :=
  {| nodeId := 2; getKind := ExportAssignment; sourceFilePath := pagePath;
     getSymbol := Some {| symbolName := lit "default"; getDeclarations := [] |};
     getName := None; getNameNodeText := None;
     getModifiers := []; isAsync := None;
     getText := lit "export default () => {};";
     getLiteralText := []; startLineAndColumn := (1, 1);
     endLineAndColumn := (1, 25); indexAmongKind := 0;
     forEachChild := [pageArrow] |}.

Definition pageDefaultSymbol : TsSymbol :=
  {| symbolName := lit "default"; getDeclarations := [pageExportAssignment] |}.

Definition pageFile : SourceFile :=
  {| rootNode :=
       plain 0 SourceFileKind pagePath []
         [pageExportAssignment; endOfFile 1 pagePath];
     getFilePath := pagePath;
     getImportDeclarations := [];
     getExportSymbols := [pageDefaultSymbol];
     getDefaultExportSymbol := Some pageDefaultSymbol;
     fileBytes := [] |}.

(** [/repo/d.ts]: [export default function () {}], where the export symbol
    [default] is declared on the function declaration itself. *)
Definition dPath : jsstring := lit "/repo/d.ts".

Definition dFunction : Node :=
  declaration 2 FunctionDeclaration dPath (lit "export default function () {}")
    (Some (lit "default")) None None [ExportKeyword; DefaultKeyword]
    [plain 3 ExportKeyword dPath (lit "export") [];
     plain 4 DefaultKeyword dPath (lit "default") [];
     plain 5 Block dPath (lit "{}") []].

Definition dDefaultSymbol : TsSymbol :=
  {| symbolName := lit "default"; getDeclarations := [dFunction] |}.

Definition dFile : SourceFile :=
  {| rootNode :=
       plain 0 SourceFileKind dPath [] [dFunction; endOfFile 1 dPath];
     getFilePath := dPath;
     getImportDeclarations := [];
     getExportSymbols := [dDefaultSymbol];
     getDefaultExportSymbol := Some dDefaultSymbol;
     fileBytes := [] |}.

(** A process whose file-list override is set to the empty string, with
    one file for discovery to find. *)
Definition hostWithEmptyOverride : Host :=
  {| relative := relativeBelow;
     resolve := resolveBelow;
     sha256Hex := fun _ => [];
     JSON_parse := fun _ => None;
     ONTOCODE_EXTRACTOR_REPO := None;
     ONTOCODE_FILE_LIST := Some [];
     cwd := lit "/repo";
     discovered := [aPath] |}.

(** A process whose file-list override is the text [not json]. *)
Definition hostWithBrokenOverride : Host :=
  {| relative := relativeBelow;
     resolve := resolveBelow;
     sha256Hex := fun _ => [];
     JSON_parse := fun _ => None;
     ONTOCODE_EXTRACTOR_REPO := None;
     ONTOCODE_FILE_LIST := Some (lit "not json");
     cwd := lit "/repo";
     discovered := [aPath] |}.

End Samples.

(** ** Command-line options ([index.ts], lines 17-44) *)

Module Args.

Definition comma : Z := ch ",".

(** The code units [String.prototype.trim] removes: white space and line
    terminators. *)
Definition isWhiteSpace (c : Z) : bool :=
  existsb (Z.eqb c)
          [9; 10; 11; 12; 13; 32; 160; 5760; 8232; 8233; 8239; 8287; 12288;
           65279]
  || ((8192 <=? c) && (c <=? 8202)).

Fixpoint trimStart (s : jsstring) : jsstring :=
  match s with
  | [] => []
  | c :: rest => if isWhiteSpace c then trimStart rest else s
  end.

Definition trimEnd (s : jsstring) : jsstring := rev (trimStart (rev s)).

(** [s.trim()] *)
Definition trim (s : jsstring) : jsstring := trimEnd (trimStart s).

(** [s.split(sep)] for a separator of one code unit: the pieces between
    the separators, one piece more than there are separators. *)
Fixpoint split (sep : Z) (s : jsstring) : list jsstring :=
  match s with
  | [] => [[]]
  | c :: rest =>
      if c =? sep then [] :: split sep rest
      else
        match split sep rest with
        | piece :: pieces => (c :: piece) :: pieces
        | [] => [[c]]
        end
  end.

(** [value.split(",").map((p) => p.trim()).filter(Boolean)] *)
Definition patterns (value : jsstring) : list jsstring :=
  List.filter truthy (map trim (split comma value)).

(** The options [parseArgs] starts from. *)
Definition defaultOptions (host : Host) : CliOptions :=
  {| repo := cwd host;
     include := [lit "**/*.{ts,tsx,js,jsx}"];
     exclude := [lit "node_modules/**"; lit ".next/**"; lit "dist/**"] |}.

(** The loop of [parseArgs] from index [i], on the arguments from [i] on:
    a flag takes the next argument when that is defined and not empty, and
    the loop then steps over both. *)
Fixpoint parseArgsFrom (opts : CliOptions) (argv : list jsstring)
  : CliOptions :=
  match argv with
  | [] => opts
  | arg :: rest =>
      match rest with
      | next :: rest' =>
          if strictEq arg (lit "--repo") && truthy next then
            parseArgsFrom
              {| repo := next; include := include opts;
                 exclude := exclude opts |} rest'
          else if strictEq arg (lit "--files-include") && truthy next then
            parseArgsFrom
              {| repo := repo opts; include := patterns next;
                 exclude := exclude opts |} rest'
          else if strictEq arg (lit "--files-exclude") && truthy next then
            let extra := patterns next in
            parseArgsFrom
              {| repo := repo opts; include := include opts;
                 exclude := exclude opts ++ extra |} rest'
          else parseArgsFrom opts rest
      | [] => opts
      end
  end.

Definition parseArgs (host : Host) (argv : list jsstring) : CliOptions :=
  parseArgsFrom (defaultOptions host) argv.

(** The three flags. *)
Definition isFlag (arg : jsstring) : bool :=
  strictEq arg (lit "--repo") || strictEq arg (lit "--files-include")
  || strictEq arg (lit "--files-exclude").

(** A pattern as the flags give it: not empty, no comma, no white space at
    either end. *)
Definition isCleanPattern (p : jsstring) : bool :=
  truthy p
  && forallb (fun c => negb (c =? comma)) p
  && match p with c :: _ => negb (isWhiteSpace c) | [] => true end
  && match rev p with c :: _ => negb (isWhiteSpace c) | [] => true end.

End Args.

(** ** More notions the statements use *)

(** [String.prototype.toWellFormed]: every lone surrogate becomes U+FFFD. *)
Fixpoint toWellFormed (s : jsstring) : jsstring :=
  match s with
  | [] => []
  | u :: rest =>
      if isHighSurrogate u then
        match rest with
        | l :: rest' =>
            if isLowSurrogate l then u :: l :: toWellFormed rest'
            else 65533 :: toWellFormed rest
        | [] => [65533]
        end
      else if isLowSurrogate u then 65533 :: toWellFormed rest
      else u :: toWellFormed rest
  end.

(** The code units of a token: letters, digits, [-] and [_]. *)
Definition isTokenUnit (c : Z) : bool :=
  ((ch "A" <=? c) && (c <=? ch "Z"))
  || ((ch "a" <=? c) && (c <=? ch "z"))
  || ((ch "0" <=? c) && (c <=? ch "9"))
  || (c =? ch "-") || (c =? ch "_").

Definition tokenUnitChecks (i : Z) : bool :=
  isTokenUnit (Token.urlSafe (Buffer.digit64 i)).

(** An ASCII code unit. *)
Definition isAscii (u : Z) : bool := (0 <=? u) && (u <? 128).

(** The module name of the file at [path]: what [buildQualifiedName] puts
    before the dot. *)
Definition moduleNameOf (host : Host) (project : Project) (path : jsstring)
  : jsstring :=
  moduleQualifiedName
    (replaceClass [backslash] (lit "/")
                  (relative host (projectRoot host project) path)).

(** The local name [buildQualifiedName] takes for a node: the name of its
    symbol, or else the inferred name. *)
Definition baseNameOf (node : Node) : option jsstring :=
  match getSymbol node with
  | Some symbol => Some (symbolName symbol)
  | None => inferNodeName node
  end.

(** A string without a dot, and the second replacement of
    [moduleQualifiedName] on its own: [.replace(/[\\/]+/g, ".")]. *)
Definition noDot (s : jsstring) : bool :=
  forallb (fun d => negb (d =? dot)) s.

Definition separatorsToDots (s : jsstring) : jsstring :=
  replaceRuns [backslash; slash] (lit ".") false s.

(** A path separator of either kind. *)
Definition isSeparator (c : Z) : bool := (c =? backslash) || (c =? slash).

(** The records of a JSON array of strings. *)
Definition isJString (v : Json) : bool :=
  match v with JString _ => true | _ => false end.

(** The unit nodes whose calls [collectUnits] collects. *)
Definition enclosesCalls (node : Node) : bool :=
  match getKind node with
  | FunctionDeclaration | MethodDeclaration | ArrowFunction
  | FunctionExpression => true
  | _ => false
  end.

(** A path below the directory [root]. *)
Definition liesBelow (root path : jsstring) : bool :=
  startsWith path (root ++ lit "/").

(** Samples: two script files, [/repo/b.ts] with [function bar() {}] and
    [/repo/a2.ts] with [function foo() { bar(); }], where [bar] is the
    global function and resolves to that declaration. *)
Module MoreSamples.

Definition bPath : jsstring := lit "/repo/b.ts".

Definition barDeclaration : Node :=
  Samples.declaration 2 FunctionDeclaration bPath
    (lit "function bar() {}")
    (Some (lit "bar")) (Some (lit "bar")) None []
    [Samples.plain 4 Identifier bPath (lit "bar") [];
     Samples.plain 5 Block bPath (lit "{}") []].

Definition barSymbol : TsSymbol :=
  {| symbolName := lit "bar"; getDeclarations := [barDeclaration] |}.

Definition bFile : SourceFile :=
  {| rootNode :=
       Samples.plain 0 SourceFileKind bPath []
         [barDeclaration; Samples.endOfFile 1 bPath];
     getFilePath := bPath;
     getImportDeclarations := [];
     getExportSymbols := [];
     getDefaultExportSymbol := None;
     fileBytes := [] |}.

(** [path.relative(from, to)] for absolute, normalised POSIX paths: the
    common directories go, each directory left of [from] gives [..], and
    what is left of [to] follows. *)
Definition components (p : jsstring) : list jsstring :=
  List.filter truthy (Args.split slash p).

Fixpoint dropCommon (a b : list jsstring) : list jsstring * list jsstring :=
  match a, b with
  | x :: a', y :: b' => if strictEq x y then dropCommon a' b' else (a, b)
  | _, _ => (a, b)
  end.

Definition posixRelative (from to : jsstring) : jsstring :=
  let '(up, down) := dropCommon (components from) (components to) in
  join (lit "/") (map (fun _ => lit "..") up ++ down).

(** A process started in [/repo], with that [path.relative]. *)
Definition posixHost : Host :=
  {| relative := posixRelative;
     resolve := Samples.resolveBelow;
     sha256Hex := fun _ => [];
     JSON_parse := fun _ => None;
     ONTOCODE_EXTRACTOR_REPO := None;
     ONTOCODE_FILE_LIST := None;
     cwd := lit "/repo";
     discovered := [] |}.

(** [/repo/i.ts]: [import "../other/outside";], where the specifier
    resolves to [/other/outside.ts] with the text [export {};], a source
    file of the project that lies outside [/repo]. *)
Definition iPath : jsstring := lit "/repo/i.ts".

Definition oPath : jsstring := lit "/other/outside.ts".

Definition outsideImport : ImportDeclaration :=
  {| getModuleSpecifierValue := lit "../other/outside";
     getModuleSpecifierSourceFile := Some oPath |}.

Definition iFile : SourceFile :=
  {| rootNode :=
       Samples.plain 0 SourceFileKind iPath []
         [Samples.plain 2 (OtherKind (lit "ImportDeclaration")) iPath
            (lit "import ../other/outside;")
            [Samples.stringLiteral 3 iPath (lit "../other/outside")
               (lit "../other/outside")];
          Samples.endOfFile 1 iPath];
     getFilePath := iPath;
     getImportDeclarations := [outsideImport];
     getExportSymbols := [];
     getDefaultExportSymbol := None;
     fileBytes := [] |}.

Definition oFile : SourceFile :=
  Samples.sourceFile oPath
    [Samples.plain 2 (OtherKind (lit "ExportDeclaration")) oPath
       (lit "export {};")
       [Samples.plain 3 (OtherKind (lit "NamedExports")) oPath (lit "{}") []]].

Definition a2Path : jsstring := lit "/repo/a2.ts".

Definition barCallee : Node :=
  {| nodeId := 17; getKind := Identifier; sourceFilePath := a2Path;
     getSymbol := Some barSymbol; getName := None; getNameNodeText := None;
     getModifiers := []; isAsync := None; getText := lit "bar";
     getLiteralText := []; startLineAndColumn := (1, 18);
     endLineAndColumn := (1, 21); indexAmongKind := 0;
     forEachChild := [] |}.

Definition resolvedCall : Node :=
  Samples.plain 16 CallExpression a2Path (lit "bar()") [barCallee].

(** [/repo/e.ts]: [export const x = 1;] *)
Definition ePath : jsstring := lit "/repo/e.ts".

Definition exportedX : Node :=
  Samples.declaration 4 VariableDeclaration ePath (lit "x = 1")
    (Some (lit "x")) None (Some (lit "x")) []
    [Samples.plain 5 Identifier ePath (lit "x") [];
     Samples.plain 6 (OtherKind (lit "NumericLiteral")) ePath (lit "1") []].

Definition xSymbol : TsSymbol :=
  {| symbolName := lit "x"; getDeclarations := [exportedX] |}.

Definition eFile : SourceFile :=
  {| rootNode :=
       Samples.plain 0 SourceFileKind ePath []
         [Samples.plain 2 VariableStatement ePath (lit "export const x = 1;")
            [Samples.plain 3 VariableDeclarationList ePath (lit "const x = 1")
               [exportedX]];
          Samples.endOfFile 1 ePath];
     getFilePath := ePath;
     getImportDeclarations := [];
     getExportSymbols := [xSymbol];
     getDefaultExportSymbol := None;
     fileBytes := [] |}.

(** A call [x()] of that constant. *)
Definition xCallee : Node :=
  {| nodeId := 27; getKind := Identifier; sourceFilePath := ePath;
     getSymbol := Some xSymbol; getName := None; getNameNodeText := None;
     getModifiers := []; isAsync := None; getText := lit "x";
     getLiteralText := []; startLineAndColumn := (2, 1);
     endLineAndColumn := (2, 2); indexAmongKind := 0;
     forEachChild := [] |}.

Definition xCall : Node :=
  Samples.plain 26 CallExpression ePath (lit "x()") [xCallee].

(** [/repo/k.ts]: [(() => 1); (() => 2);], two arrow functions, each with
    the anonymous function symbol. *)
Definition kPath : jsstring := lit "/repo/k.ts".

Definition arrowAt (id : nat) (text : jsstring) : Node :=
  Samples.declaration id ArrowFunction kPath text
    (Some (lit "__function")) None None [] [].

Definition firstArrow : Node := arrowAt 4 (lit "() => 1").
Definition secondArrow : Node := arrowAt 7 (lit "() => 2").

Definition firstParens : Node :=
  Samples.plain 3 (OtherKind (lit "ParenthesizedExpression")) kPath
    (lit "(() => 1)") [firstArrow].
Definition secondParens : Node :=
  Samples.plain 6 (OtherKind (lit "ParenthesizedExpression")) kPath
    (lit "(() => 2)") [secondArrow].
Definition firstStatement : Node :=
  Samples.plain 2 ExpressionStatement kPath (lit "(() => 1);") [firstParens].
Definition secondStatement : Node :=
  Samples.plain 5 ExpressionStatement kPath (lit "(() => 2);") [secondParens].

Definition kFile : SourceFile :=
  Samples.sourceFile kPath [firstStatement; secondStatement].

(** [/repo/g.ts]: [export default class {}], a class declaration without
    a name, on which the export symbol [default] is declared. *)
Definition gPath : jsstring := lit "/repo/g.ts".

Definition anonymousClass : Node :=
  Samples.declaration 2 ClassDeclaration gPath (lit "export default class {}")
    (Some (lit "default")) None None [ExportKeyword; DefaultKeyword]
    [Samples.plain 3 ExportKeyword gPath (lit "export") [];
     Samples.plain 4 DefaultKeyword gPath (lit "default") []].

Definition gDefaultSymbol : TsSymbol :=
  {| symbolName := lit "default"; getDeclarations := [anonymousClass] |}.

Definition gFile : SourceFile :=
  {| rootNode :=
       Samples.plain 0 SourceFileKind gPath []
         [anonymousClass; Samples.endOfFile 1 gPath];
     getFilePath := gPath;
     getImportDeclarations := [];
     getExportSymbols := [gDefaultSymbol];
     getDefaultExportSymbol := Some gDefaultSymbol;
     fileBytes := [] |}.

(** The text [\["a.ts","a.ts"\]] and a [JSON.parse] that knows it and the
    text [\[1\]]. *)
Definition listText : jsstring :=
  lit "[" ++ doubleQuote :: lit "a.ts" ++ doubleQuote :: lit ","
  ++ doubleQuote :: lit "a.ts" ++ doubleQuote :: lit "]".

Definition parseSamples (text : jsstring) : option Json :=
  if strictEq text listText
  then Some (JArray [JString (lit "a.ts"); JString (lit "a.ts")])
  else if strictEq text (lit "[1]") then Some (JArray [JNumber (lit "1")])
  else None.

(** A process whose override lists [a.ts] twice; discovery would find
    [c.ts]. *)
Definition hostWithList : Host :=
  {| relative := Samples.relativeBelow;
     resolve := Samples.resolveBelow;
     sha256Hex := fun _ => [];
     JSON_parse := parseSamples;
     ONTOCODE_EXTRACTOR_REPO := None;
     ONTOCODE_FILE_LIST := Some listText;
     cwd := lit "/repo";
     discovered := [Samples.cPath] |}.

(** A process whose override is the JSON text [\[1\]]. *)
Definition hostWithNumbers : Host :=
  {| relative := Samples.relativeBelow;
     resolve := Samples.resolveBelow;
     sha256Hex := fun _ => [];
     JSON_parse := parseSamples;
     ONTOCODE_EXTRACTOR_REPO := None;
     ONTOCODE_FILE_LIST := Some (lit "[1]");
     cwd := lit "/repo";
     discovered := [Samples.aPath] |}.

End MoreSamples.
(* ================================================================== *)
(** * Part II: properties *)
(* ================================================================== *)

(** ** Bytes and base64 digits *)

(** Tokens as Node computes them: ASCII, two- and three-byte code points,
    a surrogate pair, and texts whose base64 has [+], [/] and padding. *)
Example symbolId_a_foo :
  symbolId (lit "callable") (lit "a.foo") = lit "dHM6Y2FsbGFibGU6YS5mb28".
Proof. reflexivity. Qed.

Example symbolId_two_and_three_bytes :
  symbolId (lit "variable") [99; 97; 102; 233; 46; 8364]
  = lit "dHM6dmFyaWFibGU6Y2Fmw6ku4oKs".
Proof. reflexivity. Qed.

Example symbolId_surrogate_pair :
  symbolId (lit "callable") [109; 46; 55357; 56832]
  = lit "dHM6Y2FsbGFibGU6bS7wn5iA".
Proof. reflexivity. Qed.

Example symbolId_plus_replaced :
  symbolId (lit "parameter") (lit "~~~?") = lit "dHM6cGFyYW1ldGVyOn5-fj8".
Proof. reflexivity. Qed.

Example symbolId_slash_replaced :
  symbolId (lit "callable") [255; 63; 62] = lit "dHM6Y2FsbGFibGU6w78_Pg".
Proof. reflexivity. Qed.

Example moduleQualifiedName_nested :
  moduleQualifiedName (lit "src/lib//x.test.ts") = lit "src.lib.x.test".
Proof. reflexivity. Qed.


Section ByteFacts.

Lemma Z_of_byte_range (b : byte) : 0 <= Buffer.Z_of_byte b < 256.
Proof.
  unfold Buffer.Z_of_byte. pose proof (Byte.to_N_bounded b). lia.
Qed.

Lemma byte_of_Z_of_byte (b : byte) : Buffer.byte_of_Z (Buffer.Z_of_byte b) = b.
Proof.
  unfold Buffer.byte_of_Z. pose proof (Z_of_byte_range b) as Hr.
  rewrite Z.mod_small by exact Hr.
  unfold Buffer.Z_of_byte. rewrite N2Z.id, Byte.of_to_N. reflexivity.
Qed.

Lemma Z_of_byte_of_Z (z : Z) :
  0 <= z < 256 -> Buffer.Z_of_byte (Buffer.byte_of_Z z) = z.
Proof.
  intros Hz. unfold Buffer.byte_of_Z. rewrite Z.mod_small by exact Hz.
  destruct (Byte.of_N (Z.to_N z)) as [b|] eqn:E.
  - apply Byte.to_of_N in E. unfold Buffer.Z_of_byte. rewrite E. lia.
  - apply Byte.of_N_None_iff in E. lia.
Qed.

End ByteFacts.

(** ** The base64 digits *)

Section Digits.

Lemma sextets_complete (i : Z) : 0 <= i < 64 -> In i Token.sextets.
Proof.
  intros Hi. unfold Token.sextets. apply in_map_iff. exists (Z.to_nat i). split.
  - lia.
  - apply in_seq. lia.
Qed.

Lemma digitChecks_all : forallb Token.digitChecks Token.sextets = true.
Proof. vm_compute. reflexivity. Qed.

Lemma strictEq_eq (a b : jsstring) : strictEq a b = true <-> a = b.
Proof.
  revert b. induction a as [|c a IH]; intros [|d b]; simpl; split;
    try congruence; try discriminate.
  - intros H. apply andb_prop in H as [H1 H2].
    apply Z.eqb_eq in H1. apply IH in H2. congruence.
  - intros H. injection H as -> ->. rewrite Z.eqb_refl. simpl.
    apply IH. reflexivity.
Qed.

Lemma digit_facts (i : Z) :
  0 <= i < 64 ->
  Token.value64 (Buffer.digit64 i) = Some i
  /\ Buffer.digit64 i <> Buffer.padChar
  /\ replaceBase64 [Buffer.digit64 i] = [Token.urlSafe (Buffer.digit64 i)]
  /\ Token.reverseCharMap (Token.urlSafe (Buffer.digit64 i)) = Buffer.digit64 i.
Proof.
  intros Hi. pose proof digitChecks_all as Hall.
  rewrite forallb_forall in Hall. specialize (Hall i (sextets_complete i Hi)).
  unfold Token.digitChecks in Hall.
  repeat (apply andb_prop in Hall as [Hall ?]).
  repeat split.
  - destruct (Token.value64 (Buffer.digit64 i)) as [j|]; [|discriminate].
    apply Z.eqb_eq in Hall. congruence.
  - intros E. rewrite E, Z.eqb_refl in *. discriminate.
  - apply strictEq_eq. assumption.
  - apply Z.eqb_eq. assumption.
Qed.

Lemma value64_digit (i : Z) :
  0 <= i < 64 -> Token.value64 (Buffer.digit64 i) = Some i.
Proof. intros Hi. apply (digit_facts i Hi). Qed.

Lemma digit_not_pad (i : Z) :
  0 <= i < 64 -> (Buffer.digit64 i =? Buffer.padChar) = false.
Proof. intros Hi. apply Z.eqb_neq. apply (digit_facts i Hi). Qed.

Lemma replaceBase64_cons (c : Z) (s : jsstring) :
  replaceBase64 (c :: s) = replaceBase64 [c] ++ replaceBase64 s.
Proof. unfold replaceBase64. simpl. rewrite app_nil_r. reflexivity. Qed.

Lemma replaceBase64_digit (i : Z) (s : jsstring) :
  0 <= i < 64 ->
  replaceBase64 (Buffer.digit64 i :: s)
  = Token.urlSafe (Buffer.digit64 i) :: replaceBase64 s.
Proof.
  intros Hi. rewrite replaceBase64_cons.
  destruct (digit_facts i Hi) as (_ & _ & -> & _). reflexivity.
Qed.

Lemma replaceBase64_pad (s : jsstring) :
  replaceBase64 (Buffer.padChar :: s) = replaceBase64 s.
Proof. reflexivity. Qed.

Lemma reverse_urlSafe_digit (i : Z) :
  0 <= i < 64 ->
  Token.reverseCharMap (Token.urlSafe (Buffer.digit64 i)) = Buffer.digit64 i.
Proof. intros Hi. apply (digit_facts i Hi). Qed.

End Digits.

(** ** Decoding an encoded token *)

Section RoundTrip.

#[local] Arguments Buffer.digit64 : simpl never.
#[local] Arguments Token.value64 : simpl never.
#[local] Arguments Buffer.byte_of_Z : simpl never.
#[local] Arguments Buffer.Z_of_byte : simpl never.
#[local] Arguments Z.mul : simpl never.
#[local] Arguments Z.add : simpl never.
#[local] Arguments Z.div : simpl never.
#[local] Arguments Z.modulo : simpl never.

Lemma list_ind_by3 {A : Type} (P : list A -> Prop) :
  P [] ->
  (forall a, P [a]) ->
  (forall a b, P [a; b]) ->
  (forall a b c l, P l -> P (a :: b :: c :: l)) ->
  forall l, P l.
Proof.
  intros H0 H1 H2 H3.
  fix IH 1. intros [|a [|b [|c l]]].
  - exact H0.
  - apply H1.
  - apply H2.
  - apply H3. apply IH.
Qed.

Lemma restorePadding_group (c1 c2 c3 c4 : Z) (s : jsstring) :
  Token.restorePadding (c1 :: c2 :: c3 :: c4 :: s)
  = c1 :: c2 :: c3 :: c4 :: Token.restorePadding s.
Proof.
  unfold Token.restorePadding.
  replace (length (c1 :: c2 :: c3 :: c4 :: s)) with (length s + 1 * 4)%nat
    by (simpl; lia).
  rewrite Nat.Div0.mod_add. reflexivity.
Qed.

Lemma restorePadding_two (c1 c2 : Z) :
  Token.restorePadding [c1; c2] = [c1; c2; Buffer.padChar; Buffer.padChar].
Proof. reflexivity. Qed.

Lemma restorePadding_three (c1 c2 c3 : Z) :
  Token.restorePadding [c1; c2; c3] = [c1; c2; c3; Buffer.padChar].
Proof. reflexivity. Qed.

Ltac sextet_range :=
  match goal with
  | |- _ <= _ < _ => Z.div_mod_to_equations; lia
  end.

Lemma decode_encode_bytes (bytes : list byte) :
  Token.decode (replaceBase64 (Buffer.toStringBase64 bytes)) = Some bytes.
Proof.
  induction bytes as [|a|a b|a b c rest IH] using list_ind_by3.
  - reflexivity.
  - pose proof (Z_of_byte_range a) as Ha.
    cbn [Buffer.toStringBase64].
    set (za := Buffer.Z_of_byte a) in *.
    rewrite !replaceBase64_digit by sextet_range.
    rewrite !replaceBase64_pad.
    unfold Token.decode. cbn [map replaceBase64 flat_map].
    rewrite !reverse_urlSafe_digit by sextet_range.
    rewrite restorePadding_two.
    cbn [Token.base64Decode].
    rewrite !value64_digit by sextet_range.
    rewrite Z.eqb_refl. cbn [andb truthy negb].
    replace (za / 4 * 4 + za mod 4 * 16 / 16) with za
      by (Z.div_mod_to_equations; lia).
    subst za. rewrite byte_of_Z_of_byte. reflexivity.
  - pose proof (Z_of_byte_range a) as Ha.
    pose proof (Z_of_byte_range b) as Hb.
    cbn [Buffer.toStringBase64].
    set (za := Buffer.Z_of_byte a) in *.
    set (zb := Buffer.Z_of_byte b) in *.
    rewrite !replaceBase64_digit by sextet_range.
    rewrite !replaceBase64_pad.
    unfold Token.decode. cbn [map replaceBase64 flat_map].
    rewrite !reverse_urlSafe_digit by sextet_range.
    rewrite restorePadding_three.
    cbn [Token.base64Decode].
    rewrite !value64_digit by sextet_range.
    rewrite digit_not_pad by sextet_range.
    rewrite Z.eqb_refl. cbn [andb truthy negb].
    replace (za / 4 * 4 + (za mod 4 * 16 + zb / 16) / 16) with za
      by (Z.div_mod_to_equations; lia).
    replace ((za mod 4 * 16 + zb / 16) mod 16 * 16 + zb mod 16 * 4 / 4)
      with zb by (Z.div_mod_to_equations; lia).
    subst za zb. rewrite !byte_of_Z_of_byte. reflexivity.
  - pose proof (Z_of_byte_range a) as Ha.
    pose proof (Z_of_byte_range b) as Hb.
    pose proof (Z_of_byte_range c) as Hc.
    cbn [Buffer.toStringBase64].
    set (za := Buffer.Z_of_byte a) in *.
    set (zb := Buffer.Z_of_byte b) in *.
    set (zc := Buffer.Z_of_byte c) in *.
    rewrite !replaceBase64_digit by sextet_range.
    unfold Token.decode in *. cbn [map].
    rewrite !reverse_urlSafe_digit by sextet_range.
    rewrite restorePadding_group.
    cbn [Token.base64Decode].
    rewrite !value64_digit by sextet_range.
    rewrite !digit_not_pad by sextet_range.
    rewrite IH.
    replace (za / 4 * 4 + (za mod 4 * 16 + zb / 16) / 16) with za
      by (Z.div_mod_to_equations; lia).
    replace ((za mod 4 * 16 + zb / 16) mod 16 * 16
             + (zb mod 16 * 4 + zc / 64) / 4)
      with zb by (Z.div_mod_to_equations; lia).
    replace ((zb mod 16 * 4 + zc / 64) mod 4 * 64 + zc mod 64) with zc
      by (Z.div_mod_to_equations; lia).
    subst za zb zc. rewrite !byte_of_Z_of_byte. reflexivity.
Qed.

End RoundTrip.

(** ** The replacement callback against the wording of the specification *)

Section Wording.

Lemma replaceBase64_one (c : Z) :
  replaceBase64 [c]
  = if c =? Buffer.padChar then [] else [Token.urlSafe c].
Proof.
  unfold replaceBase64, Token.urlSafe, base64Replacer.
  cbn [flat_map existsb app].
  change (ch "+") with 43. change (ch "/") with 47. change (ch "=") with 61.
  change Buffer.padChar with 61.
  destruct (Z.eqb_spec c 43) as [->|H43]; [reflexivity|].
  destruct (Z.eqb_spec c 47) as [->|H47]; [reflexivity|].
  destruct (Z.eqb_spec c 61) as [->|H61]; reflexivity.
Qed.

Lemma replaceBase64_wording (s : jsstring) :
  replaceBase64 s = map Token.urlSafe (Token.stripPadding s).
Proof.
  induction s as [|c s IH].
  - reflexivity.
  - rewrite replaceBase64_cons, replaceBase64_one, IH.
    unfold Token.stripPadding. cbn [List.filter].
    destruct (c =? Buffer.padChar); reflexivity.
Qed.

End Wording.

(** ** [Buffer.from] on well-formed strings *)

Section Utf8.

#[local] Arguments Buffer.byte_of_Z : simpl never.
#[local] Arguments Buffer.Z_of_byte : simpl never.

Lemma utf16_utf8_unit (u : Z) (bytes : list byte) :
  0 <= u < 65536 ->
  Token.utf16 (Buffer.utf8 u ++ bytes) = u :: Token.utf16 bytes.
Proof.
  intros Hu. unfold Buffer.utf8.
  destruct (Z.ltb_spec u 128) as [H1|H1].
  - cbn [app Token.utf16]. rewrite Z_of_byte_of_Z by lia.
    destruct (Z.ltb_spec u 128); [reflexivity|lia].
  - destruct (Z.ltb_spec u 2048) as [H2|H2].
    + cbn [app Token.utf16].
      rewrite !Z_of_byte_of_Z by (Z.div_mod_to_equations; lia).
      destruct (Z.ltb_spec (192 + u / 64) 128);
        [Z.div_mod_to_equations; lia|].
      destruct (Z.ltb_spec (192 + u / 64) 224);
        [|Z.div_mod_to_equations; lia].
      f_equal. Z.div_mod_to_equations; lia.
    + destruct (Z.ltb_spec u 65536) as [H3|H3]; [|lia].
      cbn [app Token.utf16].
      rewrite !Z_of_byte_of_Z by (Z.div_mod_to_equations; lia).
      destruct (Z.ltb_spec (224 + u / 4096) 128);
        [Z.div_mod_to_equations; lia|].
      destruct (Z.ltb_spec (224 + u / 4096) 224);
        [Z.div_mod_to_equations; lia|].
      destruct (Z.ltb_spec (224 + u / 4096) 240);
        [|Z.div_mod_to_equations; lia].
      f_equal. Z.div_mod_to_equations; lia.
Qed.

Lemma utf16_utf8_pair (h l : Z) (bytes : list byte) :
  55296 <= h < 56320 -> 56320 <= l < 57344 ->
  Token.utf16
    (Buffer.utf8 (65536 + (h - 55296) * 1024 + (l - 56320)) ++ bytes)
  = h :: l :: Token.utf16 bytes.
Proof.
  intros Hh Hl. unfold Buffer.utf8.
  set (c := 65536 + (h - 55296) * 1024 + (l - 56320)).
  assert (Hc : 65536 <= c < 1114112) by (unfold c; lia).
  destruct (Z.ltb_spec c 128); [lia|].
  destruct (Z.ltb_spec c 2048); [lia|].
  destruct (Z.ltb_spec c 65536); [lia|].
  cbn [app Token.utf16].
  rewrite !Z_of_byte_of_Z by (Z.div_mod_to_equations; lia).
  destruct (Z.ltb_spec (240 + c / 262144) 128);
    [Z.div_mod_to_equations; lia|].
  destruct (Z.ltb_spec (240 + c / 262144) 224);
    [Z.div_mod_to_equations; lia|].
  destruct (Z.ltb_spec (240 + c / 262144) 240);
    [Z.div_mod_to_equations; lia|].
  replace ((240 + c / 262144 - 240) * 262144
           + (128 + (c / 4096) mod 64 - 128) * 4096
           + (128 + (c / 64) mod 64 - 128) * 64
           + (128 + c mod 64 - 128) - 65536)
    with ((h - 55296) * 1024 + (l - 56320))
    by (unfold c in *; Z.div_mod_to_equations; lia).
  f_equal; [|f_equal]; Z.div_mod_to_equations; lia.
Qed.

(** Induction on a list that may take one or two elements at a time. *)
Lemma list_ind_by1or2 {A : Type} (P : list A -> Prop) :
  P [] ->
  (forall a, P [a]) ->
  (forall a b l, P l -> P (b :: l) -> P (a :: b :: l)) ->
  forall l, P l.
Proof.
  intros H0 H1 H2 l.
  enough (H : P l /\ forall a, P (a :: l)) by apply H.
  induction l as [|b l [IHl IHbl]].
  - split; [exact H0 | exact H1].
  - split; [apply IHbl|]. intros a. apply H2; [exact IHl | apply IHbl].
Qed.

Lemma from_step (u : Z) (rest : jsstring) :
  Buffer.from (u :: rest)
  = if isHighSurrogate u then
      match rest with
      | l :: rest' =>
          if isLowSurrogate l
          then Buffer.utf8 (65536 + (u - 55296) * 1024 + (l - 56320))
               ++ Buffer.from rest'
          else Buffer.replacementBytes ++ Buffer.from rest
      | [] => Buffer.replacementBytes
      end
    else if isLowSurrogate u then Buffer.replacementBytes ++ Buffer.from rest
    else Buffer.utf8 u ++ Buffer.from rest.
Proof. reflexivity. Qed.

Lemma isWellFormed_step (u : Z) (rest : jsstring) :
  isWellFormed (u :: rest)
  = if isHighSurrogate u then
      match rest with
      | l :: rest' => isLowSurrogate l && isWellFormed rest'
      | [] => false
      end
    else isCodeUnit u && negb (isLowSurrogate u) && isWellFormed rest.
Proof. reflexivity. Qed.

Lemma utf16_from (s : jsstring) :
  isWellFormed s = true -> Token.utf16 (Buffer.from s) = s.
Proof.
  induction s as [|u|u l rest IH IHl] using list_ind_by1or2.
  - reflexivity.
  - rewrite isWellFormed_step, from_step.
    destruct (isHighSurrogate u) eqn:Eh; [discriminate|].
    intros Hw. apply andb_prop in Hw as [Hw _].
    apply andb_prop in Hw as [Hcu Hlo].
    apply negb_true_iff in Hlo. rewrite Hlo.
    unfold isCodeUnit in Hcu.
    rewrite utf16_utf8_unit by lia. reflexivity.
  - rewrite isWellFormed_step, from_step.
    destruct (isHighSurrogate u) eqn:Eh.
    + intros Hw. apply andb_prop in Hw as [Hlo Hw].
      rewrite Hlo. unfold isHighSurrogate in Eh. unfold isLowSurrogate in Hlo.
      rewrite utf16_utf8_pair by lia.
      rewrite IH by exact Hw. reflexivity.
    + intros Hw. apply andb_prop in Hw as [Hw Hrest].
      apply andb_prop in Hw as [Hcu Hlo].
      apply negb_true_iff in Hlo. rewrite Hlo.
      unfold isCodeUnit in Hcu.
      rewrite utf16_utf8_unit by lia.
      rewrite IHl by exact Hrest. reflexivity.
Qed.

Lemma from_injective (s t : jsstring) :
  isWellFormed s = true -> isWellFormed t = true ->
  Buffer.from s = Buffer.from t -> s = t.
Proof.
  intros Hs Ht E.
  rewrite <- (utf16_from s Hs), <- (utf16_from t Ht), E. reflexivity.
Qed.

End Utf8.

(** ** Symbol identities *)

Section Identity.

Lemma isWellFormed_plain_app (p s : jsstring) :
  forallb plainUnit p = true -> isWellFormed (p ++ s) = isWellFormed s.
Proof.
  induction p as [|u p IH]; intros Hp.
  - reflexivity.
  - cbn [forallb] in Hp. apply andb_prop in Hp as [Hu Hp].
    unfold plainUnit in Hu.
    apply andb_prop in Hu as [Hu Hlo]. apply andb_prop in Hu as [Hcu Hhi].
    apply negb_true_iff in Hhi. apply negb_true_iff in Hlo.
    rewrite <- app_comm_cons, isWellFormed_step, Hhi, Hcu, Hlo.
    cbn [andb negb]. apply IH. exact Hp.
Qed.

Lemma identityText_well_formed (k : UnitKind) (qn : jsstring) :
  isWellFormed (identityText (unitKindName k) qn) = isWellFormed qn.
Proof.
  unfold identityText. rewrite !app_assoc.
  apply isWellFormed_plain_app. destruct k; vm_compute; reflexivity.
Qed.

Lemma identityText_injective (k1 k2 : UnitKind) (q1 q2 : jsstring) :
  identityText (unitKindName k1) q1 = identityText (unitKindName k2) q2 ->
  k1 = k2 /\ q1 = q2.
Proof.
  intros E. unfold identityText in E.
  destruct k1, k2; cbv [lit unitKindName list_ascii_of_string map app] in E;
    vm_compute ch in E; try discriminate E;
    (split; [reflexivity | congruence]).
Qed.

Lemma symbolId_decode (kind qn : jsstring) :
  Token.decode (symbolId kind qn) = Some (Buffer.from (identityText kind qn)).
Proof. unfold symbolId, base64Url. apply decode_encode_bytes. Qed.

Lemma symbolId_injective (k1 k2 : UnitKind) (q1 q2 : jsstring) :
  isWellFormed q1 = true -> isWellFormed q2 = true ->
  symbolId (unitKindName k1) q1 = symbolId (unitKindName k2) q2 ->
  k1 = k2 /\ q1 = q2.
Proof.
  intros H1 H2 E.
  apply (f_equal Token.decode) in E. rewrite !symbolId_decode in E.
  assert (E' : Buffer.from (identityText (unitKindName k1) q1)
               = Buffer.from (identityText (unitKindName k2) q2))
    by congruence.
  clear E. apply from_injective in E'.
  - apply identityText_injective. exact E'.
  - rewrite identityText_well_formed. exact H1.
  - rewrite identityText_well_formed. exact H2.
Qed.

End Identity.

(** C2. The token of a kind and a qualified name is the base64 text of the
    bytes of ["ts:<kind>:<qualifiedName>"] with [+] replaced by [-], [/] by
    [_] and the padding stripped; reversing the character map, restoring the
    padding and decoding the base64 text gives back the bytes, for every
    byte string and so for every input string. *)
Theorem symbolId_token_decodes_to_its_bytes :
  (forall kind qualifiedName : jsstring,
      symbolId kind qualifiedName
      = Token.encode
          (Buffer.from (lit "ts:" ++ kind ++ lit ":" ++ qualifiedName)))
  /\ (forall kind qualifiedName : jsstring,
         Token.decode (symbolId kind qualifiedName)
         = Some (Buffer.from (lit "ts:" ++ kind ++ lit ":" ++ qualifiedName)))
  /\ (forall bytes : list byte,
         Token.decode (Token.encode bytes) = Some bytes)
  /\ (forall value : jsstring,
         Token.decode (base64Url value) = Some (Buffer.from value)).
Proof.
  split; [|split; [|split]].
  - intros kind qn. unfold symbolId, identityText, base64Url, Token.encode.
    apply replaceBase64_wording.
  - intros kind qn. unfold symbolId, identityText, base64Url.
    apply decode_encode_bytes.
  - intros bytes. unfold Token.encode. rewrite <- replaceBase64_wording.
    apply decode_encode_bytes.
  - intros value. unfold base64Url. apply decode_encode_bytes.
Qed.

(** ** The unit extractor *)

Section Units.

Variable host : Host.
Variable project : Project.

Lemma flat_map_fst_map {A B C : Type} (f : A -> list B * list C) (l : list A) :
  flat_map fst (map f l) = flat_map (fun a => fst (f a)) l.
Proof. induction l as [|a l IH]; cbn [map flat_map]; congruence. Qed.

Lemma flat_map_snd_map {A B C : Type} (f : A -> list B * list C) (l : list A) :
  flat_map snd (map f l) = flat_map (fun a => snd (f a)) l.
Proof. induction l as [|a l IH]; cbn [map flat_map]; congruence. Qed.

Lemma collectUnits_units (sourceFile : SourceFile) (checker : TypeChecker) :
  fst (collectUnits host project sourceFile checker)
  = flat_map (fun v => fst (visitUnit host project sourceFile checker v))
             (visitsFrom [] (rootNode sourceFile)).
Proof. unfold collectUnits. cbn [fst]. apply flat_map_fst_map. Qed.

Lemma collectUnits_occurrences (sourceFile : SourceFile)
    (checker : TypeChecker) :
  snd (collectUnits host project sourceFile checker)
  = flat_map (fun v => snd (visitUnit host project sourceFile checker v))
             (visitsFrom [] (rootNode sourceFile)).
Proof. unfold collectUnits. cbn [snd]. apply flat_map_snd_map. Qed.

Lemma buildQualifiedName_truthy (path : jsstring) (node : Node)
    (checker : TypeChecker) :
  whenTruthy (buildQualifiedName host project path node checker)
  = buildQualifiedName host project path node checker.
Proof.
  unfold buildQualifiedName.
  destruct (whenTruthy (match getSymbol node with
                        | Some symbol => Some (symbolName symbol)
                        | None => inferNodeName node
                        end)) as [baseName|]; [|reflexivity].
  cbn [whenTruthy].
  destruct (moduleQualifiedName _); reflexivity.
Qed.

Lemma isUnitNode_kinds (node : Node) :
  isUnitNode node = true
  <-> In (getKind node)
         [FunctionDeclaration; FunctionExpression; ArrowFunction;
          MethodDeclaration; ClassDeclaration; InterfaceDeclaration;
          EnumDeclaration].
Proof.
  unfold isUnitNode, isFunctionDeclaration, isFunctionExpression,
    isArrowFunction, isMethodDeclaration, isClassDeclaration,
    isInterfaceDeclaration, isEnumDeclaration.
  cbn [In]. destruct (getKind node); cbn [orb]; split; intros H;
    try discriminate H; try reflexivity;
    try (repeat (destruct H as [H|H]; try discriminate H); now destruct H);
    auto 10.
Qed.

Lemma isUnitNode_inferUnitKind (node : Node) :
  isUnitNode node = true ->
  inferUnitKind node = callable \/ inferUnitKind node = classifier.
Proof.
  unfold isUnitNode, isFunctionDeclaration, isFunctionExpression,
    isArrowFunction, isMethodDeclaration, isClassDeclaration,
    isInterfaceDeclaration, isEnumDeclaration, inferUnitKind.
  destruct (getKind node); cbn [orb]; intros H; try discriminate H; auto.
Qed.

Lemma visitUnit_skips (sourceFile : SourceFile) (checker : TypeChecker)
    (v : Visit) :
  isUnitNode (visited v) = false ->
  visitUnit host project sourceFile checker v = ([], []).
Proof. intros H. unfold visitUnit. rewrite H. reflexivity. Qed.

Lemma visitUnit_emits (sourceFile : SourceFile) (checker : TypeChecker)
    (v : Visit) (qn : jsstring) :
  isUnitNode (visited v) = true ->
  buildQualifiedName host project (getFilePath sourceFile) (visited v) checker
  = Some qn ->
  exists u,
    fst (visitUnit host project sourceFile checker v) = [u]
    /\ UnitRecord.kind u = inferUnitKind (visited v)
    /\ UnitRecord.qualifiedName u = qn
    /\ UnitRecord.symbolId u
       = symbolId (unitKindName (inferUnitKind (visited v))) qn.
Proof.
  intros Hk Hq. unfold visitUnit.
  rewrite Hk, buildQualifiedName_truthy, Hq. cbn [negb fst].
  eexists. split; [reflexivity|]. repeat split.
Qed.

Lemma visitUnit_units_kind (sourceFile : SourceFile) (checker : TypeChecker)
    (v : Visit) (u : UnitRecord.t) :
  In u (fst (visitUnit host project sourceFile checker v)) ->
  isUnitNode (visited v) = true
  /\ UnitRecord.kind u = inferUnitKind (visited v)
  /\ UnitRecord.symbolId u
     = symbolId (unitKindName (UnitRecord.kind u)) (UnitRecord.qualifiedName u).
Proof.
  unfold visitUnit. destruct (isUnitNode (visited v)); cbn [negb].
  - destruct (whenTruthy _) as [qn|]; cbn [fst]; [|intros []].
    intros [<-|[]]. repeat split.
  - intros [].
Qed.

End Units.

(** C1, as the code has it. Every unit record carries the token
    [symbolId] computes from its own kind and qualified name, whatever the
    process, the project and the file are; and two distinct pairs of a kind
    of the closed vocabulary and a qualified name get distinct tokens when
    both qualified names are well-formed UTF-16 (no lone surrogate). *)
Theorem symbolId_pure_and_injective_on_well_formed :
  (forall (host : Host) (project : Project) (sourceFile : SourceFile)
          (checker : TypeChecker) (u : UnitRecord.t),
      In u (fst (collectUnits host project sourceFile checker)) ->
      UnitRecord.symbolId u
      = symbolId (unitKindName (UnitRecord.kind u)) (UnitRecord.qualifiedName u))
  /\
  (forall (k1 k2 : UnitKind) (q1 q2 : jsstring),
      isWellFormed q1 = true -> isWellFormed q2 = true ->
      (k1, q1) <> (k2, q2) ->
      symbolId (unitKindName k1) q1 <> symbolId (unitKindName k2) q2).
Proof.
  split.
  - intros host project sourceFile checker u Hu.
    rewrite collectUnits_units in Hu.
    apply in_flat_map in Hu as (v & _ & Hu).
    apply visitUnit_units_kind in Hu. apply Hu.
  - intros k1 k2 q1 q2 H1 H2 Hne E.
    apply Hne. destruct (symbolId_injective k1 k2 q1 q2 H1 H2 E) as [-> ->].
    reflexivity.
Qed.

Lemma symbolId_pure_and_injective_witness :
  symbolId (unitKindName callable) (lit "a.foo")
  <> symbolId (unitKindName classifier) (lit "a.foo").
Proof.
  apply (proj2 symbolId_pure_and_injective_on_well_formed
               callable classifier (lit "a.foo") (lit "a.foo")).
  - reflexivity.
  - reflexivity.
  - discriminate.
Defined.

(** C1 as stated fails: the kind [callable] with the qualified names
    "\uD800" and "\uD801", two different strings, gets one token, since
    UTF-8 writes every lone surrogate as U+FFFD. *)
Lemma symbolId_not_injective_on_lone_surrogates :
  (callable, [55296]) <> (callable, [55297])
  /\ symbolId (unitKindName callable) [55296]
     = symbolId (unitKindName callable) [55297].
Proof. split; [discriminate | reflexivity]. Qed.

(** C6, as the code has it. The unit extractor lets through the function
    declarations, function expressions, arrow functions, methods, classes,
    interfaces and enums among the descendants of the file, and writes one
    unit record for each of them that has a qualified name, of kind
    [callable] or [classifier]; every other node, a variable declaration
    among them, yields no unit record. *)
Theorem collectUnits_emits_one_unit_per_declaration :
  forall (host : Host) (project : Project) (sourceFile : SourceFile)
         (checker : TypeChecker),
    (forall node,
        isUnitNode node = true
        <-> In (getKind node)
               [FunctionDeclaration; FunctionExpression; ArrowFunction;
                MethodDeclaration; ClassDeclaration; InterfaceDeclaration;
                EnumDeclaration])
    /\ fst (collectUnits host project sourceFile checker)
       = flat_map (fun v => fst (visitUnit host project sourceFile checker v))
                  (visitsFrom [] (rootNode sourceFile))
    /\ (forall v qn,
           In v (visitsFrom [] (rootNode sourceFile)) ->
           isUnitNode (visited v) = true ->
           buildQualifiedName host project (getFilePath sourceFile)
                              (visited v) checker = Some qn ->
           exists u,
             fst (visitUnit host project sourceFile checker v) = [u]
             /\ In u (fst (collectUnits host project sourceFile checker))
             /\ UnitRecord.kind u = inferUnitKind (visited v)
             /\ UnitRecord.qualifiedName u = qn)
    /\ (forall v,
           isUnitNode (visited v) = false ->
           fst (visitUnit host project sourceFile checker v) = [])
    /\ (forall v,
           getKind (visited v) = VariableDeclaration ->
           fst (visitUnit host project sourceFile checker v) = [])
    /\ (forall u,
           In u (fst (collectUnits host project sourceFile checker)) ->
           UnitRecord.kind u = callable \/ UnitRecord.kind u = classifier).
Proof.
  intros host project sourceFile checker.
  split; [apply isUnitNode_kinds|].
  split; [apply collectUnits_units|].
  split; [|split; [|split]].
  - intros v qn Hv Hk Hq.
    destruct (visitUnit_emits host project sourceFile checker v qn Hk Hq)
      as (u & Hu & Hkind & Hqn & _).
    exists u. repeat split; try assumption.
    rewrite collectUnits_units. apply in_flat_map. exists v.
    split; [exact Hv|]. rewrite Hu. left. reflexivity.
  - intros v Hk. rewrite visitUnit_skips by exact Hk. reflexivity.
  - intros v Hk. rewrite visitUnit_skips; [reflexivity|].
    unfold isUnitNode, isFunctionDeclaration, isFunctionExpression,
      isArrowFunction, isMethodDeclaration, isClassDeclaration,
      isInterfaceDeclaration, isEnumDeclaration.
    rewrite Hk. reflexivity.
  - intros u Hu. rewrite collectUnits_units in Hu.
    apply in_flat_map in Hu as (v & _ & Hu).
    apply visitUnit_units_kind in Hu as (Hk & -> & _).
    apply isUnitNode_inferUnitKind. exact Hk.
Qed.

Lemma collectUnits_emits_one_unit_witness :
  exists u,
    fst (visitUnit Samples.host (Samples.projectOf [Samples.aFile])
                   Samples.aFile Samples.checker
                   (mkVisit [rootNode Samples.aFile] Samples.fooDeclaration))
    = [u]
    /\ In u (fst (collectUnits Samples.host (Samples.projectOf [Samples.aFile])
                               Samples.aFile Samples.checker))
    /\ UnitRecord.kind u = inferUnitKind Samples.fooDeclaration
    /\ UnitRecord.qualifiedName u = lit "a.foo".
Proof.
  apply (proj1 (proj2 (proj2
           (collectUnits_emits_one_unit_per_declaration
              Samples.host (Samples.projectOf [Samples.aFile])
              Samples.aFile Samples.checker)))
           (mkVisit [rootNode Samples.aFile] Samples.fooDeclaration)
           (lit "a.foo")).
  - left. reflexivity.
  - reflexivity.
  - reflexivity.
Defined.

(** C6 as stated fails: in [const x = 1;] the variable declaration is
    among the descendants of the file and has the qualified name [c.x], and
    the extractor writes no unit record at all. *)
Lemma collectUnits_skips_variable_declaration :
  (exists parents,
      In (mkVisit parents Samples.xDeclaration)
         (visitsFrom [] (rootNode Samples.cFile)))
  /\ getKind Samples.xDeclaration = VariableDeclaration
  /\ buildQualifiedName Samples.host (Samples.projectOf [Samples.cFile])
                        (getFilePath Samples.cFile) Samples.xDeclaration
                        Samples.checker = Some (lit "c.x")
  /\ fst (collectUnits Samples.host (Samples.projectOf [Samples.cFile])
                       Samples.cFile Samples.checker) = [].
Proof.
  split; [|split; [|split]]; try reflexivity.
  eexists. vm_compute. right. right. left. reflexivity.
Qed.

(** ** The occurrence extractor *)

Section Occurrences.

Lemma textualName_cons (c : Z) (text : jsstring) :
  textualName (c :: text)
  = (if isQuote c then [] else if c =? slash then lit "." else [c])
    ++ textualName text.
Proof.
  unfold textualName, replaceClass, isQuote.
  cbn [flat_map existsb]. rewrite orb_false_r.
  destruct ((c =? doubleQuote) || (c =? apostrophe)).
  - reflexivity.
  - cbn [app flat_map existsb]. rewrite orb_false_r.
    destruct (c =? slash); reflexivity.
Qed.

Lemma textualName_empty (text : jsstring) :
  textualName text = [] <-> forallb isQuote text = true.
Proof.
  induction text as [|c text IH].
  - split; reflexivity.
  - rewrite textualName_cons. cbn [forallb].
    destruct (isQuote c); cbn [andb app].
    + exact IH.
    + split; [|discriminate]. destruct (c =? slash); discriminate.
Qed.

Lemma textualName_nonempty (text : jsstring) :
  textualName text <> [] <-> exists c, In c text /\ isQuote c = false.
Proof.
  rewrite textualName_empty. split.
  - intros H. induction text as [|c text IH]; [destruct H; reflexivity|].
    cbn [forallb] in H. destruct (isQuote c) eqn:Eq.
    + destruct IH as (d & Hd & Hq); [exact H|].
      exists d. split; [right; exact Hd | exact Hq].
    + exists c. split; [left; reflexivity | exact Eq].
  - intros (c & Hc & Hq) Hall. rewrite forallb_forall in Hall.
    rewrite (Hall c Hc) in Hq. discriminate.
Qed.

Lemma callOccurrence_relation (host : Host) (project : Project)
    (subjectId : jsstring) (checker : TypeChecker) (node : Node)
    (r : OccurrenceRecord.t) :
  In r (callOccurrence host project subjectId checker node) ->
  OccurrenceRecord.relation r = calls
  /\ OccurrenceRecord.subjectSymbolId r = subjectId.
Proof.
  unfold callOccurrence.
  destruct (negb (isCallExpression node)); [intros []|].
  destruct (getExpression node) as [expression|]; [|intros []].
  intros [<-|[]]. split; reflexivity.
Qed.

Lemma callOccurrence_undeclared (host : Host) (project : Project)
    (subjectId : jsstring) (checker : TypeChecker) (call callee : Node) :
  isCallExpression call = true ->
  getExpression call = Some callee ->
  (forall s, calleeSymbol checker callee = Some s -> getDeclarations s = []) ->
  callOccurrence host project subjectId checker call
  = [ {| OccurrenceRecord.relation := calls;
         OccurrenceRecord.subjectSymbolId := subjectId;
         OccurrenceRecord.objectSymbolId := None;
         OccurrenceRecord.objectQName :=
           textualName (bestEffortName checker callee);
         OccurrenceRecord.span := spanFromNode call |} ].
Proof.
  intros Hc He Hs. unfold callOccurrence, bestEffortName.
  rewrite Hc, He. cbn [negb]. fold (calleeSymbol checker callee).
  destruct (calleeSymbol checker callee) as [s|].
  - rewrite (Hs s eq_refl). reflexivity.
  - reflexivity.
Qed.

End Occurrences.

(** The nodes of the visits below a node are its descendants. *)
Lemma visitsFrom_visited :
  forall (n : Node) (chain : list Node),
    map visited (visitsFrom chain n) = forEachDescendant n.
Proof.
  fix IH 1.
  intros [id k path sym nm nt mods asy tx lt st en ix children] chain.
  cbn [visitsFrom forEachDescendant forEachChild].
  set (n := mkNode id k path sym nm nt mods asy tx lt st en ix children).
  clearbody n. revert children.
  fix IHcs 1. intros [|c cs]; cbn [flat_map].
  - reflexivity.
  - rewrite map_app. cbn [map visited]. rewrite IH, (IHcs cs). reflexivity.
Qed.

(** The occurrences the callback of [collectUnits] pushes on a node: those
    of the calls below it when it is a function declaration, a function
    expression, an arrow function or a method with a qualified name, under
    the identity of the callable of that name; none otherwise. *)
Lemma visitUnit_occurrences (host : Host) (project : Project)
    (sourceFile : SourceFile) (checker : TypeChecker) (v : Visit) :
  snd (visitUnit host project sourceFile checker v)
  = if enclosesCalls (visited v) then
      match buildQualifiedName host project (getFilePath sourceFile)
                               (visited v) checker with
      | Some qn =>
          flat_map (callOccurrence host project
                      (symbolId (lit "callable") qn) checker)
                   (forEachDescendant (visited v))
      | None => []
      end
    else [].
Proof.
  unfold visitUnit. rewrite buildQualifiedName_truthy.
  unfold enclosesCalls, isUnitNode, isFunctionDeclaration,
    isFunctionExpression, isArrowFunction, isMethodDeclaration,
    isClassDeclaration, isInterfaceDeclaration, isEnumDeclaration,
    inferUnitKind, collectCallOccurrences.
  destruct (getKind (visited v)); cbn [negb orb snd];
    try reflexivity;
    destruct (buildQualifiedName host project (getFilePath sourceFile)
                                 (visited v) checker);
    reflexivity.
Qed.

Lemma collectUnits_occurrences_by_node (host : Host) (project : Project)
    (sourceFile : SourceFile) (checker : TypeChecker) :
  snd (collectUnits host project sourceFile checker)
  = flat_map
      (fun node =>
         if enclosesCalls node then
           match buildQualifiedName host project (getFilePath sourceFile)
                                    node checker with
           | Some qn =>
               flat_map (callOccurrence host project
                           (symbolId (lit "callable") qn) checker)
                        (forEachDescendant node)
           | None => []
           end
         else [])
      (forEachDescendant (rootNode sourceFile)).
Proof.
  rewrite collectUnits_occurrences.
  rewrite <- (visitsFrom_visited (rootNode sourceFile) []).
  rewrite flat_map_concat_map, (flat_map_concat_map _ (map visited _)).
  rewrite map_map. f_equal. apply map_ext. intros v.
  apply visitUnit_occurrences.
Qed.

(** C7, as the code has it. Each time [collectCallOccurrences] meets a
    call expression whose callee resolves to no declaration (it has no
    symbol, or a symbol without declarations), it writes exactly one record
    for it: the relation is [calls], the object identity is absent, and the
    object name is the best-effort name (the fully qualified name of the
    symbol, or the text of the callee when there is no symbol) without
    quote characters and with [.] for every [/], which is not empty exactly
    when that name has a code unit that is no quote.  The occurrences of a
    file are, for each function declaration, function expression, arrow
    function and method among the descendants of the file that has a
    qualified name, in the order of the visit, the records of the calls
    among the descendants of that node, under the identity of the callable
    of that name; so such a call is recorded once for every unit of these
    kinds it lies in, and its record is among the occurrences of the file.
    [calls] is the relation of every record, and the functions are total,
    so no call stops the extraction. *)
Theorem unresolved_call_yields_one_record_per_enclosing_unit :
  forall (host : Host) (project : Project) (checker : TypeChecker),
    (forall subjectId call callee,
        isCallExpression call = true ->
        getExpression call = Some callee ->
        (forall s, calleeSymbol checker callee = Some s ->
                   getDeclarations s = []) ->
        callOccurrence host project subjectId checker call
        = [ {| OccurrenceRecord.relation := calls;
               OccurrenceRecord.subjectSymbolId := subjectId;
               OccurrenceRecord.objectSymbolId := None;
               OccurrenceRecord.objectQName :=
                 textualName (bestEffortName checker callee);
               OccurrenceRecord.span := spanFromNode call |} ]
        /\ (textualName (bestEffortName checker callee) <> []
            <-> exists c, In c (bestEffortName checker callee)
                          /\ isQuote c = false))
    /\ (forall container subjectId,
           collectCallOccurrences host project container subjectId checker
           = flat_map (callOccurrence host project subjectId checker)
                      (forEachDescendant container))
    /\ (forall sourceFile,
           snd (collectUnits host project sourceFile checker)
           = flat_map
               (fun node =>
                  if enclosesCalls node then
                    match buildQualifiedName host project
                            (getFilePath sourceFile) node checker with
                    | Some qn =>
                        flat_map (callOccurrence host project
                                    (symbolId (lit "callable") qn) checker)
                                 (forEachDescendant node)
                    | None => []
                    end
                  else [])
               (forEachDescendant (rootNode sourceFile)))
    /\ (forall sourceFile unit qn call callee,
           In unit (forEachDescendant (rootNode sourceFile)) ->
           enclosesCalls unit = true ->
           buildQualifiedName host project (getFilePath sourceFile) unit
                              checker = Some qn ->
           In call (forEachDescendant unit) ->
           isCallExpression call = true ->
           getExpression call = Some callee ->
           (forall s, calleeSymbol checker callee = Some s ->
                      getDeclarations s = []) ->
           In {| OccurrenceRecord.relation := calls;
                 OccurrenceRecord.subjectSymbolId :=
                   symbolId (lit "callable") qn;
                 OccurrenceRecord.objectSymbolId := None;
                 OccurrenceRecord.objectQName :=
                   textualName (bestEffortName checker callee);
                 OccurrenceRecord.span := spanFromNode call |}
              (snd (collectUnits host project sourceFile checker)))
    /\ (forall sourceFile r,
           In r (snd (collectUnits host project sourceFile checker)) ->
           OccurrenceRecord.relation r = calls).
Proof.
  intros host project checker. split; [|split; [|split; [|split]]].
  - intros subjectId call callee Hc He Hs. split.
    + apply callOccurrence_undeclared; assumption.
    + apply textualName_nonempty.
  - reflexivity.
  - intros sourceFile. apply collectUnits_occurrences_by_node.
  - intros sourceFile unit qn call callee Hu Hk Hq Hcall Hc He Hs.
    rewrite collectUnits_occurrences_by_node.
    apply in_flat_map. exists unit. split; [exact Hu|].
    rewrite Hk, Hq. apply in_flat_map. exists call. split; [exact Hcall|].
    rewrite (callOccurrence_undeclared host project _ checker call callee
               Hc He Hs).
    left. reflexivity.
  - intros sourceFile r Hr. rewrite collectUnits_occurrences_by_node in Hr.
    apply in_flat_map in Hr as (node & _ & Hr).
    destruct (enclosesCalls node); [|destruct Hr].
    destruct (buildQualifiedName _ _ _ _ _); [|destruct Hr].
    apply in_flat_map in Hr as (call & _ & Hr).
    apply callOccurrence_relation in Hr. apply Hr.
Qed.

Lemma unresolved_call_witness :
  let project := Samples.projectOf [Samples.nFile] in
  let callee := Samples.plain 11 Identifier Samples.nPath (lit "ext") [] in
  let recorded subjectId :=
    {| OccurrenceRecord.relation := calls;
       OccurrenceRecord.subjectSymbolId := subjectId;
       OccurrenceRecord.objectSymbolId := None;
       OccurrenceRecord.objectQName := lit "ext";
       OccurrenceRecord.span := spanFromNode Samples.extCall |} in
  let occurrences :=
    snd (collectUnits Samples.host project Samples.nFile Samples.checker) in
  In (recorded (symbolId (lit "callable") (lit "n.outer"))) occurrences
  /\ In (recorded (symbolId (lit "callable") (lit "n.inner"))) occurrences.
Proof.
  cbv zeta. split.
  - apply (proj1 (proj2 (proj2 (proj2
             (unresolved_call_yields_one_record_per_enclosing_unit
                Samples.host (Samples.projectOf [Samples.nFile])
                Samples.checker))))
             Samples.nFile Samples.outerDeclaration (lit "n.outer")
             Samples.extCall
             (Samples.plain 11 Identifier Samples.nPath (lit "ext") [])).
    + left. reflexivity.
    + reflexivity.
    + vm_compute. reflexivity.
    + do 6 right. left. reflexivity.
    + reflexivity.
    + reflexivity.
    + intros s Hs. discriminate Hs.
  - apply (proj1 (proj2 (proj2 (proj2
             (unresolved_call_yields_one_record_per_enclosing_unit
                Samples.host (Samples.projectOf [Samples.nFile])
                Samples.checker))))
             Samples.nFile Samples.innerDeclaration (lit "n.inner")
             Samples.extCall
             (Samples.plain 11 Identifier Samples.nPath (lit "ext") [])).
    + do 3 right. left. reflexivity.
    + reflexivity.
    + vm_compute. reflexivity.
    + do 3 right. left. reflexivity.
    + reflexivity.
    + reflexivity.
    + intros s Hs. discriminate Hs.
Defined.

(** C7 as stated fails twice.  In
    [function outer() { function inner() { ext(); } }] the one call of the
    undeclared [ext] gets two records, one for each function around it; and
    in [function f() { ''(); }] the record of the call has the empty string
    as its object name. *)
Lemma unresolved_call_recorded_twice_or_unnamed :
  (exists r1 r2,
      snd (collectUnits Samples.host (Samples.projectOf [Samples.nFile])
                        Samples.nFile Samples.checker) = [r1; r2]
      /\ OccurrenceRecord.span r1 = spanFromNode Samples.extCall
      /\ OccurrenceRecord.span r2 = spanFromNode Samples.extCall
      /\ OccurrenceRecord.objectSymbolId r1 = None
      /\ OccurrenceRecord.objectSymbolId r2 = None
      /\ OccurrenceRecord.objectQName r1 = lit "ext"
      /\ OccurrenceRecord.objectQName r2 = lit "ext"
      /\ OccurrenceRecord.subjectSymbolId r1
         = symbolId (lit "callable") (lit "n.outer")
      /\ OccurrenceRecord.subjectSymbolId r2
         = symbolId (lit "callable") (lit "n.inner"))
  /\ (exists r,
         snd (collectUnits Samples.host (Samples.projectOf [Samples.qFile])
                           Samples.qFile Samples.checker) = [r]
         /\ OccurrenceRecord.objectSymbolId r = None
         /\ OccurrenceRecord.objectQName r = []).
Proof.
  split.
  - eexists. eexists. split; [vm_compute; reflexivity|].
    repeat split.
  - eexists. split; [vm_compute; reflexivity|]. repeat split.
Qed.

(** ** Default exports *)

(** What the default-export test of [collectUnits] is written for: when
    the first declaration of the file's default-export symbol is a visited
    unit node itself, its unit is default-exported and
    [exportDefaultSymbolId] is the identity of that unit; an arrow function
    is then named "arrow". *)
Lemma default_export_linked_when_declared_on_the_unit
    (host : Host) (project : Project) (sourceFile : SourceFile)
    (checker : TypeChecker) (v : Visit) (qn : jsstring)
    (defaultExport : TsSymbol) (others : list Node) :
  getDefaultExportSymbol sourceFile = Some defaultExport ->
  getDeclarations defaultExport = visited v :: others ->
  isUnitNode (visited v) = true ->
  buildQualifiedName host project (getFilePath sourceFile) (visited v) checker
  = Some qn ->
  exists u,
    fst (visitUnit host project sourceFile checker v) = [u]
    /\ UnitRecord.isExportedDefault u = true
    /\ exportDefaultSymbolId host project sourceFile checker
       = Some (UnitRecord.symbolId u)
    /\ (isArrowFunction (visited v) = true -> UnitRecord.name u = lit "arrow").
Proof.
  intros Hd Hdecls Hk Hq. unfold visitUnit, exportDefaultSymbolId.
  rewrite Hk, Hd, Hdecls, buildQualifiedName_truthy, Hq. cbn [negb fst].
  eexists. split; [reflexivity|].
  cbn [UnitRecord.isExportedDefault UnitRecord.symbolId UnitRecord.name].
  split; [|split].
  - unfold includes, sameNode. cbn [existsb]. rewrite Nat.eqb_refl.
    reflexivity.
  - reflexivity.
  - unfold inferNodeName, isArrowFunction, isFunctionDeclaration,
      isVariableDeclaration, isClassDeclaration, isInterfaceDeclaration,
      isEnumDeclaration, isMethodDeclaration, isGetAccessorDeclaration,
      isSetAccessorDeclaration.
    destruct (getKind (visited v)); intros H; try discriminate H.
    reflexivity.
Qed.

(** C5 fails on the code.  For [export default () => {};] the extractor
    writes one unit, named "arrow", with [isExportedDefault = false] and the
    identity of [callable page.__function]; the export records named
    "default" carry the identity of [type page.default], which is another
    token and the identity of no unit. *)
Theorem default_export_of_arrow_function_is_not_linked :
  let facts :=
    collectFacts Samples.host (Samples.projectOf [Samples.pageFile])
                 Samples.pageFile in
  map (fun u => (UnitRecord.name u, UnitRecord.isExportedDefault u,
                 UnitRecord.symbolId u))
      (FileFacts.units facts)
  = [ (lit "arrow", false, symbolId (lit "callable") (lit "page.__function")) ]
  /\ map (fun e => (ExportRecord.name e, ExportRecord.unitSymbolId e))
         (FileFacts.exports facts)
     = [ (lit "default", Some (symbolId (lit "type") (lit "page.default")));
         (lit "default", Some (symbolId (lit "type") (lit "page.default"))) ]
  /\ symbolId (lit "type") (lit "page.default")
     <> symbolId (lit "callable") (lit "page.__function").
Proof.
  cbv zeta. split; [|split].
  - vm_compute. reflexivity.
  - vm_compute. reflexivity.
  - vm_compute. discriminate.
Qed.

(** The sibling path: for [export default function () {}] the unit is
    default-exported and the export records carry its identity. *)
Lemma default_export_of_function_declaration_is_linked :
  let facts :=
    collectFacts Samples.host (Samples.projectOf [Samples.dFile])
                 Samples.dFile in
  map (fun u => (UnitRecord.name u, UnitRecord.isExportedDefault u,
                 UnitRecord.symbolId u))
      (FileFacts.units facts)
  = [ (lit "default", true, symbolId (lit "callable") (lit "d.default")) ]
  /\ map (fun e => (ExportRecord.name e, ExportRecord.unitSymbolId e))
         (FileFacts.exports facts)
     = [ (lit "default", Some (symbolId (lit "callable") (lit "d.default")));
         (lit "default", Some (symbolId (lit "callable") (lit "d.default"))) ].
Proof. cbv zeta. split; vm_compute; reflexivity. Qed.

(** ** Imports *)

(** The source has no test of where the file of a resolved specifier lies:
    [import "../other/outside"] in [/repo/i.ts], read with the project root
    [/repo], resolves to [/other/outside.ts], which is not below the root,
    and the record is of kind [file] with a path that leads out of the
    root. *)
Lemma import_of_file_outside_the_root_is_file :
  let project := Samples.projectOf [MoreSamples.iFile; MoreSamples.oFile] in
  map (fun r => (ImportRecord.from r, ImportRecord.resolvedKind r,
                 ImportRecord.resolved r))
      (collectImportRecords MoreSamples.posixHost project MoreSamples.iFile)
  = [ (lit "../other/outside", file, Some (lit "../other/outside.ts")) ]
  /\ map getModuleSpecifierSourceFile
         (getImportDeclarations MoreSamples.iFile)
     = [ Some (lit "/other/outside.ts") ]
  /\ projectRoot MoreSamples.posixHost project = lit "/repo"
  /\ liesBelow (lit "/repo") (lit "/other/outside.ts") = false.
Proof. cbv zeta. repeat split; vm_compute; reflexivity. Qed.

(** C3. The import records follow the import declarations one by one.
    A record has [resolvedKind = file] exactly when the module specifier
    resolves to a source file of the project, wherever that file lies, and
    then it stores the path of that file relative to the project root (the
    value of [ONTOCODE_EXTRACTOR_REPO], else the compiler option [rootDir],
    else the working directory), with forward slashes; an unresolved
    specifier is [unknown] when it is relative (it starts with a dot) and
    [package] otherwise, and stores no path. *)
Theorem import_records_classify_specifiers :
  forall (host : Host) (project : Project) (sourceFile : SourceFile),
    Forall2
      (fun decl record =>
         ImportRecord.from record = getModuleSpecifierValue decl
         /\ (ImportRecord.resolvedKind record = file
             <-> exists target, getModuleSpecifierSourceFile decl = Some target)
         /\ (forall target,
                getModuleSpecifierSourceFile decl = Some target ->
                ImportRecord.resolved record
                = Some (replaceClass [backslash] (lit "/")
                          (relative host
                             match ONTOCODE_EXTRACTOR_REPO host with
                             | Some repo => repo
                             | None =>
                                 match rootDir project with
                                 | Some dir => dir
                                 | None => cwd host
                                 end
                             end
                             target)))
         /\ (getModuleSpecifierSourceFile decl = None ->
             ImportRecord.resolved record = None
             /\ ImportRecord.resolvedKind record
                = if startsWith (getModuleSpecifierValue decl) (lit ".")
                  then unknown else package))
      (getImportDeclarations sourceFile)
      (collectImportRecords host project sourceFile).
Proof.
  intros host project sourceFile. unfold collectImportRecords.
  induction (getImportDeclarations sourceFile) as [|decl decls IH].
  - constructor.
  - cbn [map]. constructor; [|exact IH].
    destruct (getModuleSpecifierSourceFile decl) as [target|] eqn:E;
      cbn [ImportRecord.from ImportRecord.resolvedKind ImportRecord.resolved].
    + repeat split.
      * intros _. exists target. reflexivity.
      * intros t Ht. injection Ht as <-. reflexivity.
      * discriminate.
      * discriminate.
    + repeat split.
      * destruct (startsWith _ _); discriminate.
      * intros [t Ht]. discriminate.
      * discriminate.
Qed.

(** ** The ["use client"] probe *)

Section UseClient.

Lemma scanDirectives_step (stmt : Node) (rest : list Node) :
  scanDirectives (stmt :: rest)
  = if isUseClient stmt then true
    else if isStringDirective stmt then scanDirectives rest
    else false.
Proof.
  cbn [scanDirectives]. unfold isUseClient, isStringDirective.
  destruct (isExpressionStatement stmt); cbn [negb andb]; [|reflexivity].
  destruct (getExpression stmt) as [e|]; [|reflexivity].
  destruct (isStringLiteral e); cbn [negb andb]; [|reflexivity].
  destruct (strictEq _ _); reflexivity.
Qed.

Lemma isUseClient_isStringDirective (stmt : Node) :
  isUseClient stmt = true -> isStringDirective stmt = true.
Proof.
  unfold isUseClient, isStringDirective.
  destruct (isExpressionStatement stmt); [|discriminate].
  destruct (getExpression stmt) as [e|]; [|discriminate].
  destruct (isStringLiteral e); [reflexivity|discriminate].
Qed.

Lemma scanDirectives_true (statements : list Node) :
  scanDirectives statements = true
  <-> exists before stmt after,
        statements = before ++ stmt :: after
        /\ forallb isStringDirective before = true
        /\ isUseClient stmt = true.
Proof.
  induction statements as [|s rest IH].
  - split; [discriminate|].
    intros (before & stmt & after & E & _). destruct before; discriminate E.
  - rewrite scanDirectives_step. split.
    + destruct (isUseClient s) eqn:Eu.
      * intros _. exists [], s, rest. repeat split. exact Eu.
      * destruct (isStringDirective s) eqn:Ed; [|discriminate].
        intros H. apply IH in H as (before & stmt & after & -> & Hb & Hs).
        exists (s :: before), stmt, after. repeat split.
        -- cbn [forallb]. rewrite Ed, Hb. reflexivity.
        -- exact Hs.
    + intros (before & stmt & after & E & Hb & Hs).
      destruct before as [|b before]; cbn [app] in E; injection E as -> ->.
      * rewrite Hs. reflexivity.
      * cbn [forallb] in Hb. apply andb_prop in Hb as [Hb1 Hb2].
        destruct (isUseClient b); [reflexivity|]. rewrite Hb1.
        apply IH. exists before, stmt, after. repeat split; assumption.
Qed.

End UseClient.

(** C4, as the code has it. The probe is true for a file whose first
    statement is the directive ["use client"], and false for every file whose
    first statement is not a string-literal expression statement, so also
    when ["use client"] is the second statement after such a first one.  It is
    true exactly when ["use client"] stands in the run of string-literal
    expression statements the file starts with. *)
Theorem hasUseClientDirective_scans_the_prologue :
  forall sourceFile : SourceFile,
    (forall first rest,
        getStatements sourceFile = first :: rest ->
        isUseClient first = true ->
        hasUseClientDirective sourceFile = true)
    /\ (forall first rest,
           getStatements sourceFile = first :: rest ->
           isStringDirective first = false ->
           hasUseClientDirective sourceFile = false)
    /\ (hasUseClientDirective sourceFile = true
        <-> exists before stmt after,
              getStatements sourceFile = before ++ stmt :: after
              /\ forallb isStringDirective before = true
              /\ isUseClient stmt = true).
Proof.
  intros sourceFile. unfold hasUseClientDirective. repeat split.
  - intros first rest -> Hu. rewrite scanDirectives_step, Hu. reflexivity.
  - intros first rest -> Hd. rewrite scanDirectives_step, Hd.
    destruct (isUseClient first) eqn:Hu; [|reflexivity].
    apply isUseClient_isStringDirective in Hu. congruence.
  - apply scanDirectives_true.
  - apply scanDirectives_true.
Qed.

Lemma hasUseClientDirective_witness :
  hasUseClientDirective Samples.uFile = true
  /\ hasUseClientDirective Samples.wFile = false.
Proof.
  split.
  - eapply (proj1 (hasUseClientDirective_scans_the_prologue Samples.uFile)).
    + reflexivity.
    + reflexivity.
  - eapply (proj1 (proj2 (hasUseClientDirective_scans_the_prologue
                            Samples.wFile))).
    + reflexivity.
    + reflexivity.
Defined.

(** C4 as stated fails: in ["use strict"; "use client";] the directive
    ["use client"] is the second statement only, and the probe is true. *)
Lemma hasUseClientDirective_true_on_second_directive :
  exists first second,
    getStatements Samples.sFile = [first; second]
    /\ isUseClient first = false
    /\ isUseClient second = true
    /\ hasUseClientDirective Samples.sFile = true.
Proof.
  eexists. eexists. split; [reflexivity|].
  split; [|split]; vm_compute; reflexivity.
Qed.

(** ** The file record *)

(** C10. The record [collectFacts] builds has an empty [extends] list and
    an empty [implements] list, and so has every record a run writes. *)
Theorem collectFacts_extends_implements_empty :
  (forall (host : Host) (project : Project) (sourceFile : SourceFile),
      FileFacts.extends (collectFacts host project sourceFile) = []
      /\ FileFacts.implements (collectFacts host project sourceFile) = [])
  /\ (forall (host : Host) (project : Project) (opts : CliOptions),
         Forall (fun facts => FileFacts.extends facts = []
                              /\ FileFacts.implements facts = [])
                (stdout (main host project opts))).
Proof.
  assert (Hone : forall host project sourceFile,
             FileFacts.extends (collectFacts host project sourceFile) = []
             /\ FileFacts.implements (collectFacts host project sourceFile) = []).
  { intros host project sourceFile. unfold collectFacts.
    destruct (collectUnits host project sourceFile (getTypeChecker project)).
    split; reflexivity. }
  split; [exact Hone|].
  intros host project opts. unfold main.
  destruct (match whenTruthy (ONTOCODE_FILE_LIST host) with
            | Some envList => _ | None => _ end) as [files|];
    cbn [stdout]; [|constructor].
  generalize (∅ : gset (list Z)) as seen.
  induction files as [|path rest IH]; intros seen; cbn [emitLoop].
  - constructor.
  - destruct (decide (path ∈ seen)); [apply IH|].
    destruct (sourceFileAt project path) as [source|]; [|apply IH].
    constructor; [|apply IH].
    unfold FileFacts.setFilePath.
    cbn [FileFacts.extends FileFacts.implements]. apply Hone.
Qed.

(** ** The driver *)

Section DriverFacts.

Lemma main_by_fileList (host : Host) (project : Project) (opts : CliOptions) :
  main host project opts
  = match fileList host opts with
    | None => {| exitCode := 1; stdout := [] |}
    | Some files =>
        {| exitCode := 0;
           stdout := emitLoop host project
                       (resolve host (cwd host) (repo opts)) ∅ files |}
    end.
Proof. reflexivity. Qed.

Lemma writtenPaths_fresh (project : Project) (files : list jsstring) :
  forall (seen : gset (list Z)) (p : jsstring),
    In p (writtenPaths project seen files) -> (p ∉ seen) /\ In p files.
Proof.
  induction files as [|path rest IH]; intros seen p Hp; cbn [writtenPaths] in Hp.
  - destruct Hp.
  - destruct (decide (path ∈ seen)) as [Hin|Hnin].
    + apply IH in Hp as [H1 H2]. split; [exact H1 | right; exact H2].
    + destruct (sourceFileAt project path).
      * destruct Hp as [<-|Hp]; [split; [exact Hnin | left; reflexivity]|].
        apply IH in Hp as [H1 H2]. split; [|right; exact H2].
        intros Hs. apply H1. apply elem_of_union. right. exact Hs.
      * apply IH in Hp as [H1 H2]. split; [|right; exact H2].
        intros Hs. apply H1. apply elem_of_union. right. exact Hs.
Qed.

Lemma writtenPaths_NoDup (project : Project) (files : list jsstring) :
  forall seen : gset (list Z), List.NoDup (writtenPaths project seen files).
Proof.
  induction files as [|path rest IH]; intros seen; cbn [writtenPaths].
  - constructor.
  - destruct (decide (path ∈ seen)); [apply IH|].
    destruct (sourceFileAt project path); [|apply IH].
    constructor; [|apply IH].
    intros Hin. apply writtenPaths_fresh in Hin as [Hin _].
    apply Hin. apply elem_of_union. left. apply elem_of_singleton. reflexivity.
Qed.

Lemma emitLoop_records (host : Host) (project : Project) (repoDir : jsstring)
    (files : list jsstring) :
  forall seen : gset (list Z),
    Forall2
      (fun p facts =>
         exists source,
           sourceFileAt project p = Some source
           /\ facts = recordFor host project repoDir p source)
      (writtenPaths project seen files)
      (emitLoop host project repoDir seen files).
Proof.
  induction files as [|path rest IH]; intros seen;
    cbn [writtenPaths emitLoop].
  - constructor.
  - destruct (decide (path ∈ seen)); [apply IH|].
    destruct (sourceFileAt project path) as [source|] eqn:E; [|apply IH].
    constructor; [|apply IH].
    exists source. split; [exact E | reflexivity].
Qed.

Lemma records_filePaths (host : Host) (project : Project)
    (repoDir : jsstring) (written : list jsstring)
    (records : list FileFacts.t) :
  Forall2
    (fun p facts =>
       exists source,
         sourceFileAt project p = Some source
         /\ facts = recordFor host project repoDir p source)
    written records ->
  map FileFacts.filePath records = map (writtenFilePath host repoDir) written.
Proof.
  induction 1 as [|p facts written records (source & _ & ->) _ IH].
  - reflexivity.
  - cbn [map]. rewrite IH. reflexivity.
Qed.

End DriverFacts.

(** C8, as the code has it. When the file-list override is set to a string
    that is not empty and [JSON.parse] rejects it, the run ends with exit code
    1 and has written no record. *)
Theorem main_aborts_on_malformed_override :
  forall (host : Host) (project : Project) (opts : CliOptions)
         (envList : jsstring),
    ONTOCODE_FILE_LIST host = Some envList ->
    envList <> [] ->
    JSON_parse host envList = None ->
    main host project opts = {| exitCode := 1; stdout := [] |}.
Proof.
  intros host project opts envList Henv Hne Hparse.
  unfold main, filesFromOverride. rewrite Henv.
  destruct envList as [|c envList]; [congruence|].
  cbn [whenTruthy truthy]. rewrite Hparse. reflexivity.
Qed.

Lemma main_aborts_on_malformed_override_witness :
  main Samples.hostWithBrokenOverride (Samples.projectOf [Samples.aFile])
       Samples.options
  = {| exitCode := 1; stdout := [] |}.
Proof.
  apply (main_aborts_on_malformed_override
           Samples.hostWithBrokenOverride (Samples.projectOf [Samples.aFile])
           Samples.options (lit "not json")).
  - reflexivity.
  - discriminate.
  - reflexivity.
Defined.

(** C8 as stated fails: with the override set to the empty string, which
    is no JSON text, the run takes the discovered files, writes their records
    and ends with exit code 0. *)
Lemma main_runs_on_empty_override :
  ONTOCODE_FILE_LIST Samples.hostWithEmptyOverride = Some []
  /\ JSON_parse Samples.hostWithEmptyOverride [] = None
  /\ exitCode (main Samples.hostWithEmptyOverride
                    (Samples.projectOf [Samples.aFile]) Samples.options) = 0
  /\ length (stdout (main Samples.hostWithEmptyOverride
                          (Samples.projectOf [Samples.aFile]) Samples.options))
     = 1%nat.
Proof. repeat split. Qed.

(** C9. The records of a run come from pairwise distinct resolved paths of
    the file list, one record each, in the order of first occurrence: a path
    met again is skipped, so no path gets two records.  Where distinct
    resolved paths have distinct paths relative to the repository, no two
    records share their [filePath]. *)
Theorem main_writes_one_record_per_path :
  forall (host : Host) (project : Project) (opts : CliOptions),
  exists written : list jsstring,
    List.NoDup written
    /\ (forall files, fileList host opts = Some files ->
                      written = writtenPaths project ∅ files
                      /\ forall p, In p written -> In p files)
    /\ Forall2
         (fun p facts =>
            exists source,
              sourceFileAt project p = Some source
              /\ facts = recordFor host project
                           (resolve host (cwd host) (repo opts)) p source)
         written
         (stdout (main host project opts))
    /\ ((forall p q,
            In p written -> In q written ->
            writtenFilePath host (resolve host (cwd host) (repo opts)) p
            = writtenFilePath host (resolve host (cwd host) (repo opts)) q ->
            p = q) ->
        List.NoDup (map FileFacts.filePath (stdout (main host project opts)))).
Proof.
  intros host project opts. rewrite main_by_fileList.
  destruct (fileList host opts) as [files|].
  - exists (writtenPaths project ∅ files). split; [|split; [|split]].
    + apply writtenPaths_NoDup.
    + intros files' E. injection E as <-. split; [reflexivity|].
      intros p Hp. apply writtenPaths_fresh in Hp. apply Hp.
    + cbn [stdout]. apply emitLoop_records.
    + cbn [stdout]. intros Hinj.
      rewrite (records_filePaths _ _ _ _ _ (emitLoop_records _ _ _ _ _)).
      apply NoDup_map_NoDup_ForallPairs.
      * intros p q Hp Hq. apply Hinj; assumption.
      * apply writtenPaths_NoDup.
  - exists []. split; [|split; [|split]].
    + constructor.
    + intros files E. discriminate E.
    + cbn [stdout]. constructor.
    + intros _. cbn [stdout map]. constructor.
Qed.

(* ================================================================== *)
(** * Part III: further properties of the code *)
(* ================================================================== *)

(** ** The shape of a token *)

Section TokenShape.

#[local] Arguments Buffer.digit64 : simpl never.
#[local] Arguments Buffer.Z_of_byte : simpl never.
#[local] Arguments Z.mul : simpl never.
#[local] Arguments Z.add : simpl never.
#[local] Arguments Z.div : simpl never.
#[local] Arguments Z.modulo : simpl never.

Lemma tokenUnitChecks_all : forallb tokenUnitChecks Token.sextets = true.
Proof. vm_compute. reflexivity. Qed.

Lemma isTokenUnit_digit (i : Z) :
  0 <= i < 64 -> isTokenUnit (Token.urlSafe (Buffer.digit64 i)) = true.
Proof.
  intros Hi. pose proof tokenUnitChecks_all as Hall.
  rewrite forallb_forall in Hall. apply (Hall i). apply sextets_complete.
  exact Hi.
Qed.

Ltac sextet_bounds :=
  match goal with
  | |- _ <= _ < _ => Z.div_mod_to_equations; lia
  end.

Lemma token_units_of_bytes (bytes : list byte) :
  forallb isTokenUnit (replaceBase64 (Buffer.toStringBase64 bytes)) = true.
Proof.
  induction bytes as [|a|a b|a b c rest IH] using list_ind_by3.
  - reflexivity.
  - pose proof (Z_of_byte_range a) as Ha.
    cbn [Buffer.toStringBase64].
    rewrite !replaceBase64_digit by sextet_bounds.
    rewrite !replaceBase64_pad. cbn [forallb replaceBase64 flat_map].
    rewrite !isTokenUnit_digit by sextet_bounds. reflexivity.
  - pose proof (Z_of_byte_range a) as Ha.
    pose proof (Z_of_byte_range b) as Hb.
    cbn [Buffer.toStringBase64].
    rewrite !replaceBase64_digit by sextet_bounds.
    rewrite !replaceBase64_pad. cbn [forallb replaceBase64 flat_map].
    rewrite !isTokenUnit_digit by sextet_bounds. reflexivity.
  - pose proof (Z_of_byte_range a) as Ha.
    pose proof (Z_of_byte_range b) as Hb.
    pose proof (Z_of_byte_range c) as Hc.
    cbn [Buffer.toStringBase64].
    rewrite !replaceBase64_digit by sextet_bounds.
    cbn [forallb].
    rewrite !isTokenUnit_digit by sextet_bounds. exact IH.
Qed.

Lemma token_length_of_bytes (bytes : list byte) :
  length (replaceBase64 (Buffer.toStringBase64 bytes))
  = ((4 * length bytes + 2) / 3)%nat.
Proof.
  induction bytes as [|a|a b|a b c rest IH] using list_ind_by3.
  - reflexivity.
  - pose proof (Z_of_byte_range a) as Ha.
    cbn [Buffer.toStringBase64].
    rewrite !replaceBase64_digit by sextet_bounds.
    rewrite !replaceBase64_pad. reflexivity.
  - pose proof (Z_of_byte_range a) as Ha.
    pose proof (Z_of_byte_range b) as Hb.
    cbn [Buffer.toStringBase64].
    rewrite !replaceBase64_digit by sextet_bounds.
    rewrite !replaceBase64_pad. reflexivity.
  - pose proof (Z_of_byte_range a) as Ha.
    pose proof (Z_of_byte_range b) as Hb.
    pose proof (Z_of_byte_range c) as Hc.
    cbn [Buffer.toStringBase64].
    rewrite !replaceBase64_digit by sextet_bounds.
    cbn [length]. rewrite IH.
    replace (4 * S (S (S (length rest))) + 2)%nat
      with ((4 * length rest + 2) + 4 * 3)%nat by lia.
    rewrite Nat.div_add by lia. lia.
Qed.

End TokenShape.

(** X1. Every code unit of a token is a letter, a digit, [-] or [_]: no
    [+], [/] or [=] survives, whatever the input string. *)
Theorem base64Url_alphabet :
  forall value : jsstring, forallb isTokenUnit (base64Url value) = true.
Proof. intros value. apply token_units_of_bytes. Qed.

(** X2. A token of [n] UTF-8 bytes has [(4n + 2) / 3] code units, rounded
    down: the length of the unpadded base64 text. *)
Theorem base64Url_length :
  forall value : jsstring,
    length (base64Url value)
    = ((4 * length (Buffer.from value) + 2) / 3)%nat.
Proof. intros value. apply token_length_of_bytes. Qed.

(** ** Which names share a token *)

Section Collisions.

#[local] Arguments Buffer.byte_of_Z : simpl never.

Lemma toWellFormed_step (u : Z) (rest : jsstring) :
  toWellFormed (u :: rest)
  = if isHighSurrogate u then
      match rest with
      | l :: rest' =>
          if isLowSurrogate l then u :: l :: toWellFormed rest'
          else 65533 :: toWellFormed rest
      | [] => [65533]
      end
    else if isLowSurrogate u then 65533 :: toWellFormed rest
    else u :: toWellFormed rest.
Proof. reflexivity. Qed.

Lemma from_replacement (s : jsstring) :
  Buffer.from (65533 :: s) = Buffer.replacementBytes ++ Buffer.from s.
Proof. reflexivity. Qed.

Lemma from_plain (u : Z) (s : jsstring) :
  isHighSurrogate u = false -> isLowSurrogate u = false ->
  Buffer.from (u :: s) = Buffer.utf8 u ++ Buffer.from s.
Proof. intros Hh Hl. rewrite from_step, Hh, Hl. reflexivity. Qed.

Lemma from_toWellFormed (s : jsstring) :
  Buffer.from (toWellFormed s) = Buffer.from s.
Proof.
  induction s as [|u|u l rest IH IHl] using list_ind_by1or2.
  - reflexivity.
  - rewrite toWellFormed_step, (from_step u []).
    destruct (isHighSurrogate u) eqn:Hh; [reflexivity|].
    destruct (isLowSurrogate u) eqn:Hl; [reflexivity|].
    cbn [toWellFormed]. rewrite from_step, Hh, Hl. reflexivity.
  - rewrite toWellFormed_step, (from_step u (l :: rest)).
    destruct (isHighSurrogate u) eqn:Hh.
    + destruct (isLowSurrogate l) eqn:Hl.
      * rewrite from_step, Hh, Hl, IH. reflexivity.
      * rewrite from_replacement, IHl. reflexivity.
    + destruct (isLowSurrogate u) eqn:Hl.
      * rewrite from_replacement, IHl. reflexivity.
      * rewrite from_plain by assumption. rewrite IHl. reflexivity.
Qed.

Lemma isWellFormed_replacement (s : jsstring) :
  isWellFormed (65533 :: s) = isWellFormed s.
Proof. reflexivity. Qed.

Lemma toWellFormed_isWellFormed (s : jsstring) :
  forallb isCodeUnit s = true -> isWellFormed (toWellFormed s) = true.
Proof.
  induction s as [|u|u l rest IH IHl] using list_ind_by1or2.
  - reflexivity.
  - cbn [forallb]. intros H. apply andb_prop in H as [Hu _].
    rewrite toWellFormed_step.
    destruct (isHighSurrogate u) eqn:Hh; [reflexivity|].
    destruct (isLowSurrogate u) eqn:Hl; [reflexivity|].
    cbn [toWellFormed]. rewrite isWellFormed_step, Hh, Hu, Hl. reflexivity.
  - intros H. pose proof H as H'. cbn [forallb] in H'.
    apply andb_prop in H' as [Hu Hrest].
    pose proof Hrest as Hrest'. cbn [forallb] in Hrest'.
    apply andb_prop in Hrest' as [_ Hrest'].
    rewrite toWellFormed_step.
    destruct (isHighSurrogate u) eqn:Hh.
    + destruct (isLowSurrogate l) eqn:Hl.
      * rewrite isWellFormed_step, Hh, Hl. apply IH. exact Hrest'.
      * rewrite isWellFormed_replacement. apply IHl. exact Hrest.
    + destruct (isLowSurrogate u) eqn:Hl.
      * rewrite isWellFormed_replacement. apply IHl. exact Hrest.
      * rewrite isWellFormed_step, Hh, Hu, Hl. cbn [andb negb].
        apply IHl. exact Hrest.
Qed.

Lemma toWellFormed_plain_app (p s : jsstring) :
  forallb plainUnit p = true -> toWellFormed (p ++ s) = p ++ toWellFormed s.
Proof.
  induction p as [|u p IH]; intros Hp.
  - reflexivity.
  - cbn [forallb] in Hp. apply andb_prop in Hp as [Hu Hp].
    unfold plainUnit in Hu.
    apply andb_prop in Hu as [Hu Hlo]. apply andb_prop in Hu as [_ Hhi].
    apply negb_true_iff in Hhi. apply negb_true_iff in Hlo.
    rewrite <- app_comm_cons, toWellFormed_step, Hhi, Hlo, IH by exact Hp.
    reflexivity.
Qed.

Lemma toWellFormed_identityText (k : UnitKind) (qn : jsstring) :
  toWellFormed (identityText (unitKindName k) qn)
  = identityText (unitKindName k) (toWellFormed qn).
Proof.
  unfold identityText. rewrite !app_assoc.
  apply toWellFormed_plain_app. destruct k; vm_compute; reflexivity.
Qed.

Lemma from_ascii_app (p s : jsstring) :
  forallb isAscii p = true ->
  Buffer.from (p ++ s) = map Buffer.byte_of_Z p ++ Buffer.from s.
Proof.
  induction p as [|u p IH]; intros Hp.
  - reflexivity.
  - cbn [forallb] in Hp. apply andb_prop in Hp as [Hu Hp].
    unfold isAscii in Hu.
    rewrite <- app_comm_cons, from_plain.
    + rewrite IH by exact Hp. unfold Buffer.utf8.
      destruct (Z.ltb_spec u 128); [reflexivity|lia].
    + unfold isHighSurrogate. lia.
    + unfold isLowSurrogate. lia.
Qed.

(** Tokens of two different kinds differ, whatever the names are. *)
Lemma symbolId_kinds_apart (k1 k2 : UnitKind) (q1 q2 : jsstring) :
  k1 <> k2 ->
  symbolId (unitKindName k1) q1 <> symbolId (unitKindName k2) q2.
Proof.
  intros Hk E. apply (f_equal Token.decode) in E.
  rewrite !symbolId_decode in E.
  assert (E' : Buffer.from (identityText (unitKindName k1) q1)
               = Buffer.from (identityText (unitKindName k2) q2))
    by congruence.
  clear E. unfold identityText in E'. rewrite !app_assoc in E'.
  rewrite !from_ascii_app in E' by (destruct k1, k2; vm_compute; reflexivity).
  destruct k1, k2; try (now destruct Hk);
    vm_compute map in E'; cbn [app] in E'; discriminate E'.
Qed.

End Collisions.

(** X3. Two pairs of a kind and a qualified name get the same token
    exactly when the kinds are equal and the names are equal after
    [toWellFormed], that is up to the choice of lone surrogates. *)
Theorem symbolId_equal_iff :
  forall (k1 k2 : UnitKind) (q1 q2 : jsstring),
    forallb isCodeUnit q1 = true -> forallb isCodeUnit q2 = true ->
    (symbolId (unitKindName k1) q1 = symbolId (unitKindName k2) q2
     <-> k1 = k2 /\ toWellFormed q1 = toWellFormed q2).
Proof.
  intros k1 k2 q1 q2 H1 H2. split.
  - intros E. apply (f_equal Token.decode) in E.
    rewrite !symbolId_decode in E.
    assert (E' : Buffer.from (identityText (unitKindName k1) q1)
                 = Buffer.from (identityText (unitKindName k2) q2))
      by congruence.
    clear E.
    rewrite <- (from_toWellFormed (identityText (unitKindName k1) q1)) in E'.
    rewrite <- (from_toWellFormed (identityText (unitKindName k2) q2)) in E'.
    rewrite !toWellFormed_identityText in E'.
    apply from_injective in E'.
    + apply identityText_injective. exact E'.
    + rewrite identityText_well_formed.
      apply toWellFormed_isWellFormed. exact H1.
    + rewrite identityText_well_formed.
      apply toWellFormed_isWellFormed. exact H2.
  - intros [-> E]. unfold symbolId, base64Url. do 2 f_equal.
    rewrite <- (from_toWellFormed (identityText (unitKindName k2) q1)).
    rewrite <- (from_toWellFormed (identityText (unitKindName k2) q2)).
    rewrite !toWellFormed_identityText, E. reflexivity.
Qed.

Lemma symbolId_equal_iff_witness :
  symbolId (unitKindName callable) [109; 46; 55296]
  = symbolId (unitKindName callable) [109; 46; 56320]
  <-> callable = callable
      /\ toWellFormed [109; 46; 55296] = toWellFormed [109; 46; 56320].
Proof.
  apply (symbolId_equal_iff callable callable
                            [109; 46; 55296] [109; 46; 56320]).
  - reflexivity.
  - reflexivity.
Defined.

(** ** Module names *)

Section ModuleNames.

Lemma in_replaceRuns (cs : list Z) (r : jsstring) (s : jsstring) :
  forall (inRun : bool) (c : Z),
    In c (replaceRuns cs r inRun s) ->
    In c r \/ (In c s /\ existsb (Z.eqb c) cs = false).
Proof.
  induction s as [|d s IH]; intros inRun c Hc; cbn [replaceRuns] in Hc.
  - destruct Hc.
  - destruct (existsb (Z.eqb d) cs) eqn:Ed.
    + apply in_app_or in Hc as [Hc|Hc].
      * destruct inRun; [destruct Hc | left; exact Hc].
      * apply IH in Hc as [Hc|[Hc Hn]]; [left; exact Hc|].
        right. split; [right; exact Hc | exact Hn].
    + destruct Hc as [<-|Hc].
      * right. split; [left; reflexivity | exact Ed].
      * apply IH in Hc as [Hc|[Hc Hn]]; [left; exact Hc|].
        right. split; [right; exact Hc | exact Hn].
Qed.

Lemma in_replaceClass (cs : list Z) (r : jsstring) (s : jsstring) (c : Z) :
  In c (replaceClass cs r s) ->
  In c r \/ (In c s /\ existsb (Z.eqb c) cs = false).
Proof.
  unfold replaceClass. intros Hc. apply in_flat_map in Hc as (d & Hd & Hc).
  destruct (existsb (Z.eqb d) cs) eqn:Ed.
  - left. exact Hc.
  - destruct Hc as [<-|[]]. right. split; assumption.
Qed.

Lemma noDot_app_dot (stem ext : jsstring) :
  noDot (stem ++ dot :: ext) = false.
Proof.
  unfold noDot. rewrite forallb_app. cbn [forallb].
  rewrite Z.eqb_refl. cbn [negb andb]. apply andb_false_r.
Qed.

Lemma stripExtension_step (c : Z) (rest : jsstring) :
  stripExtension (c :: rest)
  = if (c =? dot) && truthy rest && noDot rest then []
    else c :: stripExtension rest.
Proof. reflexivity. Qed.

Lemma stripExtension_no_dot (p : jsstring) :
  noDot p = true -> stripExtension p = p.
Proof.
  induction p as [|c p IH]; [reflexivity|].
  unfold noDot. cbn [forallb]. intros H. apply andb_prop in H as [Hc Hp].
  rewrite stripExtension_step. apply negb_true_iff in Hc. rewrite Hc.
  cbn [andb]. rewrite IH by exact Hp. reflexivity.
Qed.

Lemma stripExtension_last (stem ext : jsstring) :
  ext <> [] -> noDot ext = true ->
  stripExtension (stem ++ dot :: ext) = stem.
Proof.
  intros Hne Hext. induction stem as [|c stem IH].
  - cbn [app]. rewrite stripExtension_step, Z.eqb_refl, Hext.
    destruct ext; [congruence | reflexivity].
  - rewrite <- app_comm_cons, stripExtension_step, noDot_app_dot.
    rewrite andb_false_r, IH. reflexivity.
Qed.

Lemma stripExtension_trailing_dot (stem : jsstring) :
  stripExtension (stem ++ [dot]) = stem ++ [dot].
Proof.
  induction stem as [|c stem IH].
  - reflexivity.
  - rewrite <- app_comm_cons, stripExtension_step, noDot_app_dot.
    rewrite andb_false_r, IH. reflexivity.
Qed.

End ModuleNames.

(** X4. A module name has no path separator: every [/] and [\] of the
    path is gone from it. *)
Theorem moduleQualifiedName_no_separator :
  forall relativePath : jsstring,
    forallb (fun c => negb (isSeparator c)) (moduleQualifiedName relativePath)
    = true.
Proof.
  intros relativePath. apply forallb_forall. intros c Hc.
  unfold moduleQualifiedName in Hc.
  apply in_replaceRuns in Hc as [Hc|[_ Hc]].
  - destruct Hc as [<-|[]]. reflexivity.
  - unfold isSeparator. cbn [existsb] in Hc. rewrite orb_false_r in Hc.
    rewrite Hc. reflexivity.
Qed.

(** X5. [moduleQualifiedName] drops what follows the last dot of the
    path when that is not empty, and nothing else: a path without a dot, or
    ending in a dot, keeps all its text.  What follows the last dot may
    hold separators, so a dotted directory name swallows the file name. *)
Theorem moduleQualifiedName_strips_after_last_dot :
  (forall p, noDot p = true -> moduleQualifiedName p = separatorsToDots p)
  /\ (forall stem ext,
         ext <> [] -> noDot ext = true ->
         moduleQualifiedName (stem ++ dot :: ext) = separatorsToDots stem)
  /\ (forall stem,
         moduleQualifiedName (stem ++ [dot]) = separatorsToDots (stem ++ [dot])).
Proof.
  unfold moduleQualifiedName, separatorsToDots. split; [|split].
  - intros p Hp. rewrite stripExtension_no_dot by exact Hp. reflexivity.
  - intros stem ext Hne Hext.
    rewrite stripExtension_last by assumption. reflexivity.
  - intros stem. rewrite stripExtension_trailing_dot. reflexivity.
Qed.

Lemma moduleQualifiedName_strips_witness :
  moduleQualifiedName (lit "README") = lit "README"
  /\ moduleQualifiedName (lit "src/pkg.v2/index") = lit "src.pkg".
Proof.
  split.
  - apply (proj1 moduleQualifiedName_strips_after_last_dot (lit "README")).
    reflexivity.
  - apply (proj1 (proj2 moduleQualifiedName_strips_after_last_dot)
                 (lit "src/pkg") (lit "v2/index")).
    + discriminate.
    + reflexivity.
Defined.

(** ** Units and their names *)

Section UnitNames.

Variable host : Host.
Variable project : Project.

Lemma buildQualifiedName_by_base (path : jsstring) (node : Node)
    (checker : TypeChecker) :
  buildQualifiedName host project path node checker
  = match whenTruthy (baseNameOf node) with
    | Some base => Some (moduleNameOf host project path ++ lit "." ++ base)
    | None => None
    end.
Proof. reflexivity. Qed.

Lemma whenTruthy_Some (o : option jsstring) (s : jsstring) :
  whenTruthy o = Some s -> o = Some s /\ s <> [].
Proof.
  destruct o as [t|]; [|discriminate]. cbn [whenTruthy].
  destruct t; [discriminate|]. intros E. injection E as <-.
  split; [reflexivity | discriminate].
Qed.

(** What a unit record tells about the visit that wrote it. *)
Lemma visitUnit_unit_fields (sourceFile : SourceFile) (checker : TypeChecker)
    (v : Visit) (u : UnitRecord.t) :
  In u (fst (visitUnit host project sourceFile checker v)) ->
  isUnitNode (visited v) = true
  /\ fst (visitUnit host project sourceFile checker v) = [u]
  /\ (exists base,
         whenTruthy (baseNameOf (visited v)) = Some base
         /\ UnitRecord.qualifiedName u
            = moduleNameOf host project (getFilePath sourceFile)
              ++ lit "." ++ base)
  /\ UnitRecord.kind u = inferUnitKind (visited v)
  /\ UnitRecord.symbolId u
     = symbolId (unitKindName (inferUnitKind (visited v)))
                (UnitRecord.qualifiedName u)
  /\ UnitRecord.name u
     = match inferNodeName (visited v) with
       | Some n => n
       | None => getKindNameOf (getKind (visited v))
       end.
Proof.
  unfold visitUnit. destruct (isUnitNode (visited v)); cbn [negb];
    [|intros []].
  rewrite buildQualifiedName_truthy, buildQualifiedName_by_base.
  destruct (whenTruthy (baseNameOf (visited v))) as [base|]; cbn [fst];
    [|intros []].
  intros [<-|[]]. split; [reflexivity|]. split; [reflexivity|].
  split; [exists base; split; reflexivity|]. repeat split.
Qed.

Lemma visitUnit_callable_occurrences (sourceFile : SourceFile)
    (checker : TypeChecker) (v : Visit) (r : OccurrenceRecord.t) :
  In r (snd (visitUnit host project sourceFile checker v)) ->
  exists u,
    fst (visitUnit host project sourceFile checker v) = [u]
    /\ UnitRecord.kind u = callable
    /\ In r (collectCallOccurrences host project (visited v)
                                    (UnitRecord.symbolId u) checker).
Proof.
  unfold visitUnit. destruct (isUnitNode (visited v)); cbn [negb];
    [|intros []].
  destruct (whenTruthy _) as [qn|]; cbn [snd fst]; [|intros []].
  destruct (isFunctionDeclaration (visited v) || isMethodDeclaration (visited v)
            || isArrowFunction (visited v) || isFunctionExpression (visited v))
    eqn:Ek; [|intros []].
  intros Hr. eexists. split; [reflexivity|].
  cbn [UnitRecord.kind UnitRecord.symbolId]. split; [|exact Hr].
  unfold isFunctionDeclaration, isMethodDeclaration, isArrowFunction,
    isFunctionExpression, inferUnitKind in *.
  destruct (getKind (visited v)); try discriminate Ek; reflexivity.
Qed.

Lemma callOccurrence_fields (subjectId : jsstring) (checker : TypeChecker)
    (node : Node) (r : OccurrenceRecord.t) :
  In r (callOccurrence host project subjectId checker node) ->
  exists callee,
    getExpression node = Some callee
    /\ callOccurrence host project subjectId checker node = [r]
    /\ OccurrenceRecord.objectQName r
       = textualName (bestEffortName checker callee).
Proof.
  unfold callOccurrence, bestEffortName, calleeSymbol.
  destruct (negb (isCallExpression node)); [intros []|].
  destruct (getExpression node) as [callee|]; [|intros []].
  intros [<-|[]]. exists callee. repeat split.
Qed.

End UnitNames.

(** X6. Every unit of a file has a qualified name made of the module name
    of the file, a dot and a local name that is not empty. *)
Theorem units_lie_under_the_module_name :
  forall (host : Host) (project : Project) (sourceFile : SourceFile)
         (checker : TypeChecker),
    Forall
      (fun u =>
         exists base,
           base <> []
           /\ UnitRecord.qualifiedName u
              = moduleNameOf host project (getFilePath sourceFile)
                ++ lit "." ++ base)
      (fst (collectUnits host project sourceFile checker)).
Proof.
  intros host project sourceFile checker. apply List.Forall_forall. intros u Hu.
  rewrite collectUnits_units in Hu. apply in_flat_map in Hu as (v & _ & Hu).
  apply visitUnit_unit_fields in Hu as (_ & _ & (base & Hb & Hq) & _).
  apply whenTruthy_Some in Hb as [_ Hb]. exists base. split; assumption.
Qed.

(** X7. The identity of a unit depends on its kind and local name only,
    not on where the node stands: two unit nodes of one file with the same
    kind and the same local name (so two anonymous arrow functions, or two
    local functions of one name in different scopes) get the same qualified
    name and the same identity. *)
Theorem units_of_one_name_share_an_identity :
  forall (host : Host) (project : Project) (sourceFile : SourceFile)
         (checker : TypeChecker) (v1 v2 : Visit) (base : jsstring),
    isUnitNode (visited v1) = true ->
    isUnitNode (visited v2) = true ->
    inferUnitKind (visited v1) = inferUnitKind (visited v2) ->
    baseNameOf (visited v1) = Some base ->
    baseNameOf (visited v2) = Some base ->
    base <> [] ->
    exists u1 u2,
      fst (visitUnit host project sourceFile checker v1) = [u1]
      /\ fst (visitUnit host project sourceFile checker v2) = [u2]
      /\ UnitRecord.qualifiedName u1 = UnitRecord.qualifiedName u2
      /\ UnitRecord.symbolId u1 = UnitRecord.symbolId u2.
Proof.
  intros host project sourceFile checker v1 v2 base Hk1 Hk2 Hkind Hb1 Hb2 Hne.
  assert (Hq : forall v,
             baseNameOf (visited v) = Some base ->
             buildQualifiedName host project (getFilePath sourceFile)
                                (visited v) checker
             = Some (moduleNameOf host project (getFilePath sourceFile)
                     ++ lit "." ++ base)).
  { intros v Hb. rewrite buildQualifiedName_by_base, Hb.
    destruct base; [congruence | reflexivity]. }
  destruct (visitUnit_emits host project sourceFile checker v1 _ Hk1 (Hq v1 Hb1))
    as (u1 & Hu1 & _ & Hq1 & Hs1).
  destruct (visitUnit_emits host project sourceFile checker v2 _ Hk2 (Hq v2 Hb2))
    as (u2 & Hu2 & _ & Hq2 & Hs2).
  exists u1, u2. repeat split; try assumption.
  - congruence.
  - rewrite Hs1, Hs2, Hkind. reflexivity.
Qed.

Lemma units_of_one_name_witness :
  exists u1 u2,
    fst (visitUnit Samples.host (Samples.projectOf [MoreSamples.kFile])
           MoreSamples.kFile Samples.checker
           (mkVisit [MoreSamples.firstParens; MoreSamples.firstStatement;
                     rootNode MoreSamples.kFile] MoreSamples.firstArrow))
    = [u1]
    /\ fst (visitUnit Samples.host (Samples.projectOf [MoreSamples.kFile])
              MoreSamples.kFile Samples.checker
              (mkVisit [MoreSamples.secondParens; MoreSamples.secondStatement;
                        rootNode MoreSamples.kFile] MoreSamples.secondArrow))
       = [u2]
    /\ UnitRecord.qualifiedName u1 = UnitRecord.qualifiedName u2
    /\ UnitRecord.symbolId u1 = UnitRecord.symbolId u2.
Proof.
  apply (units_of_one_name_share_an_identity
           Samples.host (Samples.projectOf [MoreSamples.kFile])
           MoreSamples.kFile Samples.checker _ _ (lit "__function")).
  - reflexivity.
  - reflexivity.
  - reflexivity.
  - reflexivity.
  - reflexivity.
  - discriminate.
Defined.

(** X8. The [name] of a unit is the inferred name of its node, not the
    name in its qualified name: an arrow function is always named "arrow"
    and a function expression "anonymous", while the qualified name ends in
    the name of the node's symbol when it has one. *)
Theorem unit_name_of_function_values :
  forall (host : Host) (project : Project) (sourceFile : SourceFile)
         (checker : TypeChecker) (v : Visit) (u : UnitRecord.t),
    In u (fst (visitUnit host project sourceFile checker v)) ->
    (isArrowFunction (visited v) = true -> UnitRecord.name u = lit "arrow")
    /\ (isFunctionExpression (visited v) = true ->
        UnitRecord.name u = lit "anonymous")
    /\ (forall symbol,
           getSymbol (visited v) = Some symbol ->
           UnitRecord.qualifiedName u
           = moduleNameOf host project (getFilePath sourceFile)
             ++ lit "." ++ symbolName symbol).
Proof.
  intros host project sourceFile checker v u Hu.
  apply visitUnit_unit_fields in Hu
    as (_ & _ & (base & Hb & Hq) & _ & _ & Hn).
  split; [|split].
  - intros Hk. rewrite Hn.
    unfold inferNodeName, isArrowFunction, isFunctionDeclaration,
      isVariableDeclaration, isClassDeclaration, isInterfaceDeclaration,
      isEnumDeclaration, isMethodDeclaration, isGetAccessorDeclaration,
      isSetAccessorDeclaration in *.
    destruct (getKind (visited v)); try discriminate Hk. reflexivity.
  - intros Hk. rewrite Hn.
    unfold inferNodeName, isArrowFunction, isFunctionExpression,
      isFunctionDeclaration, isVariableDeclaration, isClassDeclaration,
      isInterfaceDeclaration, isEnumDeclaration, isMethodDeclaration,
      isGetAccessorDeclaration, isSetAccessorDeclaration in *.
    destruct (getKind (visited v)); try discriminate Hk. reflexivity.
  - intros symbol Hs. rewrite Hq. unfold baseNameOf in Hb. rewrite Hs in Hb.
    apply whenTruthy_Some in Hb as [Hb _]. congruence.
Qed.

Lemma unit_name_of_function_values_witness :
  exists u,
    In u (fst (visitUnit Samples.host (Samples.projectOf [Samples.pageFile])
                 Samples.pageFile Samples.checker
                 (mkVisit [Samples.pageExportAssignment;
                           rootNode Samples.pageFile] Samples.pageArrow)))
    /\ UnitRecord.name u = lit "arrow"
    /\ UnitRecord.qualifiedName u = lit "page.__function".
Proof.
  set (v := mkVisit [Samples.pageExportAssignment; rootNode Samples.pageFile]
                    Samples.pageArrow).
  destruct (fst (visitUnit Samples.host (Samples.projectOf [Samples.pageFile])
                   Samples.pageFile Samples.checker v)) as [|u rest] eqn:E.
  - vm_compute in E. discriminate E.
  - exists u. split; [left; reflexivity|].
    assert (Hin : In u (fst (visitUnit Samples.host
                               (Samples.projectOf [Samples.pageFile])
                               Samples.pageFile Samples.checker v)))
      by (rewrite E; left; reflexivity).
    destruct (unit_name_of_function_values
                Samples.host (Samples.projectOf [Samples.pageFile])
                Samples.pageFile Samples.checker v u Hin) as (Ha & _ & Hq).
    split.
    + apply Ha. reflexivity.
    + rewrite (Hq _ eq_refl). reflexivity.
Defined.

(** ** Occurrences and the units they point to *)

Section Links.

Lemma textualName_clean (text : jsstring) (c : Z) :
  In c (textualName text) ->
  c <> doubleQuote /\ c <> apostrophe /\ c <> slash.
Proof.
  unfold textualName. intros Hc.
  apply in_replaceClass in Hc as [Hc|[Hc Hs]].
  - destruct Hc as [<-|[]]. repeat split; discriminate.
  - apply in_replaceClass in Hc as [[]|[_ Hq]].
    cbn [existsb] in Hs, Hq. rewrite orb_false_r in Hs.
    apply orb_false_elim in Hq as [Hq1 Hq2]. rewrite orb_false_r in Hq2.
    apply Z.eqb_neq in Hs, Hq1, Hq2. repeat split; assumption.
Qed.

Lemma unit_not_of_other_kind (host : Host) (project : Project)
    (sourceFile : SourceFile) (checker : TypeChecker) (u : UnitRecord.t)
    (k : UnitKind) (qn : jsstring) :
  In u (fst (collectUnits host project sourceFile checker)) ->
  k <> callable -> k <> classifier ->
  UnitRecord.symbolId u <> symbolId (unitKindName k) qn.
Proof.
  intros Hu Hc Hl. rewrite collectUnits_units in Hu.
  apply in_flat_map in Hu as (v & _ & Hu).
  apply visitUnit_units_kind in Hu as (Hk & Hkind & ->).
  apply symbolId_kinds_apart.
  apply isUnitNode_inferUnitKind in Hk. rewrite <- Hkind in Hk.
  destruct Hk as [-> | ->]; congruence.
Qed.

End Links.

(** X9. The subject of every occurrence record of a file is the identity
    of a unit record of the same file, and that unit is a callable. *)
Theorem occurrence_subject_is_a_callable_unit :
  forall (host : Host) (project : Project) (sourceFile : SourceFile)
         (checker : TypeChecker),
    Forall
      (fun r =>
         exists u,
           In u (fst (collectUnits host project sourceFile checker))
           /\ UnitRecord.kind u = callable
           /\ OccurrenceRecord.subjectSymbolId r = UnitRecord.symbolId u)
      (snd (collectUnits host project sourceFile checker)).
Proof.
  intros host project sourceFile checker. apply List.Forall_forall.
  intros r Hr. rewrite collectUnits_occurrences in Hr.
  apply in_flat_map in Hr as (v & Hv & Hr).
  apply visitUnit_callable_occurrences in Hr as (u & Hu & Hk & Hr).
  exists u. split; [|split].
  - rewrite collectUnits_units. apply in_flat_map. exists v.
    split; [exact Hv|]. rewrite Hu. left. reflexivity.
  - exact Hk.
  - unfold collectCallOccurrences in Hr.
    apply in_flat_map in Hr as (node & _ & Hr).
    apply callOccurrence_relation in Hr. apply Hr.
Qed.

(** X10. The object name of an occurrence record has no quote character
    and no [/], whether it comes from the checker or from the text of the
    callee. *)
Theorem occurrence_object_name_is_clean :
  forall (host : Host) (project : Project) (sourceFile : SourceFile)
         (checker : TypeChecker),
    Forall
      (fun r =>
         forallb (fun c => negb (isQuote c) && negb (c =? slash))
                 (OccurrenceRecord.objectQName r) = true)
      (snd (collectUnits host project sourceFile checker)).
Proof.
  intros host project sourceFile checker. apply List.Forall_forall.
  intros r Hr. rewrite collectUnits_occurrences in Hr.
  apply in_flat_map in Hr as (v & _ & Hr).
  apply visitUnit_callable_occurrences in Hr as (u & _ & _ & Hr).
  unfold collectCallOccurrences in Hr.
  apply in_flat_map in Hr as (node & _ & Hr).
  apply callOccurrence_fields in Hr as (callee & _ & _ & ->).
  apply forallb_forall. intros c Hc.
  apply textualName_clean in Hc as (H1 & H2 & H3).
  unfold isQuote. apply Z.eqb_neq in H1, H2, H3. rewrite H1, H2, H3.
  reflexivity.
Qed.

(** X11. A call whose callee resolves to a declaration that is a unit node
    is linked to that unit: the object identity of the record is the identity
    of the unit record written for the declaration in its own file, and it is
    absent when the declaration has no qualified name. *)
Theorem resolved_call_points_to_the_unit_of_its_declaration :
  forall (host : Host) (project : Project) (checker : TypeChecker)
         (subjectId : jsstring) (call callee : Node) (symbol : TsSymbol)
         (others : list Node) (declaringFile : SourceFile) (v : Visit),
    isCallExpression call = true ->
    getExpression call = Some callee ->
    calleeSymbol checker callee = Some symbol ->
    getDeclarations symbol = visited v :: others ->
    sourceFilePath (visited v) = getFilePath declaringFile ->
    isUnitNode (visited v) = true ->
    exists r,
      callOccurrence host project subjectId checker call = [r]
      /\ OccurrenceRecord.objectSymbolId r
         = head (map UnitRecord.symbolId
                     (fst (visitUnit host project declaringFile checker v))).
Proof.
  intros host project checker subjectId call callee symbol others
         declaringFile v Hc He Hs Hd Hp Hk.
  unfold callOccurrence, visitUnit. rewrite Hc, He, Hk. cbn [negb].
  fold (calleeSymbol checker callee). rewrite Hs, Hd.
  cbn [head]. rewrite Hp. eexists. split; [reflexivity|].
  cbn [OccurrenceRecord.objectSymbolId].
  destruct (whenTruthy _) as [qn|]; reflexivity.
Qed.

Lemma resolved_call_witness :
  exists r,
    callOccurrence Samples.host (Samples.projectOf [MoreSamples.bFile])
                   (symbolId (lit "callable") (lit "a2.foo")) Samples.checker
                   MoreSamples.resolvedCall = [r]
    /\ OccurrenceRecord.objectSymbolId r
       = Some (symbolId (lit "callable") (lit "b.bar")).
Proof.
  apply (resolved_call_points_to_the_unit_of_its_declaration
           Samples.host (Samples.projectOf [MoreSamples.bFile])
           Samples.checker (symbolId (lit "callable") (lit "a2.foo"))
           MoreSamples.resolvedCall MoreSamples.barCallee
           MoreSamples.barSymbol [] MoreSamples.bFile
           (mkVisit [rootNode MoreSamples.bFile] MoreSamples.barDeclaration)).
  - reflexivity.
  - reflexivity.
  - reflexivity.
  - reflexivity.
  - reflexivity.
  - reflexivity.
Defined.

(** X12. A call whose callee resolves to a declaration of kind
    [variable], [parameter] or [type] (a constant holding an arrow function,
    a parameter, an import) gets an object identity that is the identity of
    no unit record of any file. *)
Theorem call_of_a_non_unit_declaration_points_to_no_unit :
  forall (host : Host) (project : Project) (checker : TypeChecker)
         (subjectId : jsstring) (call callee : Node) (symbol : TsSymbol)
         (decl : Node) (others : list Node) (qn : jsstring),
    isCallExpression call = true ->
    getExpression call = Some callee ->
    calleeSymbol checker callee = Some symbol ->
    getDeclarations symbol = decl :: others ->
    buildQualifiedName host project (sourceFilePath decl) decl checker
    = Some qn ->
    inferUnitKind decl <> callable ->
    inferUnitKind decl <> classifier ->
    exists r,
      callOccurrence host project subjectId checker call = [r]
      /\ OccurrenceRecord.objectSymbolId r
         = Some (symbolId (unitKindName (inferUnitKind decl)) qn)
      /\ forall host' project' sourceFile' checker' u,
           In u (fst (collectUnits host' project' sourceFile' checker')) ->
           Some (UnitRecord.symbolId u) <> OccurrenceRecord.objectSymbolId r.
Proof.
  intros host project checker subjectId call callee symbol decl others qn
         Hc He Hs Hd Hq Hk1 Hk2.
  unfold callOccurrence. rewrite Hc, He. cbn [negb].
  fold (calleeSymbol checker callee). rewrite Hs, Hd. cbn [head].
  rewrite buildQualifiedName_truthy, Hq.
  eexists. split; [reflexivity|].
  cbn [OccurrenceRecord.objectSymbolId]. split; [reflexivity|].
  intros host' project' sourceFile' checker' u Hu E. injection E as E.
  revert E. apply unit_not_of_other_kind with (1 := Hu); assumption.
Qed.

Lemma call_of_a_non_unit_declaration_witness :
  exists r,
    callOccurrence Samples.host (Samples.projectOf [MoreSamples.eFile])
                   (symbolId (lit "callable") (lit "e.f")) Samples.checker
                   MoreSamples.xCall = [r]
    /\ OccurrenceRecord.objectSymbolId r
       = Some (symbolId (lit "variable") (lit "e.x"))
    /\ forall host' project' sourceFile' checker' u,
         In u (fst (collectUnits host' project' sourceFile' checker')) ->
         Some (UnitRecord.symbolId u) <> OccurrenceRecord.objectSymbolId r.
Proof.
  apply (call_of_a_non_unit_declaration_points_to_no_unit
           Samples.host (Samples.projectOf [MoreSamples.eFile])
           Samples.checker (symbolId (lit "callable") (lit "e.f"))
           MoreSamples.xCall MoreSamples.xCallee MoreSamples.xSymbol
           MoreSamples.exportedX [] (lit "e.x")).
  - reflexivity.
  - reflexivity.
  - reflexivity.
  - reflexivity.
  - reflexivity.
  - discriminate.
  - discriminate.
Defined.

(** ** Export records *)

Section Exports.

Lemma symbolId_nonempty (kind qn : jsstring) : symbolId kind qn <> [].
Proof.
  intros E. apply (f_equal (@length Z)) in E.
  unfold symbolId, base64Url in E. rewrite token_length_of_bytes in E.
  unfold identityText in E.
  rewrite (from_ascii_app (lit "ts:")) in E by reflexivity.
  cbn [length map lit list_ascii_of_string app] in E.
  apply Nat.div_small_iff in E; lia.
Qed.

Lemma symbolId_truthy (kind qn : jsstring) :
  whenTruthy (Some (symbolId kind qn)) = Some (symbolId kind qn).
Proof.
  cbn [whenTruthy]. pose proof (symbolId_nonempty kind qn) as H.
  destruct (symbolId kind qn); [congruence | reflexivity].
Qed.

Lemma exportDefaultSymbolId_truthy (host : Host) (project : Project)
    (sourceFile : SourceFile) (checker : TypeChecker) :
  whenTruthy (exportDefaultSymbolId host project sourceFile checker)
  = exportDefaultSymbolId host project sourceFile checker.
Proof.
  unfold exportDefaultSymbolId.
  destruct (getDefaultExportSymbol sourceFile) as [d|]; [|reflexivity].
  destruct (getDeclarations d) as [|decl ?]; [reflexivity|].
  destruct (whenTruthy (buildQualifiedName _ _ _ _ _)) as [qn|];
    [|reflexivity].
  apply symbolId_truthy.
Qed.

Lemma exportRecord_of_symbol (host : Host) (project : Project)
    (sourceFile : SourceFile) (checker : TypeChecker) (moduleName : jsstring)
    (sym : TsSymbol) (decl : Node) (others : list Node) (qn : jsstring) :
  In sym (getExportSymbols sourceFile) ->
  getDeclarations sym = decl :: others ->
  buildQualifiedName host project (getFilePath sourceFile) decl checker
  = Some qn ->
  exists before last,
    collectExportRecords host project sourceFile checker moduleName
    = before ++ last
    /\ In {| ExportRecord.name := symbolName sym;
             ExportRecord.unitSymbolId :=
               Some (symbolId (unitKindName (inferUnitKind decl)) qn) |}
          before
    /\ last
       = match exportDefaultSymbolId host project sourceFile checker with
         | Some defaultId =>
             [ {| ExportRecord.name := lit "default";
                  ExportRecord.unitSymbolId := Some defaultId |} ]
         | None => []
         end.
Proof.
  intros Hin Hd Hq. unfold collectExportRecords.
  set (fromSymbols := flat_map _ (getExportSymbols sourceFile)).
  assert (Hrec : In {| ExportRecord.name := symbolName sym;
                       ExportRecord.unitSymbolId :=
                         Some (symbolId (unitKindName (inferUnitKind decl)) qn) |}
                    fromSymbols).
  { unfold fromSymbols. apply in_flat_map. exists sym. split; [exact Hin|].
    rewrite Hd, buildQualifiedName_truthy, Hq. left. reflexivity. }
  rewrite exportDefaultSymbolId_truthy.
  destruct (exportDefaultSymbolId host project sourceFile checker) as [id|].
  - exists fromSymbols, [ {| ExportRecord.name := lit "default";
                             ExportRecord.unitSymbolId := Some id |} ].
    repeat split. exact Hrec.
  - exists fromSymbols, []. rewrite app_nil_r. repeat split. exact Hrec.
Qed.

End Exports.

(** X13. An exported declaration of kind [variable], [parameter] or [type]
    (an exported constant, a type alias, a re-export) gets an export record
    with a [unitSymbolId], and that token is the identity of no unit record
    of any file. *)
Theorem export_of_a_non_unit_declaration_points_to_no_unit :
  forall (host : Host) (project : Project) (sourceFile : SourceFile)
         (checker : TypeChecker) (moduleName : jsstring) (sym : TsSymbol)
         (decl : Node) (others : list Node) (qn : jsstring),
    In sym (getExportSymbols sourceFile) ->
    getDeclarations sym = decl :: others ->
    buildQualifiedName host project (getFilePath sourceFile) decl checker
    = Some qn ->
    inferUnitKind decl <> callable ->
    inferUnitKind decl <> classifier ->
    exists e,
      In e (collectExportRecords host project sourceFile checker moduleName)
      /\ ExportRecord.name e = symbolName sym
      /\ ExportRecord.unitSymbolId e
         = Some (symbolId (unitKindName (inferUnitKind decl)) qn)
      /\ forall host' project' sourceFile' checker' u,
           In u (fst (collectUnits host' project' sourceFile' checker')) ->
           Some (UnitRecord.symbolId u) <> ExportRecord.unitSymbolId e.
Proof.
  intros host project sourceFile checker moduleName sym decl others qn
         Hin Hd Hq Hk1 Hk2.
  destruct (exportRecord_of_symbol host project sourceFile checker moduleName
              sym decl others qn Hin Hd Hq) as (before & last & -> & Hrec & _).
  eexists. split; [apply in_or_app; left; exact Hrec|].
  cbn [ExportRecord.name ExportRecord.unitSymbolId].
  split; [reflexivity|]. split; [reflexivity|].
  intros host' project' sourceFile' checker' u Hu E. injection E as E.
  revert E. apply unit_not_of_other_kind with (1 := Hu); assumption.
Qed.

Lemma export_of_a_non_unit_declaration_witness :
  exists e,
    In e (collectExportRecords Samples.host
            (Samples.projectOf [MoreSamples.eFile]) MoreSamples.eFile
            Samples.checker (lit "e"))
    /\ ExportRecord.name e = lit "x"
    /\ ExportRecord.unitSymbolId e
       = Some (symbolId (lit "variable") (lit "e.x"))
    /\ forall host' project' sourceFile' checker' u,
         In u (fst (collectUnits host' project' sourceFile' checker')) ->
         Some (UnitRecord.symbolId u) <> ExportRecord.unitSymbolId e.
Proof.
  apply (export_of_a_non_unit_declaration_points_to_no_unit
           Samples.host (Samples.projectOf [MoreSamples.eFile])
           MoreSamples.eFile Samples.checker (lit "e") MoreSamples.xSymbol
           MoreSamples.exportedX [] (lit "e.x")).
  - left. reflexivity.
  - reflexivity.
  - reflexivity.
  - discriminate.
  - discriminate.
Defined.

(** X14. When the default-export symbol of a file is also among its
    export symbols, as [default], and its first declaration has a qualified
    name, the record [{name: "default", unitSymbolId}] is written twice: once
    in the loop over the export symbols and once more at the end. *)
Theorem default_export_is_recorded_twice :
  forall (host : Host) (project : Project) (sourceFile : SourceFile)
         (checker : TypeChecker) (moduleName : jsstring)
         (defaultExport : TsSymbol) (decl : Node) (others : list Node)
         (qn : jsstring),
    getDefaultExportSymbol sourceFile = Some defaultExport ->
    In defaultExport (getExportSymbols sourceFile) ->
    symbolName defaultExport = lit "default" ->
    getDeclarations defaultExport = decl :: others ->
    buildQualifiedName host project (getFilePath sourceFile) decl checker
    = Some qn ->
    exists before e,
      collectExportRecords host project sourceFile checker moduleName
      = before ++ [e]
      /\ In e before
      /\ ExportRecord.name e = lit "default"
      /\ ExportRecord.unitSymbolId e
         = Some (symbolId (unitKindName (inferUnitKind decl)) qn).
Proof.
  intros host project sourceFile checker moduleName defaultExport decl others
         qn Hdef Hin Hname Hd Hq.
  destruct (exportRecord_of_symbol host project sourceFile checker moduleName
              defaultExport decl others qn Hin Hd Hq)
    as (before & last & -> & Hrec & ->).
  unfold exportDefaultSymbolId.
  rewrite Hdef, Hd, buildQualifiedName_truthy, Hq.
  rewrite Hname in Hrec.
  eexists. eexists. split; [reflexivity|]. split; [exact Hrec|].
  split; reflexivity.
Qed.

Lemma default_export_is_recorded_twice_witness :
  exists before e,
    collectExportRecords Samples.host (Samples.projectOf [Samples.dFile])
                         Samples.dFile Samples.checker (lit "d")
    = before ++ [e]
    /\ In e before
    /\ ExportRecord.name e = lit "default"
    /\ ExportRecord.unitSymbolId e
       = Some (symbolId (lit "callable") (lit "d.default")).
Proof.
  apply (default_export_is_recorded_twice
           Samples.host (Samples.projectOf [Samples.dFile]) Samples.dFile
           Samples.checker (lit "d") Samples.dDefaultSymbol Samples.dFunction
           [] (lit "d.default")).
  - reflexivity.
  - left. reflexivity.
  - reflexivity.
  - reflexivity.
  - reflexivity.
Defined.

(** ** AST paths *)

Section AstPaths.

Lemma join_snoc (sep : jsstring) (pieces : list jsstring) (p : jsstring) :
  pieces <> [] -> join sep (pieces ++ [p]) = join sep pieces ++ sep ++ p.
Proof.
  induction pieces as [|a pieces IH]; [congruence|]. intros _.
  destruct pieces as [|b pieces].
  - reflexivity.
  - change (join sep ((a :: b :: pieces) ++ [p]))
      with (a ++ sep ++ join sep ((b :: pieces) ++ [p])).
    rewrite IH by discriminate.
    change (join sep (a :: b :: pieces))
      with (a ++ sep ++ join sep (b :: pieces)).
    rewrite <- !app_assoc. reflexivity.
Qed.

(** The chain of parents of a visit below [n] ends in [n] and the chain
    [n] was reached by. *)
Lemma visitsFrom_parents :
  forall (n : Node) (chain : list Node) (v : Visit),
    In v (visitsFrom chain n) -> exists pre, parents v = pre ++ n :: chain.
Proof.
  fix IH 1.
  intros [id k path sym nm nt mods asy tx lt st en ix children] chain v.
  cbn [visitsFrom forEachChild].
  set (n := mkNode id k path sym nm nt mods asy tx lt st en ix children).
  clearbody n. revert children v.
  fix IHcs 1. intros [|c cs] v; cbn [flat_map]; intros Hv.
  - destruct Hv.
  - destruct Hv as [<-|Hv].
    + exists []. reflexivity.
    + apply in_app_or in Hv as [Hv|Hv].
      * apply IH in Hv as (pre & ->). exists (pre ++ [c]).
        rewrite <- app_assoc. reflexivity.
      * apply (IHcs cs v). exact Hv.
Qed.

End AstPaths.

(** X15. The AST path of a node directly under the file's node is its own
    piece, [Kind\[index\]]; deeper down it is the AST path of the parent, a
    [/] and the piece of the node.  The chain of parents of every node the
    unit extractor visits ends in the file's node, which gets no piece. *)
Theorem astPath_extends_the_path_of_the_parent :
  (forall root child,
      astPath (mkVisit [root] child) = astPathPiece child)
  /\ (forall child parent grandparent ancestors,
         astPath (mkVisit (parent :: grandparent :: ancestors) child)
         = astPath (mkVisit (grandparent :: ancestors) parent)
           ++ lit "/" ++ astPathPiece child)
  /\ (forall root v,
         In v (visitsFrom [] root) ->
         exists chain, parents v = chain ++ [root]).
Proof.
  split; [|split];
    [| |intros root v Hv; apply (visitsFrom_parents root [] v Hv)].
  - intros root child. reflexivity.
  - intros child parent grandparent ancestors. unfold astPath.
    cbn [visited parents].
    change (removelast (child :: parent :: grandparent :: ancestors))
      with (child :: removelast (parent :: grandparent :: ancestors)).
    change (removelast (parent :: grandparent :: ancestors))
      with (parent :: removelast (grandparent :: ancestors)).
    cbn [map rev]. apply join_snoc.
    intros E. apply app_eq_nil in E as [_ E]. discriminate E.
Qed.

(** ** The file list of a run *)

Section FileList.

Lemma resolveAll_strings (host : Host) (repoDir : jsstring)
    (rels : list jsstring) :
  resolveAll host repoDir (map JString rels)
  = Some (map (resolve host repoDir) rels).
Proof.
  induction rels as [|rel rels IH]; [reflexivity|].
  cbn [map resolveAll]. rewrite IH. reflexivity.
Qed.

Lemma resolveAll_Some (host : Host) (repoDir : jsstring) (items : list Json) :
  forall paths,
    resolveAll host repoDir items = Some paths ->
    exists rels, items = map JString rels.
Proof.
  induction items as [|item items IH]; intros paths H.
  - exists []. reflexivity.
  - cbn [resolveAll] in H. destruct item as [| | |rel| |]; try discriminate H.
    destruct (resolveAll host repoDir items) as [ps|]; [|discriminate H].
    destruct (IH ps eq_refl) as (rels & ->). exists (rel :: rels).
    reflexivity.
Qed.

Lemma emitLoop_seen (host : Host) (project : Project) (repoDir : jsstring)
    (files : list jsstring) :
  forall seen : gset (list Z),
    (forall p, In p files -> p ∈ seen) ->
    emitLoop host project repoDir seen files = [].
Proof.
  induction files as [|path rest IH]; intros seen Hall; cbn [emitLoop].
  - reflexivity.
  - destruct (decide (path ∈ seen)) as [_|Hn].
    + apply IH. intros p Hp. apply Hall. right. exact Hp.
    + destruct Hn. apply Hall. left. reflexivity.
Qed.

Lemma emitLoop_app_known (host : Host) (project : Project)
    (repoDir : jsstring) (files extra : list jsstring) :
  forall seen : gset (list Z),
    (forall p, In p extra -> p ∈ seen \/ In p files) ->
    emitLoop host project repoDir seen (files ++ extra)
    = emitLoop host project repoDir seen files.
Proof.
  induction files as [|path rest IH]; intros seen Hall.
  - cbn [app emitLoop]. apply emitLoop_seen. intros p Hp.
    destruct (Hall p Hp) as [H|[]]. exact H.
  - cbn [app emitLoop].
    destruct (decide (path ∈ seen)) as [Hs|Hn].
    + apply IH. intros p Hp. destruct (Hall p Hp) as [H|[<-|H]].
      * left. exact H.
      * left. exact Hs.
      * right. exact H.
    + assert (Hall' : forall p, In p extra ->
                                p ∈ {[ path ]} ∪ seen \/ In p rest).
      { intros p Hp. destruct (Hall p Hp) as [H|[<-|H]].
        - left. apply elem_of_union. right. exact H.
        - left. apply elem_of_union. left. apply elem_of_singleton.
          reflexivity.
        - right. exact H. }
      rewrite (IH _ Hall'). reflexivity.
Qed.

Lemma writtenPaths_sublist (project : Project) (files : list jsstring) :
  forall seen : gset (list Z),
    sublist (writtenPaths project seen files) files.
Proof.
  induction files as [|path rest IH]; intros seen; cbn [writtenPaths].
  - constructor.
  - destruct (decide (path ∈ seen)); [apply sublist_cons, IH|].
    destruct (sourceFileAt project path).
    + apply sublist_skip, IH.
    + apply sublist_cons, IH.
Qed.

End FileList.

(** X16. When the file-list override is a JSON array of strings, the run
    works on exactly these entries, each resolved against the repository
    directory, in their order; what discovery would find plays no part. *)
Theorem main_takes_the_override_list :
  forall (host : Host) (project : Project) (opts : CliOptions)
         (envList : jsstring) (rels : list jsstring),
    ONTOCODE_FILE_LIST host = Some envList ->
    envList <> [] ->
    JSON_parse host envList = Some (JArray (map JString rels)) ->
    main host project opts
    = {| exitCode := 0;
         stdout :=
           emitLoop host project (resolve host (cwd host) (repo opts)) ∅
                    (map (resolve host (resolve host (cwd host) (repo opts)))
                         rels) |}.
Proof.
  intros host project opts envList rels Henv Hne Hparse.
  unfold main, filesFromOverride. rewrite Henv.
  destruct envList as [|c envList]; [congruence|].
  cbn [whenTruthy truthy]. rewrite Hparse, resolveAll_strings. reflexivity.
Qed.

Lemma main_takes_the_override_list_witness :
  main MoreSamples.hostWithList
       (Samples.projectOf [Samples.aFile; Samples.cFile]) Samples.options
  = {| exitCode := 0;
       stdout :=
         emitLoop MoreSamples.hostWithList
                  (Samples.projectOf [Samples.aFile; Samples.cFile])
                  (lit "/repo") ∅ [lit "/repo/a.ts"; lit "/repo/a.ts"] |}.
Proof.
  apply (main_takes_the_override_list
           MoreSamples.hostWithList
           (Samples.projectOf [Samples.aFile; Samples.cFile]) Samples.options
           MoreSamples.listText [lit "a.ts"; lit "a.ts"]).
  - reflexivity.
  - discriminate.
  - reflexivity.
Defined.

(** X17. When the file-list override is valid JSON but not an array of
    strings (an object, a string, a number, an array with a number in it),
    the run ends with exit code 1 and has written no record, as for text that
    is not JSON. *)
Theorem main_aborts_on_override_of_another_shape :
  forall (host : Host) (project : Project) (opts : CliOptions)
         (envList : jsstring) (value : Json),
    ONTOCODE_FILE_LIST host = Some envList ->
    envList <> [] ->
    JSON_parse host envList = Some value ->
    (forall rels, value <> JArray (map JString rels)) ->
    main host project opts = {| exitCode := 1; stdout := [] |}.
Proof.
  intros host project opts envList value Henv Hne Hparse Hshape.
  unfold main, filesFromOverride. rewrite Henv.
  destruct envList as [|c envList]; [congruence|].
  cbn [whenTruthy truthy]. rewrite Hparse.
  destruct value as [| | | |items|]; try reflexivity.
  destruct (resolveAll host _ items) as [paths|] eqn:E; [|reflexivity].
  apply resolveAll_Some in E as (rels & ->). destruct (Hshape rels eq_refl).
Qed.

Lemma main_aborts_on_override_of_another_shape_witness :
  main MoreSamples.hostWithNumbers (Samples.projectOf [Samples.aFile])
       Samples.options
  = {| exitCode := 1; stdout := [] |}.
Proof.
  apply (main_aborts_on_override_of_another_shape
           MoreSamples.hostWithNumbers (Samples.projectOf [Samples.aFile])
           Samples.options (lit "[1]") (JArray [JNumber (lit "1")])).
  - reflexivity.
  - discriminate.
  - reflexivity.
  - intros [|rel rels] E; discriminate E.
Defined.

(** X18. Every path a run writes uses forward slashes only: the
    [filePath] of each record, and the [resolved] path of each import record,
    hold no backslash. *)
Theorem written_paths_have_no_backslash :
  (forall (host : Host) (project : Project) (opts : CliOptions),
      Forall
        (fun facts =>
           forallb (fun c => negb (c =? backslash)) (FileFacts.filePath facts)
           = true)
        (stdout (main host project opts)))
  /\ (forall (host : Host) (project : Project) (sourceFile : SourceFile),
         Forall
           (fun record =>
              match ImportRecord.resolved record with
              | Some path =>
                  forallb (fun c => negb (c =? backslash)) path = true
              | None => True
              end)
           (collectImportRecords host project sourceFile)).
Proof.
  assert (Hclean : forall s,
             forallb (fun c => negb (c =? backslash))
                     (replaceClass [backslash] (lit "/") s) = true).
  { intros s. apply forallb_forall. intros c Hc.
    apply in_replaceClass in Hc as [Hc|[_ Hc]].
    - destruct Hc as [<-|[]]. reflexivity.
    - cbn [existsb] in Hc. rewrite orb_false_r in Hc. rewrite Hc.
      reflexivity. }
  split.
  - intros host project opts. rewrite main_by_fileList.
    destruct (fileList host opts) as [files|]; cbn [stdout]; [|constructor].
    pose proof (emitLoop_records host project
                  (resolve host (cwd host) (repo opts)) files ∅) as H.
    induction H as [|p facts written records (source & _ & ->) _ IH].
    + constructor.
    + constructor; [|exact IH]. apply Hclean.
  - intros host project sourceFile. unfold collectImportRecords.
    induction (getImportDeclarations sourceFile) as [|decl decls IH].
    + constructor.
    + cbn [map]. constructor; [|exact IH].
      destruct (getModuleSpecifierSourceFile decl);
        cbn [ImportRecord.resolved]; [apply Hclean | exact I].
Qed.

(** X19. File paths met again add nothing: the records written for a file
    list followed by paths that are all in it already are the records written
    for the list alone. *)
Theorem emitLoop_ignores_repeated_paths :
  forall (host : Host) (project : Project) (repoDir : jsstring)
         (files extra : list jsstring),
    (forall p, In p extra -> In p files) ->
    emitLoop host project repoDir ∅ (files ++ extra)
    = emitLoop host project repoDir ∅ files.
Proof.
  intros host project repoDir files extra Hall.
  apply emitLoop_app_known. intros p Hp. right. apply Hall. exact Hp.
Qed.

Lemma emitLoop_ignores_repeated_paths_witness :
  emitLoop Samples.host (Samples.projectOf [Samples.aFile; Samples.cFile])
           (lit "/repo") ∅
           ([Samples.aPath; Samples.cPath] ++ [Samples.cPath; Samples.aPath])
  = emitLoop Samples.host (Samples.projectOf [Samples.aFile; Samples.cFile])
             (lit "/repo") ∅ [Samples.aPath; Samples.cPath].
Proof.
  apply (emitLoop_ignores_repeated_paths
           Samples.host (Samples.projectOf [Samples.aFile; Samples.cFile])
           (lit "/repo") [Samples.aPath; Samples.cPath]
           [Samples.cPath; Samples.aPath]).
  intros p [<-|[<-|[]]]; [right; left; reflexivity | left; reflexivity].
Defined.

(** X20. The records of a run keep the order of the file list: their
    paths are a subsequence of the list, so there are at most as many records
    as entries; entries that are no source file of the project are skipped
    without a record. *)
Theorem emitLoop_keeps_the_order_of_the_list :
  forall (host : Host) (project : Project) (repoDir : jsstring)
         (files : list jsstring),
    exists written : list jsstring,
      sublist written files
      /\ Forall (fun p => sourceFileAt project p <> None) written
      /\ map FileFacts.filePath (emitLoop host project repoDir ∅ files)
         = map (writtenFilePath host repoDir) written
      /\ (length (emitLoop host project repoDir ∅ files) <= length files)%nat.
Proof.
  intros host project repoDir files.
  pose proof (emitLoop_records host project repoDir files ∅) as Hrec.
  exists (writtenPaths project ∅ files). split; [|split; [|split]].
  - apply writtenPaths_sublist.
  - induction Hrec as [|p facts written records (source & Hs & _) _ IH];
      constructor; [congruence | exact IH].
  - apply records_filePaths with (project := project). exact Hrec.
  - rewrite <- (Forall2_length _ _ _ Hrec).
    apply sublist_length, writtenPaths_sublist.
Qed.

(** ** Command-line options *)

Section Options.

Lemma split_cons (sep c : Z) (rest : jsstring) :
  Args.split sep (c :: rest)
  = if c =? sep then [] :: Args.split sep rest
    else match Args.split sep rest with
         | piece :: pieces => (c :: piece) :: pieces
         | [] => [[c]]
         end.
Proof. reflexivity. Qed.

Lemma split_pieces_without_separator (sep : Z) (s : jsstring) :
  Forall (fun piece => forallb (fun c => negb (c =? sep)) piece = true)
         (Args.split sep s).
Proof.
  induction s as [|c rest IH].
  - repeat constructor.
  - rewrite split_cons. destruct (Z.eqb_spec c sep) as [->|Hc].
    + constructor; [reflexivity | exact IH].
    + destruct (Args.split sep rest) as [|piece pieces].
      * constructor; [|constructor]. cbn [forallb].
        apply Z.eqb_neq in Hc. rewrite Hc. reflexivity.
      * inversion IH as [|? ? Hp Hps]; subst. constructor; [|exact Hps].
        cbn [forallb]. apply Z.eqb_neq in Hc. rewrite Hc, Hp. reflexivity.
Qed.

Lemma trimStart_suffix (s : jsstring) :
  exists pre, s = pre ++ Args.trimStart s.
Proof.
  induction s as [|c s [pre IH]].
  - exists []. reflexivity.
  - cbn [Args.trimStart]. destruct (Args.isWhiteSpace c).
    + exists (c :: pre). cbn [app]. rewrite <- IH. reflexivity.
    + exists []. reflexivity.
Qed.

Lemma trimStart_head (s : jsstring) :
  match Args.trimStart s with
  | c :: _ => Args.isWhiteSpace c = false
  | [] => True
  end.
Proof.
  induction s as [|c s IH]; [exact I|].
  cbn [Args.trimStart]. destruct (Args.isWhiteSpace c) eqn:E; [exact IH|].
  exact E.
Qed.

Lemma in_trimStart (s : jsstring) (c : Z) :
  In c (Args.trimStart s) -> In c s.
Proof.
  destruct (trimStart_suffix s) as [pre E]. intros H. rewrite E.
  apply in_or_app. right. exact H.
Qed.

Lemma in_trim (s : jsstring) (c : Z) : In c (Args.trim s) -> In c s.
Proof.
  unfold Args.trim, Args.trimEnd. intros H.
  apply in_rev, in_trimStart in H. apply in_rev in H.
  apply in_trimStart. exact H.
Qed.

Lemma trim_first (s : jsstring) :
  match Args.trim s with
  | c :: _ => Args.isWhiteSpace c = false
  | [] => True
  end.
Proof.
  unfold Args.trim, Args.trimEnd.
  destruct (trimStart_suffix (rev (Args.trimStart s))) as [pre E].
  apply (f_equal (@rev Z)) in E. rewrite rev_involutive, rev_app_distr in E.
  pose proof (trimStart_head s) as Hh. rewrite E in Hh.
  destruct (rev (Args.trimStart (rev (Args.trimStart s)))); [exact I|].
  exact Hh.
Qed.

Lemma trim_last (s : jsstring) :
  match rev (Args.trim s) with
  | c :: _ => Args.isWhiteSpace c = false
  | [] => True
  end.
Proof.
  unfold Args.trim, Args.trimEnd. rewrite rev_involutive.
  apply trimStart_head.
Qed.

Lemma patterns_clean (value : jsstring) :
  Forall (fun p => Args.isCleanPattern p = true) (Args.patterns value).
Proof.
  unfold Args.patterns. apply List.Forall_forall. intros p Hp.
  apply filter_In in Hp as [Hp Ht]. apply in_map_iff in Hp as (piece & <- & Hp).
  pose proof (split_pieces_without_separator Args.comma value) as Hs.
  rewrite List.Forall_forall in Hs. specialize (Hs piece Hp).
  unfold Args.isCleanPattern. rewrite Ht. cbn [andb].
  apply andb_true_intro. split; [apply andb_true_intro; split|].
  - apply forallb_forall. intros c Hc. apply in_trim in Hc.
    rewrite forallb_forall in Hs. apply Hs. exact Hc.
  - pose proof (trim_first piece) as H.
    destruct (Args.trim piece); [reflexivity|]. rewrite H. reflexivity.
  - pose proof (trim_last piece) as H.
    destruct (rev (Args.trim piece)); [reflexivity|]. rewrite H. reflexivity.
Qed.

Lemma parseArgsFrom_step (opts : CliOptions) (arg next : jsstring)
    (rest : list jsstring) :
  Args.parseArgsFrom opts (arg :: next :: rest)
  = if strictEq arg (lit "--repo") && truthy next then
      Args.parseArgsFrom
        {| repo := next; include := include opts; exclude := exclude opts |}
        rest
    else if strictEq arg (lit "--files-include") && truthy next then
      Args.parseArgsFrom
        {| repo := repo opts; include := Args.patterns next;
           exclude := exclude opts |} rest
    else if strictEq arg (lit "--files-exclude") && truthy next then
      Args.parseArgsFrom
        {| repo := repo opts; include := include opts;
           exclude := exclude opts ++ Args.patterns next |} rest
    else Args.parseArgsFrom opts (next :: rest).
Proof. reflexivity. Qed.

Lemma truthy_nonempty (s : jsstring) : truthy s = true -> s <> [].
Proof. destruct s; [discriminate | discriminate]. Qed.

(** What the loop keeps of the options it starts from. *)
Lemma parseArgsFrom_result (argv : list jsstring) :
  forall opts,
    (exists extra,
        exclude (Args.parseArgsFrom opts argv) = exclude opts ++ extra
        /\ Forall (fun p => Args.isCleanPattern p = true) extra)
    /\ (include (Args.parseArgsFrom opts argv) = include opts
        \/ exists value,
             In value argv /\ value <> []
             /\ include (Args.parseArgsFrom opts argv) = Args.patterns value)
    /\ (repo (Args.parseArgsFrom opts argv) = repo opts
        \/ (In (repo (Args.parseArgsFrom opts argv)) argv
            /\ repo (Args.parseArgsFrom opts argv) <> [])).
Proof.
  induction argv as [|arg|arg next rest IH IHnext] using list_ind_by1or2;
    intros opts.
  - cbn [Args.parseArgsFrom]. split; [|split]; [|left; reflexivity..].
    exists []. rewrite app_nil_r. split; [reflexivity | constructor].
  - cbn [Args.parseArgsFrom]. split; [|split]; [|left; reflexivity..].
    exists []. rewrite app_nil_r. split; [reflexivity | constructor].
  - rewrite parseArgsFrom_step.
    destruct (strictEq arg (lit "--repo") && truthy next) eqn:E1.
    { apply andb_prop in E1 as [_ Ht]. apply truthy_nonempty in Ht.
      destruct (IH {| repo := next; include := include opts;
                      exclude := exclude opts |})
        as ((extra & He & Hc) & Hi & Hr).
      cbn [repo include exclude] in He, Hi, Hr.
      split; [|split].
      - exists extra. split; assumption.
      - destruct Hi as [Hi|(value & Hv & Hne & Hi)]; [left; exact Hi|].
        right. exists value. split; [right; right; exact Hv|].
        split; assumption.
      - right. destruct Hr as [->|[Hr Hne]].
        + split; [right; left; reflexivity | exact Ht].
        + split; [right; right; exact Hr | exact Hne]. }
    destruct (strictEq arg (lit "--files-include") && truthy next) eqn:E2.
    { apply andb_prop in E2 as [_ Ht]. apply truthy_nonempty in Ht.
      destruct (IH {| repo := repo opts; include := Args.patterns next;
                      exclude := exclude opts |})
        as ((extra & He & Hc) & Hi & Hr).
      cbn [repo include exclude] in He, Hi, Hr.
      split; [|split].
      - exists extra. split; assumption.
      - right. destruct Hi as [Hi|(value & Hv & Hne & Hi)].
        + exists next. split; [right; left; reflexivity|].
          split; assumption.
        + exists value. split; [right; right; exact Hv|]. split; assumption.
      - destruct Hr as [Hr|[Hr Hne]]; [left; exact Hr|].
        right. split; [right; right; exact Hr | exact Hne]. }
    destruct (strictEq arg (lit "--files-exclude") && truthy next) eqn:E3.
    { destruct (IH {| repo := repo opts; include := include opts;
                      exclude := exclude opts ++ Args.patterns next |})
        as ((extra & He & Hc) & Hi & Hr).
      cbn [repo include exclude] in He, Hi, Hr.
      split; [|split].
      - exists (Args.patterns next ++ extra). rewrite app_assoc.
        split; [exact He|]. apply Forall_app. split; [|exact Hc].
        apply patterns_clean.
      - destruct Hi as [Hi|(value & Hv & Hne & Hi)]; [left; exact Hi|].
        right. exists value. split; [right; right; exact Hv|].
        split; assumption.
      - destruct Hr as [Hr|[Hr Hne]]; [left; exact Hr|].
        right. split; [right; right; exact Hr | exact Hne]. }
    destruct (IHnext opts) as ((extra & He & Hc) & Hi & Hr).
    split; [|split].
    + exists extra. split; assumption.
    + destruct Hi as [Hi|(value & Hv & Hne & Hi)]; [left; exact Hi|].
      right. exists value. split; [right; exact Hv|]. split; assumption.
    + destruct Hr as [Hr|[Hr Hne]]; [left; exact Hr|].
      right. split; [right; exact Hr | exact Hne].
Qed.

Lemma parseArgsFrom_without_flags (argv : list jsstring) :
  forall opts,
    forallb (fun arg => negb (Args.isFlag arg)) argv = true ->
    Args.parseArgsFrom opts argv = opts.
Proof.
  induction argv as [|arg|arg next rest IH IHnext] using list_ind_by1or2;
    intros opts Hf.
  - reflexivity.
  - reflexivity.
  - rewrite parseArgsFrom_step. cbn [forallb] in Hf.
    apply andb_prop in Hf as [Ha Hf]. apply negb_true_iff in Ha.
    unfold Args.isFlag in Ha.
    apply orb_false_elim in Ha as [Ha H3].
    apply orb_false_elim in Ha as [H1 H2].
    rewrite H1, H2, H3. cbn [andb]. apply IHnext. exact Hf.
Qed.

Lemma parseArgsFrom_last_ignored (argv : list jsstring) :
  forall opts last,
    forallb (fun arg => negb (Args.isFlag arg)) argv = true ->
    Args.parseArgsFrom opts (argv ++ [last]) = opts.
Proof.
  induction argv as [|arg|arg next rest IH IHnext] using list_ind_by1or2;
    intros opts last Hf.
  - reflexivity.
  - cbn [app]. rewrite parseArgsFrom_step. cbn [forallb] in Hf.
    apply andb_prop in Hf as [Ha _]. apply negb_true_iff in Ha.
    unfold Args.isFlag in Ha.
    apply orb_false_elim in Ha as [Ha H3].
    apply orb_false_elim in Ha as [H1 H2].
    rewrite H1, H2, H3. reflexivity.
  - change ((arg :: next :: rest) ++ [last])
      with (arg :: next :: (rest ++ [last])).
    rewrite parseArgsFrom_step. cbn [forallb] in Hf.
    apply andb_prop in Hf as [Ha Hf]. apply negb_true_iff in Ha.
    unfold Args.isFlag in Ha.
    apply orb_false_elim in Ha as [Ha H3].
    apply orb_false_elim in Ha as [H1 H2].
    rewrite H1, H2, H3. cbn [andb].
    apply (IHnext opts last). exact Hf.
Qed.

Example parseArgs_repo_and_patterns :
  Args.parseArgs Samples.host
    [lit "--repo"; lit "/x"; lit "--files-include"; lit " a , ,b,";
     lit "--files-exclude"; lit "x"; lit "--files-exclude"; lit "y"]
  = {| repo := lit "/x";
       include := [lit "a"; lit "b"];
       exclude := [lit "node_modules/**"; lit ".next/**"; lit "dist/**";
                   lit "x"; lit "y"] |}.
Proof. reflexivity. Qed.

Example parseArgs_empty_value :
  Args.parseArgs Samples.host [lit "--repo"; []; lit "--repo"; lit "z"]
  = {| repo := lit "z";
       include := [lit "**/*.{ts,tsx,js,jsx}"];
       exclude := [lit "node_modules/**"; lit ".next/**"; lit "dist/**"] |}.
Proof. reflexivity. Qed.

Example parseArgs_brace_pattern_is_cut :
  include (Args.parseArgs Samples.host
             [lit "--files-include"; lit "**/*.{ts,tsx}"])
  = [lit "**/*.{ts"; lit "tsx}"].
Proof. reflexivity. Qed.

End Options.

(** An argument that takes no value is stepped over alone. *)
Lemma parseArgsFrom_skip_one (opts : CliOptions) (arg next : jsstring)
    (rest : list jsstring) :
  Args.isFlag arg && truthy next = false ->
  Args.parseArgsFrom opts (arg :: next :: rest)
  = Args.parseArgsFrom opts (next :: rest).
Proof.
  intros H. rewrite parseArgsFrom_step. unfold Args.isFlag in H.
  destruct (truthy next).
  - rewrite andb_true_r in H.
    apply orb_false_elim in H as [H H3].
    apply orb_false_elim in H as [H1 H2].
    rewrite H1, H2, H3. reflexivity.
  - rewrite !andb_false_r. reflexivity.
Qed.

Lemma parseArgsFrom_skips (before : list jsstring) :
  forall opts rest,
    forallb (fun arg => negb (Args.isFlag arg)) before = true ->
    Args.parseArgsFrom opts (before ++ rest) = Args.parseArgsFrom opts rest.
Proof.
  induction before as [|arg before IH]; intros opts rest Hf.
  - reflexivity.
  - cbn [forallb] in Hf. apply andb_prop in Hf as [Ha Hf].
    apply negb_true_iff in Ha. cbn [app].
    destruct (before ++ rest) as [|next more] eqn:E.
    + apply app_eq_nil in E as [_ ->]. reflexivity.
    + rewrite parseArgsFrom_skip_one by (rewrite Ha; reflexivity).
      rewrite <- E. apply IH. exact Hf.
Qed.

(** What the loop adds to the exclude patterns depends on the arguments
    only. *)
Lemma parseArgsFrom_exclude_extra (argv : list jsstring) :
  forall opts1 opts2,
    exists extra,
      exclude (Args.parseArgsFrom opts1 argv) = exclude opts1 ++ extra
      /\ exclude (Args.parseArgsFrom opts2 argv) = exclude opts2 ++ extra.
Proof.
  induction argv as [|arg|arg next rest IH IHnext] using list_ind_by1or2;
    intros opts1 opts2.
  - exists []. rewrite !app_nil_r. split; reflexivity.
  - exists []. rewrite !app_nil_r. split; reflexivity.
  - rewrite !parseArgsFrom_step.
    destruct (strictEq arg (lit "--repo") && truthy next).
    { destruct (IH {| repo := next; include := include opts1;
                      exclude := exclude opts1 |}
                   {| repo := next; include := include opts2;
                      exclude := exclude opts2 |}) as (extra & H1 & H2).
      exists extra. split; assumption. }
    destruct (strictEq arg (lit "--files-include") && truthy next).
    { destruct (IH {| repo := repo opts1; include := Args.patterns next;
                      exclude := exclude opts1 |}
                   {| repo := repo opts2; include := Args.patterns next;
                      exclude := exclude opts2 |}) as (extra & H1 & H2).
      exists extra. split; assumption. }
    destruct (strictEq arg (lit "--files-exclude") && truthy next).
    { destruct (IH {| repo := repo opts1; include := include opts1;
                      exclude := exclude opts1 ++ Args.patterns next |}
                   {| repo := repo opts2; include := include opts2;
                      exclude := exclude opts2 ++ Args.patterns next |})
        as (extra & H1 & H2).
      cbn [exclude] in H1, H2.
      exists (Args.patterns next ++ extra).
      rewrite H1, H2, <- !app_assoc. split; reflexivity. }
    apply IHnext.
Qed.

(** The exclude patterns after a flag with a value, from those of the
    arguments that follow. *)
Lemma parseArgsFrom_exclude_flag (opts : CliOptions) (value : jsstring)
    (after extra : list jsstring) :
  value <> [] ->
  exclude (Args.parseArgsFrom opts after) = exclude opts ++ extra ->
  exclude (Args.parseArgsFrom opts (lit "--files-exclude" :: value :: after))
  = exclude opts ++ Args.patterns value ++ extra.
Proof.
  intros Hv He. rewrite parseArgsFrom_step.
  destruct value as [|c value]; [destruct Hv; reflexivity|].
  change (strictEq (lit "--files-exclude") (lit "--repo")) with false.
  change (strictEq (lit "--files-exclude") (lit "--files-include")) with false.
  change (strictEq (lit "--files-exclude") (lit "--files-exclude")) with true.
  cbn [andb truthy].
  destruct (parseArgsFrom_exclude_extra after
              {| repo := repo opts; include := include opts;
                 exclude := exclude opts ++ Args.patterns (c :: value) |}
              opts) as (e & H1 & H2).
  rewrite H1. cbn [exclude]. rewrite He in H2.
  apply app_inv_head in H2. rewrite H2, <- app_assoc. reflexivity.
Qed.

Lemma parseArgsFrom_exclude_other_flag (opts : CliOptions)
    (flag value : jsstring) (after : list jsstring) :
  flag = lit "--repo" \/ flag = lit "--files-include" ->
  value <> [] ->
  exclude (Args.parseArgsFrom opts (flag :: value :: after))
  = exclude (Args.parseArgsFrom opts after).
Proof.
  intros Hflag Hv. rewrite parseArgsFrom_step.
  destruct value as [|c value]; [destruct Hv; reflexivity|].
  destruct Hflag as [-> | ->].
  - change (strictEq (lit "--repo") (lit "--repo")) with true.
    cbn [andb truthy].
    destruct (parseArgsFrom_exclude_extra after
                {| repo := c :: value; include := include opts;
                   exclude := exclude opts |} opts) as (e & H1 & H2).
    rewrite H1, H2. reflexivity.
  - change (strictEq (lit "--files-include") (lit "--repo")) with false.
    change (strictEq (lit "--files-include") (lit "--files-include"))
      with true.
    cbn [andb truthy].
    destruct (parseArgsFrom_exclude_extra after
                {| repo := repo opts;
                   include := Args.patterns (c :: value);
                   exclude := exclude opts |} opts) as (e & H1 & H2).
    rewrite H1, H2. reflexivity.
Qed.

Lemma parseArgsFrom_empty_value (opts : CliOptions) (flag : jsstring)
    (after : list jsstring) :
  Args.parseArgsFrom opts (flag :: [] :: after)
  = Args.parseArgsFrom opts after.
Proof.
  rewrite parseArgsFrom_skip_one by apply andb_false_r.
  destruct after as [|next rest]; [reflexivity|].
  apply parseArgsFrom_skip_one. reflexivity.
Qed.

(** X21. [parseArgs] never drops an exclude pattern and adds those of every
    [--files-exclude] that has a value, in the order of the flags.  Its
    exclude list is the three defaults followed by clean patterns.  After
    arguments among which there is no flag: at the end of the arguments, or
    with one more argument in the last place, the list is the three
    defaults; [--files-exclude] with a value puts the patterns of the value
    between the defaults and what the arguments after the value add;
    [--repo] and [--files-include] with a value add nothing to what the
    arguments after the value give; and an argument followed by the empty
    string adds nothing either. *)
Theorem parseArgs_keeps_the_default_excludes :
  forall host : Host,
    (forall argv : list jsstring,
        exists extra,
          exclude (Args.parseArgs host argv)
          = [lit "node_modules/**"; lit ".next/**"; lit "dist/**"] ++ extra
          /\ Forall (fun p => Args.isCleanPattern p = true) extra)
    /\ (forall before : list jsstring,
           forallb (fun arg => negb (Args.isFlag arg)) before = true ->
           exclude (Args.parseArgs host before)
           = [lit "node_modules/**"; lit ".next/**"; lit "dist/**"]
           /\ (forall last,
                  exclude (Args.parseArgs host (before ++ [last]))
                  = [lit "node_modules/**"; lit ".next/**"; lit "dist/**"])
           /\ (forall value after extra,
                  value <> [] ->
                  exclude (Args.parseArgs host after)
                  = [lit "node_modules/**"; lit ".next/**"; lit "dist/**"]
                    ++ extra ->
                  exclude (Args.parseArgs host
                             (before ++ lit "--files-exclude" :: value :: after))
                  = [lit "node_modules/**"; lit ".next/**"; lit "dist/**"]
                    ++ Args.patterns value ++ extra)
           /\ (forall flag value after,
                  flag = lit "--repo" \/ flag = lit "--files-include" ->
                  value <> [] ->
                  exclude (Args.parseArgs host
                             (before ++ flag :: value :: after))
                  = exclude (Args.parseArgs host after))
           /\ (forall arg after,
                  exclude (Args.parseArgs host (before ++ arg :: [] :: after))
                  = exclude (Args.parseArgs host after))).
Proof.
  intros host. split.
  - intros argv. unfold Args.parseArgs.
    destruct (parseArgsFrom_result argv (Args.defaultOptions host))
      as ((extra & He & Hc) & _).
    exists extra. split; [exact He | exact Hc].
  - intros before Hf. unfold Args.parseArgs.
    split; [|split; [|split; [|split]]].
    + rewrite parseArgsFrom_without_flags by exact Hf. reflexivity.
    + intros last. rewrite parseArgsFrom_last_ignored by exact Hf.
      reflexivity.
    + intros value after extra Hv He.
      rewrite parseArgsFrom_skips by exact Hf.
      apply (parseArgsFrom_exclude_flag (Args.defaultOptions host));
        assumption.
    + intros flag value after Hflag Hv.
      rewrite parseArgsFrom_skips by exact Hf.
      apply parseArgsFrom_exclude_other_flag; assumption.
    + intros arg after. rewrite parseArgsFrom_skips by exact Hf.
      rewrite parseArgsFrom_empty_value. reflexivity.
Qed.

Lemma parseArgs_keeps_the_default_excludes_witness :
  exclude (Args.parseArgs Samples.host
             [lit "--verbose"; lit "--files-exclude"; lit "build/**, ,tmp";
              lit "--repo"; lit "/x"; lit "--files-exclude"; lit "out"])
  = [lit "node_modules/**"; lit ".next/**"; lit "dist/**"]
    ++ Args.patterns (lit "build/**, ,tmp") ++ [lit "out"].
Proof.
  apply (proj1 (proj2 (proj2
           (proj2 (parseArgs_keeps_the_default_excludes Samples.host)
              [lit "--verbose"] eq_refl)))
           (lit "build/**, ,tmp")
           [lit "--repo"; lit "/x"; lit "--files-exclude"; lit "out"]
           [lit "out"]).
  - discriminate.
  - reflexivity.
Defined.

(** X22. A pattern list given to [--files-include] or [--files-exclude]
    is cut at every comma, each piece is trimmed and empty pieces are left
    out: every resulting pattern is not empty, has no comma and no white
    space at either end.  So a brace pattern with a comma, like the default
    include pattern, cannot be passed through a flag. *)
Theorem patterns_are_trimmed_pieces :
  forall value : jsstring,
    Forall (fun p => Args.isCleanPattern p = true) (Args.patterns value).
Proof. exact patterns_clean. Qed.

(** X23. The include patterns [parseArgs] returns are the default ones or
    the pieces of one argument that is not empty, and the repository it
    returns is the working directory or an argument that is not empty. *)
Theorem parseArgs_takes_values_from_the_arguments :
  forall (host : Host) (argv : list jsstring),
    (include (Args.parseArgs host argv) = [lit "**/*.{ts,tsx,js,jsx}"]
     \/ exists value,
          In value argv /\ value <> []
          /\ include (Args.parseArgs host argv) = Args.patterns value)
    /\ (repo (Args.parseArgs host argv) = cwd host
        \/ (In (repo (Args.parseArgs host argv)) argv
            /\ repo (Args.parseArgs host argv) <> [])).
Proof.
  intros host argv. unfold Args.parseArgs.
  destruct (parseArgsFrom_result argv (Args.defaultOptions host))
    as (_ & Hi & Hr).
  split; assumption.
Qed.

(** X24. Arguments among which none is [--repo], [--files-include] or
    [--files-exclude] change nothing, and neither does one more argument
    after them, flag or not, since a flag in the last place has no value:
    [parseArgs] returns the defaults. *)
Theorem parseArgs_ignores_other_arguments :
  forall (host : Host) (argv : list jsstring),
    forallb (fun arg => negb (Args.isFlag arg)) argv = true ->
    Args.parseArgs host argv = Args.defaultOptions host
    /\ forall last,
         Args.parseArgs host (argv ++ [last]) = Args.defaultOptions host.
Proof.
  intros host argv Hf. split.
  - apply parseArgsFrom_without_flags. exact Hf.
  - intros last. apply parseArgsFrom_last_ignored. exact Hf.
Qed.

Lemma parseArgs_ignores_other_arguments_witness :
  Args.parseArgs Samples.host [lit "--verbose"; lit "src"]
  = Args.defaultOptions Samples.host
  /\ forall last,
       Args.parseArgs Samples.host ([lit "--verbose"; lit "src"] ++ [last])
       = Args.defaultOptions Samples.host.
Proof.
  apply (parseArgs_ignores_other_arguments Samples.host
                                           [lit "--verbose"; lit "src"]).
  reflexivity.
Defined.

(** ** Nested units and names that are missing *)

Section Nesting.

(** A descendant of a descendant is a descendant. *)
Lemma forEachDescendant_transitive :
  forall (n m x : Node),
    In m (forEachDescendant n) -> In x (forEachDescendant m) ->
    In x (forEachDescendant n).
Proof.
  fix IH 1.
  intros [id k path sym nm nt mods asy tx lt st en ix children] m x.
  cbn [forEachDescendant forEachChild].
  revert children.
  fix IHcs 1. intros [|c cs]; cbn [flat_map]; intros Hm Hx.
  - destruct Hm.
  - destruct Hm as [E|Hm].
    + right. apply in_or_app. left. rewrite E. exact Hx.
    + apply in_app_or in Hm as [Hm|Hm].
      * right. apply in_or_app. left. apply (IH c m x Hm Hx).
      * right. apply in_or_app. right. apply (IHcs cs Hm Hx).
Qed.

End Nesting.

(** X25. A call is recorded for every function around it: the records
    [collectCallOccurrences] writes for a node that lies inside a container
    are, for the same subject, among the records of the container; so the
    occurrences of an outer function include the calls of the functions
    nested in it. *)
Theorem calls_of_nested_functions_count_for_the_outer_one :
  forall (host : Host) (project : Project) (checker : TypeChecker)
         (outer inner : Node) (subjectId : jsstring),
    In inner (forEachDescendant outer) ->
    incl (collectCallOccurrences host project inner subjectId checker)
         (collectCallOccurrences host project outer subjectId checker).
Proof.
  intros host project checker outer inner subjectId Hin r Hr.
  unfold collectCallOccurrences in *.
  apply in_flat_map in Hr as (node & Hnode & Hr).
  apply in_flat_map. exists node. split; [|exact Hr].
  apply (forEachDescendant_transitive outer inner node Hin Hnode).
Qed.

Lemma calls_of_nested_functions_witness :
  incl (collectCallOccurrences Samples.host
          (Samples.projectOf [Samples.nFile]) Samples.innerDeclaration
          (symbolId (lit "callable") (lit "n.outer")) Samples.checker)
       (collectCallOccurrences Samples.host
          (Samples.projectOf [Samples.nFile]) Samples.outerDeclaration
          (symbolId (lit "callable") (lit "n.outer")) Samples.checker).
Proof.
  apply (calls_of_nested_functions_count_for_the_outer_one
           Samples.host (Samples.projectOf [Samples.nFile]) Samples.checker
           Samples.outerDeclaration Samples.innerDeclaration
           (symbolId (lit "callable") (lit "n.outer"))).
  vm_compute. right. right. left. reflexivity.
Defined.

(** X26. A class, interface or enum unit whose node has no name of its
    own (an anonymous default-exported class) is named after its syntax kind:
    ["ClassDeclaration"], ["InterfaceDeclaration"] or ["EnumDeclaration"]. *)
Theorem unnamed_classifier_is_named_after_its_kind :
  forall (host : Host) (project : Project) (sourceFile : SourceFile)
         (checker : TypeChecker) (v : Visit) (u : UnitRecord.t),
    In u (fst (visitUnit host project sourceFile checker v)) ->
    UnitRecord.kind u = classifier ->
    whenTruthy (getName (visited v)) = None ->
    UnitRecord.name u = getKindNameOf (getKind (visited v))
    /\ In (UnitRecord.name u)
          [lit "ClassDeclaration"; lit "InterfaceDeclaration";
           lit "EnumDeclaration"].
Proof.
  intros host project sourceFile checker v u Hu Hk Hn.
  apply visitUnit_unit_fields in Hu as (Hunit & _ & _ & Hkind & _ & Hname).
  rewrite Hkind in Hk. rewrite Hname.
  unfold inferNodeName, inferUnitKind, isUnitNode, isArrowFunction,
    isFunctionExpression, isFunctionDeclaration, isVariableDeclaration,
    isClassDeclaration, isInterfaceDeclaration, isEnumDeclaration,
    isMethodDeclaration, isGetAccessorDeclaration, isSetAccessorDeclaration
    in *.
  destruct (getKind (visited v)); try discriminate Hk;
    try discriminate Hunit; cbn [orb] in *; rewrite Hn;
    (split; [reflexivity|]); cbn [In getKindNameOf]; auto.
Qed.

Lemma unnamed_classifier_witness :
  exists u,
    fst (visitUnit Samples.host (Samples.projectOf [MoreSamples.gFile])
           MoreSamples.gFile Samples.checker
           (mkVisit [rootNode MoreSamples.gFile] MoreSamples.anonymousClass))
    = [u]
    /\ UnitRecord.name u = lit "ClassDeclaration"
    /\ UnitRecord.qualifiedName u = lit "g.default".
Proof.
  set (v := mkVisit [rootNode MoreSamples.gFile] MoreSamples.anonymousClass).
  destruct (fst (visitUnit Samples.host (Samples.projectOf [MoreSamples.gFile])
                   MoreSamples.gFile Samples.checker v)) as [|u rest] eqn:E.
  - vm_compute in E. discriminate E.
  - assert (Hin : In u (fst (visitUnit Samples.host
                               (Samples.projectOf [MoreSamples.gFile])
                               MoreSamples.gFile Samples.checker v)))
      by (rewrite E; left; reflexivity).
    assert (Hrest : rest = [] /\ UnitRecord.kind u = classifier
                    /\ UnitRecord.qualifiedName u = lit "g.default").
    { vm_compute in E. injection E as <- <-. repeat split. }
    destruct Hrest as (-> & Hk & Hq).
    exists u. split; [reflexivity|]. split; [|exact Hq].
    apply (proj1 (unnamed_classifier_is_named_after_its_kind
                    Samples.host (Samples.projectOf [MoreSamples.gFile])
                    MoreSamples.gFile Samples.checker v u Hin Hk eq_refl)).
Defined.
